(** * netplan: serialising a network definition to YAML (src/netplan.c)

    A shallow embedding of [write_match], [_passthrough_handler],
    [write_backend_settings], [write_access_points] and
    [write_netplan_conf], over an explicit model of the libyaml emitter,
    of the output stream and of GLib's warning log. *)

From Stdlib Require Import String Ascii List Arith Bool Lia.
Import ListNotations.
Open Scope string_scope.

(** ** Data model *)

(** Modelled from the spec: the enumerations and structures below are
    declared in netplan.h, which is not part of the sources at hand.  The
    spec (section 3) gives the closed set of device types, the backend
    settings record and the access-point record; the field names are the
    ones netplan.c reads. *)
Inductive NetplanDefType : Type :=
| NETPLAN_DEF_TYPE_ETHERNET
| NETPLAN_DEF_TYPE_WIFI
| NETPLAN_DEF_TYPE_MODEM
| NETPLAN_DEF_TYPE_BRIDGE
| NETPLAN_DEF_TYPE_BOND
| NETPLAN_DEF_TYPE_VLAN
| NETPLAN_DEF_TYPE_TUNNEL
| NETPLAN_DEF_TYPE_OTHER.

Inductive NetplanBackend : Type :=
| NETPLAN_BACKEND_NONE
| NETPLAN_BACKEND_NETWORKD
| NETPLAN_BACKEND_NM.

Inductive NetplanWifiMode : Type :=
| NETPLAN_WIFI_MODE_INFRASTRUCTURE
| NETPLAN_WIFI_MODE_ADHOC
| NETPLAN_WIFI_MODE_AP
| NETPLAN_WIFI_MODE_OTHER.

Definition def_type_eqb (a b : NetplanDefType) : bool :=
  match a, b with
  | NETPLAN_DEF_TYPE_ETHERNET, NETPLAN_DEF_TYPE_ETHERNET
  | NETPLAN_DEF_TYPE_WIFI, NETPLAN_DEF_TYPE_WIFI
  | NETPLAN_DEF_TYPE_MODEM, NETPLAN_DEF_TYPE_MODEM
  | NETPLAN_DEF_TYPE_BRIDGE, NETPLAN_DEF_TYPE_BRIDGE
  | NETPLAN_DEF_TYPE_BOND, NETPLAN_DEF_TYPE_BOND
  | NETPLAN_DEF_TYPE_VLAN, NETPLAN_DEF_TYPE_VLAN
  | NETPLAN_DEF_TYPE_TUNNEL, NETPLAN_DEF_TYPE_TUNNEL
  | NETPLAN_DEF_TYPE_OTHER, NETPLAN_DEF_TYPE_OTHER => true
  | _, _ => false
  end.

Definition wifi_mode_eqb (a b : NetplanWifiMode) : bool :=
  match a, b with
  | NETPLAN_WIFI_MODE_INFRASTRUCTURE, NETPLAN_WIFI_MODE_INFRASTRUCTURE
  | NETPLAN_WIFI_MODE_ADHOC, NETPLAN_WIFI_MODE_ADHOC
  | NETPLAN_WIFI_MODE_AP, NETPLAN_WIFI_MODE_AP
  | NETPLAN_WIFI_MODE_OTHER, NETPLAN_WIFI_MODE_OTHER => true
  | _, _ => false
  end.

(** A [char*] that may be NULL is an [option string]; [Some ""] is the
    empty, non-NULL string.  A [GData*] datalist is NULL exactly when it
    holds no element, so the passthrough datalist is the list of its
    (key, value) pairs in the order [g_datalist_foreach] visits them, and
    [[]] is the NULL datalist. *)
Record NetplanNMSettings : Type := {
  uuid : option string;
  name : option string;
  passthrough : list (string * string)
}.

Record NetplanBackendSettings : Type := {
  nm : NetplanNMSettings
}.

Record NetplanWifiAccessPoint : Type := {
  ssid : string;
  hidden : bool;
  mode : NetplanWifiMode;
  ap_backend_settings : NetplanBackendSettings
}.

Record NetplanModemParams : Type := {
  auto_config : bool;
  apn : option string;
  device_id : option string;
  network_id : option string;
  pin : option string;
  sim_id : option string;
  sim_operator_id : option string
}.

Record NetplanMatch : Type := {
  original_name : option string
}.

(** [access_points] is the GHashTable of the definition, as the list of
    its values in the order the table iterator yields them. *)
Record NetplanNetDefinition : Type := {
  def_type : NetplanDefType;
  def_backend : NetplanBackend;
  def_id : string;
  has_match : bool;
  def_match : NetplanMatch;
  wake_on_lan : bool;
  modem_params : NetplanModemParams;
  access_points : list NetplanWifiAccessPoint;
  backend_settings : NetplanBackendSettings
}.

(** ** Building the output path *)

(** GLib's [g_build_path] with the separator [G_DIR_SEPARATOR_S], which is
    the one-character string "/" here.  The function walks the elements
    and keeps what the C loop keeps: the text built so far ([result]),
    whether nothing was appended yet ([is_first]), whether the leading
    separators of the first non-empty element were copied
    ([have_leading]), the element that consists of separators only when
    it is the only non-empty one ([single_element]), and the trailing
    separators of the last non-empty element ([last_trailing]).  Empty
    elements are ignored. *)
Definition is_separator (c : ascii) : bool := Ascii.eqb c "/"%char.

Fixpoint skip_separators (s : string) : string :=
  match s with
  | String c s' => if is_separator c then skip_separators s' else s
  | EmptyString => EmptyString
  end.

Fixpoint leading_separators (s : string) : string :=
  match s with
  | String c s' =>
      if is_separator c then String c (leading_separators s')
      else EmptyString
  | EmptyString => EmptyString
  end.

Definition is_empty (s : string) : bool :=
  match s with EmptyString => true | String _ _ => false end.

Fixpoint drop_trailing_separators (s : string) : string :=
  match s with
  | EmptyString => EmptyString
  | String c s' =>
      let r := drop_trailing_separators s' in
      if is_separator c && is_empty r then EmptyString else String c r
  end.

Fixpoint trailing_separators (s : string) : string :=
  match s with
  | EmptyString => EmptyString
  | String c s' =>
      if is_empty (skip_separators s) then s else trailing_separators s'
  end.

Record build_path_state : Type := {
  result : string;
  is_first : bool;
  have_leading : bool;
  single_element : option string;
  last_trailing : option string
}.

Definition build_path_step (st : build_path_state) (element : string)
    : build_path_state :=
  if is_empty element then st
  else
    let start := skip_separators element in
    let body := drop_trailing_separators start in
    let st1 :=
      if have_leading st
      then {| result := result st; is_first := is_first st;
              have_leading := true; single_element := None;
              last_trailing := Some (trailing_separators element) |}
      else {| result := result st ++ leading_separators element;
              is_first := is_first st; have_leading := true;
              single_element :=
                if is_empty body then Some element else single_element st;
              last_trailing := Some (trailing_separators element) |} in
    if is_empty body then st1
    else {| result :=
              result st1 ++ (if is_first st1 then "" else "/") ++ body;
            is_first := false; have_leading := have_leading st1;
            single_element := single_element st1;
            last_trailing := last_trailing st1 |}.

Definition build_path_start : build_path_state :=
  {| result := ""; is_first := true; have_leading := false;
     single_element := None; last_trailing := None |}.

Definition g_build_path (elements : list string) : string :=
  let st := fold_left build_path_step elements build_path_start in
  match single_element st with
  | Some e => e
  | None =>
      match last_trailing st with
      | Some t => result st ++ t
      | None => result st
      end
  end.

(** The file name and the path [write_netplan_conf] computes before it
    opens the stream; [rootdir] is [None] for a NULL pointer. *)
Definition conf_filename (def : NetplanNetDefinition) : string :=
  match uuid (nm (backend_settings def)) with
  | Some u => "90-NM-" ++ u ++ ".yaml"
  | None => "10-netplan-" ++ def_id def ++ ".yaml"
  end.

Definition conf_path (def : NetplanNetDefinition) (rootdir : option string)
    : string :=
  g_build_path
    [match rootdir with Some r => r | None => "" end;
     "etc"; "netplan"; conf_filename def].

(** ** The document writer, the output stream and the warning log *)

Inductive scalar_style : Type := PLAIN | QUOTED.

Inductive yaml_event : Type :=
| STREAM_START
| DOCUMENT_START
| MAPPING_START
| MAPPING_END
| SCALAR (style : scalar_style) (value : string)
| DOCUMENT_END
| STREAM_END.

Inductive emitter_state : Type :=
| EMITTER_NONE
| EMITTER_READY
| EMITTER_DELETED.

Inductive stream_state : Type :=
| STREAM_NONE
| STREAM_OPEN (path : string)
| STREAM_CLOSED (path : string).

(** [emitted]: the events the emitter accepted, oldest first; [calls]: how
    many times [yaml_emitter_emit] was called; [warnings]: the messages
    passed to [g_warning]; [fcloses]: how many times [fclose] ran. *)
Record world : Type := {
  emitted : list yaml_event;
  calls : nat;
  warnings : list string;
  emitter : emitter_state;
  output : stream_state;
  fcloses : nat
}.

Definition world0 : world :=
  {| emitted := []; calls := 0; warnings := [];
     emitter := EMITTER_NONE; output := STREAM_NONE; fcloses := 0 |}.

(** A writer that accepts every event. *)
Definition never_fails : nat -> bool := fun _ => false.

(** A writer that rejects the call number [k] (counting from 0) and no
    other. *)
Definition fails_only_at (k : nat) : nat -> bool := fun n => Nat.eqb n k.

(** Code that ends in [return TRUE] or in [error: return FALSE]: the
    boolean tells which, and the state reached comes with it. *)
Definition Y : Type := world -> bool * world.

Definition andthen (a b : Y) : Y :=
  fun w => let (ok, w') := a w in if ok then b w' else (false, w').

Definition skip : Y := fun w => (true, w).

Definition lift (f : world -> world) : Y := fun w => (true, f w).

Definition set_emitter (e : emitter_state) (w : world) : world :=
  {| emitted := emitted w; calls := calls w; warnings := warnings w;
     emitter := e; output := output w; fcloses := fcloses w |}.

Definition set_output (o : stream_state) (w : world) : world :=
  {| emitted := emitted w; calls := calls w; warnings := warnings w;
     emitter := emitter w; output := o; fcloses := fcloses w |}.

(** [fclose]: an open stream becomes a closed one. *)
Definition fclose (w : world) : world :=
  {| emitted := emitted w; calls := calls w; warnings := warnings w;
     emitter := emitter w;
     output := match output w with
               | STREAM_OPEN p => STREAM_CLOSED p
               | o => o
               end;
     fcloses := S (fcloses w) |}.

Definition when (c : bool) (a : Y) : Y := if c then a else skip.

(** A call whose result the caller does not look at. *)
Definition unchecked (a : Y) : Y := fun w => (true, snd (a w)).

Declare Scope yaml_scope.
Delimit Scope yaml_scope with yaml.
Notation "a ;; b" := (andthen a b)
  (at level 61, right associativity) : yaml_scope.
Open Scope yaml_scope.

Definition with_value {A} (o : option A) (f : A -> Y) : Y :=
  match o with
  | Some v => f v
  | None => skip
  end.

Definition is_some {A} (o : option A) : bool :=
  match o with Some _ => true | None => false end.

Definition nonempty {A} (l : list A) : bool :=
  match l with [] => false | _ :: _ => true end.

Section Writer.

(** The document writer is an external collaborator each of whose
    operations can fail: [fails n] tells whether the call number [n] of
    [yaml_emitter_emit] is rejected. *)
Variable fails : nat -> bool.

(** [yaml_emitter_emit] of libyaml, as the code sees it: the call either
    accepts the event, which is then part of the output, or rejects it
    and returns 0, and the event is not written. *)
Definition yaml_emitter_emit (e : yaml_event) : Y :=
  fun w =>
    if fails (calls w)
    then (false,
          {| emitted := emitted w; calls := S (calls w);
             warnings := warnings w; emitter := emitter w;
             output := output w; fcloses := fcloses w |})
    else (true,
          {| emitted := emitted w ++ [e]; calls := S (calls w);
             warnings := warnings w; emitter := emitter w;
             output := output w; fcloses := fcloses w |}).

(** Modelled from the spec: the YAML_* macros of netplan.h, which is not
    part of the sources at hand.  Each initialises one event, hands it to
    the emitter and jumps to the [error] label of the enclosing function
    when the emitter rejects it (the spec's open mapping, close mapping,
    plain scalar and quoted scalar operations, "each of which can fail").
    YAML_STRING and YAML_STRING_PLAIN write a key and its value only when
    the value pointer is not NULL. *)
Definition YAML_MAPPING_OPEN : Y := yaml_emitter_emit MAPPING_START.
Definition YAML_MAPPING_CLOSE : Y := yaml_emitter_emit MAPPING_END.
Definition YAML_SCALAR_PLAIN (s : string) : Y :=
  yaml_emitter_emit (SCALAR PLAIN s).
Definition YAML_SCALAR_QUOTED (s : string) : Y :=
  yaml_emitter_emit (SCALAR QUOTED s).
Definition YAML_STRING (key : string) (value_ptr : option string) : Y :=
  with_value value_ptr
    (fun v => YAML_SCALAR_PLAIN key ;; YAML_SCALAR_QUOTED v).
Definition YAML_STRING_PLAIN (key : string) (value_ptr : option string) : Y :=
  with_value value_ptr
    (fun v => YAML_SCALAR_PLAIN key ;; YAML_SCALAR_PLAIN v).

Definition yaml_emitter_initialize : Y := lift (set_emitter EMITTER_READY).

Definition yaml_emitter_delete : Y := lift (set_emitter EMITTER_DELETED).

(** Modelled from the spec: YAML_OUT_START and YAML_OUT_STOP of netplan.h.
    The first sets the emitter up on the stream and opens the stream, the
    document and the root mapping; the second closes the three and
    deletes the emitter ("finalizes the output stream"). *)
Definition YAML_OUT_START : Y :=
  yaml_emitter_initialize ;;
  yaml_emitter_emit STREAM_START ;;
  yaml_emitter_emit DOCUMENT_START ;;
  yaml_emitter_emit MAPPING_START.

Definition YAML_OUT_STOP : Y :=
  yaml_emitter_emit MAPPING_END ;;
  yaml_emitter_emit DOCUMENT_END ;;
  yaml_emitter_emit STREAM_END ;;
  yaml_emitter_delete.

(** [g_warning]: the message is logged and the program goes on. *)
Definition g_warning (msg : string) : Y :=
  lift (fun w =>
     {| emitted := emitted w; calls := calls w;
        warnings := warnings w ++ [msg]; emitter := emitter w;
        output := output w; fcloses := fcloses w |}).

(** ** The emitters of netplan.c *)

Definition write_match (def : NetplanNetDefinition) : Y :=
  YAML_SCALAR_PLAIN "match" ;;
  YAML_MAPPING_OPEN ;;
  YAML_STRING "name" (original_name (def_match def)) ;;
  YAML_MAPPING_CLOSE.

(** The callback returns [void]: its [error] label only leaves the
    callback, and the state it reached is all that remains of the call. *)
Definition _passthrough_handler (kv : string * string) (w : world) : world :=
  snd ((YAML_SCALAR_PLAIN (fst kv) ;; YAML_SCALAR_QUOTED (snd kv)) w).

(** [g_datalist_foreach] calls the function once for each element. *)
Definition g_datalist_foreach (datalist : list (string * string))
    (func : string * string -> world -> world) : Y :=
  fun w => (true, fold_left (fun w' kv => func kv w') datalist w).

Definition write_backend_settings (s : NetplanBackendSettings) : Y :=
  when (is_some (uuid (nm s)) || is_some (name (nm s))
        || nonempty (passthrough (nm s)))
    (YAML_SCALAR_PLAIN "networkmanager" ;;
     YAML_MAPPING_OPEN ;;
     with_value (uuid (nm s))
       (fun u => YAML_SCALAR_PLAIN "uuid" ;; YAML_SCALAR_PLAIN u) ;;
     with_value (name (nm s))
       (fun n => YAML_SCALAR_PLAIN "name" ;; YAML_SCALAR_QUOTED n) ;;
     when (nonempty (passthrough (nm s)))
       (YAML_SCALAR_PLAIN "passthrough" ;;
        YAML_MAPPING_OPEN ;;
        g_datalist_foreach (passthrough (nm s)) _passthrough_handler ;;
        YAML_MAPPING_CLOSE) ;;
     YAML_MAPPING_CLOSE).

Definition unsupported_mode_warning (id ap_ssid : string) : string :=
  "netplan: serialize: " ++ id ++ " (SSID " ++ ap_ssid
  ++ "), unsupported AP mode, falling back to 'infrastructure'".

Section Tables.

(** The lookup tables of netplan.h, taken as they come. A NULL entry of
    the backend table is [None]. *)
Variable netplan_def_type_to_str : NetplanDefType -> string.
Variable netplan_backend_to_name : NetplanBackend -> option string.
Variable netplan_wifi_mode_to_str : NetplanWifiMode -> string.

(** The body of the [while] loop of [write_access_points]. *)
Definition write_access_point (id : string) (ap : NetplanWifiAccessPoint) : Y :=
  YAML_SCALAR_QUOTED (ssid ap) ;;
  YAML_MAPPING_OPEN ;;
  when (hidden ap)
    (YAML_SCALAR_PLAIN "hidden" ;; YAML_SCALAR_PLAIN "true") ;;
  YAML_SCALAR_PLAIN "mode" ;;
  (if negb (wifi_mode_eqb (mode ap) NETPLAN_WIFI_MODE_OTHER)
   then YAML_SCALAR_PLAIN (netplan_wifi_mode_to_str (mode ap))
   else g_warning (unsupported_mode_warning id (ssid ap)) ;;
        YAML_SCALAR_PLAIN "infrastructure") ;;
  write_backend_settings (ap_backend_settings ap) ;;
  YAML_MAPPING_CLOSE.

Fixpoint access_points_loop (id : string)
    (aps : list NetplanWifiAccessPoint) : Y :=
  match aps with
  | [] => skip
  | ap :: rest => write_access_point id ap ;; access_points_loop id rest
  end.

Definition write_access_points (def : NetplanNetDefinition) : Y :=
  YAML_SCALAR_PLAIN "access-points" ;;
  YAML_MAPPING_OPEN ;;
  access_points_loop (def_id def) (access_points def) ;;
  YAML_MAPPING_CLOSE.

(** Whether [fopen] can open a path for writing is up to the file
    system. *)
Variable can_open : string -> bool.

(** [fopen (path, "wb")]: [None] is the NULL pointer. *)
Definition fopen (path : string) (w : world) : option world :=
  if can_open path then Some (set_output (STREAM_OPEN path) w) else None.

(** Lines 139 to 182 of [write_netplan_conf]: [true] when control reaches
    the [fclose] of the normal exit, [false] when it jumps to [error]. *)
Definition write_netplan_conf_body (def : NetplanNetDefinition) : Y :=
  YAML_OUT_START ;;
  YAML_SCALAR_PLAIN "network" ;;
  YAML_MAPPING_OPEN ;;
  YAML_STRING_PLAIN "version" (Some "2") ;;
  YAML_SCALAR_PLAIN (netplan_def_type_to_str (def_type def)) ;;
  YAML_MAPPING_OPEN ;;
  YAML_SCALAR_PLAIN (def_id def) ;;
  YAML_MAPPING_OPEN ;;
  YAML_STRING_PLAIN "renderer" (netplan_backend_to_name (def_backend def)) ;;
  (if def_type_eqb (def_type def) NETPLAN_DEF_TYPE_OTHER
   then skip
   else
     when (has_match def) (unchecked (write_match def)) ;;
     when (wake_on_lan def) (YAML_STRING_PLAIN "wakeonlan" (Some "true")) ;;
     when (auto_config (modem_params def))
       (YAML_STRING_PLAIN "auto-config" (Some "true")) ;;
     YAML_STRING "apn" (apn (modem_params def)) ;;
     YAML_STRING "device-id" (device_id (modem_params def)) ;;
     YAML_STRING "network-id" (network_id (modem_params def)) ;;
     YAML_STRING "pin" (pin (modem_params def)) ;;
     YAML_STRING "sim-id" (sim_id (modem_params def)) ;;
     YAML_STRING "sim-operator-id" (sim_operator_id (modem_params def)) ;;
     when (def_type_eqb (def_type def) NETPLAN_DEF_TYPE_WIFI)
       (write_access_points def)) ;;
  write_backend_settings (backend_settings def) ;;
  YAML_MAPPING_CLOSE ;;
  YAML_MAPPING_CLOSE ;;
  YAML_MAPPING_CLOSE ;;
  YAML_OUT_STOP.

(** The function returns [void]: what a call leaves behind is the state
    of the stream, of the emitter and of the log.  When [fopen] returns
    NULL the code still hands the stream to the emitter and to [fclose],
    which C leaves undefined: the model has no result there. *)
Definition write_netplan_conf (def : NetplanNetDefinition)
    (rootdir : option string) (w : world) : option world :=
  let path := conf_path def rootdir in
  match fopen path w with
  | None => None
  | Some w1 =>
      let (ok, w2) := write_netplan_conf_body def w1 in
      if ok then Some (fclose w2)
      else Some (fclose (snd (yaml_emitter_delete w2)))
  end.

End Tables.
End Writer.

(** ** What a rendering looks like *)

Open Scope list_scope.

(** The events of one key with its value. *)
Definition pair_events (style : scalar_style) (key : string)
    (value : option string) : list yaml_event :=
  match value with
  | Some v => [SCALAR PLAIN key; SCALAR style v]
  | None => []
  end.

(** The events of one passthrough pair: the key plain, the value quoted. *)
Definition passthrough_pair (kv : string * string) : list yaml_event :=
  [SCALAR PLAIN (fst kv); SCALAR QUOTED (snd kv)].

(** Reading a block of events back as (plain key, quoted value) pairs;
    [None] when the block is not such a sequence. *)
Fixpoint block_pairs (es : list yaml_event) : option (list (string * string)) :=
  match es with
  | [] => Some []
  | SCALAR PLAIN k :: SCALAR QUOTED v :: rest =>
      match block_pairs rest with
      | Some l => Some ((k, v) :: l)
      | None => None
      end
  | _ => None
  end.

(** The state after the events [es] and the warnings [ws] were added, the
    emitter being set to [em] when one is given. *)
Definition logged (es : list yaml_event) (ws : list string)
    (em : option emitter_state) (w : world) : world :=
  {| emitted := emitted w ++ es;
     calls := calls w + length es;
     warnings := warnings w ++ ws;
     emitter := match em with Some e => e | None => emitter w end;
     output := output w;
     fcloses := fcloses w |}.

Definition writes (m : Y) (es : list yaml_event) (ws : list string)
    (em : option emitter_state) : Prop :=
  forall w, m w = (true, logged es ws em w).

Definition or_else {A} (a b : option A) : option A :=
  match a with Some _ => a | None => b end.

(** The events of each part of a document, as the output schema has
    them. *)
Definition match_events (def : NetplanNetDefinition) : list yaml_event :=
  [SCALAR PLAIN "match"; MAPPING_START]
  ++ pair_events QUOTED "name" (original_name (def_match def))
  ++ [MAPPING_END].

Definition flag_events (key : string) (flag : bool) : list yaml_event :=
  if flag then [SCALAR PLAIN key; SCALAR PLAIN "true"] else [].

Definition modem_events (p : NetplanModemParams) : list yaml_event :=
  flag_events "auto-config" (auto_config p)
  ++ pair_events QUOTED "apn" (apn p)
  ++ pair_events QUOTED "device-id" (device_id p)
  ++ pair_events QUOTED "network-id" (network_id p)
  ++ pair_events QUOTED "pin" (pin p)
  ++ pair_events QUOTED "sim-id" (sim_id p)
  ++ pair_events QUOTED "sim-operator-id" (sim_operator_id p).

Definition networkmanager_events (s : NetplanBackendSettings)
    : list yaml_event :=
  if is_some (uuid (nm s)) || is_some (name (nm s))
     || nonempty (passthrough (nm s))
  then [SCALAR PLAIN "networkmanager"; MAPPING_START]
       ++ pair_events PLAIN "uuid" (uuid (nm s))
       ++ pair_events QUOTED "name" (name (nm s))
       ++ (if nonempty (passthrough (nm s))
           then [SCALAR PLAIN "passthrough"; MAPPING_START]
                ++ flat_map passthrough_pair (passthrough (nm s))
                ++ [MAPPING_END]
           else [])
       ++ [MAPPING_END]
  else [].

Definition is_unsupported (ap : NetplanWifiAccessPoint) : bool :=
  wifi_mode_eqb (mode ap) NETPLAN_WIFI_MODE_OTHER.

Definition access_point_events (mode_to_str : NetplanWifiMode -> string)
    (ap : NetplanWifiAccessPoint) : list yaml_event :=
  [SCALAR QUOTED (ssid ap); MAPPING_START]
  ++ flag_events "hidden" (hidden ap)
  ++ [SCALAR PLAIN "mode";
      SCALAR PLAIN (if is_unsupported ap then "infrastructure"
                    else mode_to_str (mode ap))]
  ++ networkmanager_events (ap_backend_settings ap)
  ++ [MAPPING_END].

Definition access_points_events (mode_to_str : NetplanWifiMode -> string)
    (aps : list NetplanWifiAccessPoint) : list yaml_event :=
  [SCALAR PLAIN "access-points"; MAPPING_START]
  ++ flat_map (access_point_events mode_to_str) aps
  ++ [MAPPING_END].

(** One warning for each access point whose mode is the unsupported one,
    in the order of the iteration. *)
Definition mode_warnings (id : string) (aps : list NetplanWifiAccessPoint)
    : list string :=
  map (fun ap => unsupported_mode_warning id (ssid ap))
    (filter is_unsupported aps).

(** The skeleton: stream, document and root mapping, then [network],
    [version], the device-type keyword, the identifier and the renderer. *)
Definition skeleton_events (type_to_str : NetplanDefType -> string)
    (backend_to_name : NetplanBackend -> option string)
    (def : NetplanNetDefinition) : list yaml_event :=
  [STREAM_START; DOCUMENT_START; MAPPING_START;
   SCALAR PLAIN "network"; MAPPING_START;
   SCALAR PLAIN "version"; SCALAR PLAIN "2";
   SCALAR PLAIN (type_to_str (def_type def)); MAPPING_START;
   SCALAR PLAIN (def_id def); MAPPING_START]
  ++ pair_events PLAIN "renderer" (backend_to_name (def_backend def)).

(** The fields of a definition whose type is not [other], before its
    backend settings. *)
Definition field_events (mode_to_str : NetplanWifiMode -> string)
    (def : NetplanNetDefinition) : list yaml_event :=
  (if has_match def then match_events def else [])
  ++ flag_events "wakeonlan" (wake_on_lan def)
  ++ modem_events (modem_params def)
  ++ (if def_type_eqb (def_type def) NETPLAN_DEF_TYPE_WIFI
      then access_points_events mode_to_str (access_points def)
      else []).

(** The events that close the identifier, the device-type and the
    [network] mappings, and those that finalize the stream. *)
Definition closing_events : list yaml_event :=
  [MAPPING_END; MAPPING_END; MAPPING_END].

Definition stop_events : list yaml_event :=
  [MAPPING_END; DOCUMENT_END; STREAM_END].

(** The whole document, and the warnings that come with it. *)
Definition document_events (type_to_str : NetplanDefType -> string)
    (backend_to_name : NetplanBackend -> option string)
    (mode_to_str : NetplanWifiMode -> string)
    (def : NetplanNetDefinition) : list yaml_event :=
  skeleton_events type_to_str backend_to_name def
  ++ (if def_type_eqb (def_type def) NETPLAN_DEF_TYPE_OTHER then []
      else field_events mode_to_str def)
  ++ networkmanager_events (backend_settings def)
  ++ closing_events
  ++ stop_events.

Definition document_warnings (def : NetplanNetDefinition) : list string :=
  if def_type_eqb (def_type def) NETPLAN_DEF_TYPE_WIFI
  then mode_warnings (def_id def) (access_points def)
  else [].

(** Which mappings are open after a run of events: the mapping a
    MAPPING_START opens is named by the scalar written just before it
    ([None] for the root mapping), and a MAPPING_END closes the innermost
    open mapping.  [None] as a result: a mapping was closed that was never
    opened. *)
Fixpoint open_mappings (es : list yaml_event) (key : option string)
    (stack : list (option string)) : option (list (option string)) :=
  match es with
  | [] => Some stack
  | SCALAR _ s :: rest => open_mappings rest (Some s) stack
  | MAPPING_START :: rest => open_mappings rest None (key :: stack)
  | MAPPING_END :: rest =>
      match stack with
      | [] => None
      | _ :: stack' => open_mappings rest None stack'
      end
  | _ :: rest => open_mappings rest None stack
  end.

(** A run of events that closes every mapping it opens and no other. *)
Definition balanced (es : list yaml_event) : Prop :=
  forall key stack, exists key',
    forall rest,
      open_mappings (es ++ rest) key stack = open_mappings rest key' stack.

(** The code of the emitters is put together from a few building
    blocks: emitting an event among those a part of the code may emit
    ([allowed]), doing nothing, logging a warning, setting the emitter up
    or deleting it, sequencing with a jump to [error], calling without
    looking at the result, and iterating a [void] callback. *)
Inductive script (fails : nat -> bool) (allowed : yaml_event -> Prop)
    : Y -> Prop :=
| script_emit e : allowed e -> script fails allowed (yaml_emitter_emit fails e)
| script_skip : script fails allowed skip
| script_warning msg : script fails allowed (g_warning msg)
| script_set_emitter st : script fails allowed (lift (set_emitter st))
| script_andthen a b :
    script fails allowed a -> script fails allowed b ->
    script fails allowed (a ;; b)
| script_unchecked a :
    script fails allowed a -> script fails allowed (unchecked a)
| script_foreach l (h : string * string -> Y) :
    (forall kv, script fails allowed (h kv)) ->
    script fails allowed (g_datalist_foreach l (fun kv w => snd (h kv w))).

Definition not_stream_end (e : yaml_event) : Prop := e <> STREAM_END.

(** A piece of code that writes no stream end when it ends at [error]. *)
Definition no_stream_end_on_error (m : Y) : Prop :=
  forall w, ~ In STREAM_END (emitted w) -> fst (m w) = false ->
    ~ In STREAM_END (emitted (snd (m w))).

(** A piece of code whose normal exit follows an accepted call and leaves
    a finalized stream. *)
Definition finalizes (fails : nat -> bool) (m : Y) : Prop :=
  forall w, fst (m w) = true ->
    0 < calls (snd (m w))
    /\ fails (pred (calls (snd (m w)))) = false
    /\ emitter (snd (m w)) = EMITTER_DELETED
    /\ exists es,
         emitted (snd (m w)) = es ++ [MAPPING_END; DOCUMENT_END; STREAM_END].

(** The keys of the modem parameters, and whether the field behind a
    key is set. *)
Definition modem_keys : list string :=
  ["auto-config"; "apn"; "device-id"; "network-id"; "pin"; "sim-id";
   "sim-operator-id"].

Definition modem_field_set (p : NetplanModemParams) (key : string) : bool :=
  if String.eqb key "auto-config" then auto_config p
  else if String.eqb key "apn" then is_some (apn p)
  else if String.eqb key "device-id" then is_some (device_id p)
  else if String.eqb key "network-id" then is_some (network_id p)
  else if String.eqb key "pin" then is_some (pin p)
  else if String.eqb key "sim-id" then is_some (sim_id p)
  else if String.eqb key "sim-operator-id" then is_some (sim_operator_id p)
  else false.

(** The definition with nothing but its type, backend, identifier and
    backend settings. *)
Definition only_passthrough (def : NetplanNetDefinition)
    : NetplanNetDefinition :=
  {| def_type := def_type def;
     def_backend := def_backend def;
     def_id := def_id def;
     has_match := false;
     def_match := {| original_name := None |};
     wake_on_lan := false;
     modem_params :=
       {| auto_config := false; apn := None; device_id := None;
          network_id := None; pin := None; sim_id := None;
          sim_operator_id := None |};
     access_points := [];
     backend_settings := backend_settings def |}.

(** ** Concrete inputs *)

Definition no_nm_settings : NetplanNMSettings :=
  {| uuid := None; name := None; passthrough := [] |}.

Definition no_backend_settings : NetplanBackendSettings :=
  {| nm := no_nm_settings |}.

Definition no_modem_params : NetplanModemParams :=
  {| auto_config := false; apn := None; device_id := None;
     network_id := None; pin := None; sim_id := None;
     sim_operator_id := None |}.

Definition two_pairs : NetplanBackendSettings :=
  {| nm := {| uuid := None; name := None;
              passthrough := [("a", "1"); ("b", "2")] |} |}.

Definition full_settings : NetplanBackendSettings :=
  {| nm := {| uuid := Some "abc-123"; name := Some "home";
              passthrough := [("a", "1"); ("b", "2"); ("c", "3")] |} |}.

(** Tables to run the code with, in the style of the netplan YAML
    format; the theorems hold for any tables. *)
Definition example_def_type_to_str (t : NetplanDefType) : string :=
  match t with
  | NETPLAN_DEF_TYPE_ETHERNET => "ethernets"
  | NETPLAN_DEF_TYPE_WIFI => "wifis"
  | NETPLAN_DEF_TYPE_MODEM => "modems"
  | NETPLAN_DEF_TYPE_BRIDGE => "bridges"
  | NETPLAN_DEF_TYPE_BOND => "bonds"
  | NETPLAN_DEF_TYPE_VLAN => "vlans"
  | NETPLAN_DEF_TYPE_TUNNEL => "tunnels"
  | NETPLAN_DEF_TYPE_OTHER => "nm-devices"
  end.

Definition example_backend_to_name (b : NetplanBackend) : option string :=
  match b with
  | NETPLAN_BACKEND_NONE => None
  | NETPLAN_BACKEND_NETWORKD => Some "networkd"
  | NETPLAN_BACKEND_NM => Some "NetworkManager"
  end.

Definition example_wifi_mode_to_str (m : NetplanWifiMode) : string :=
  match m with
  | NETPLAN_WIFI_MODE_INFRASTRUCTURE => "infrastructure"
  | NETPLAN_WIFI_MODE_ADHOC => "adhoc"
  | NETPLAN_WIFI_MODE_AP => "ap"
  | NETPLAN_WIFI_MODE_OTHER => "other"
  end.

Definition always_opens : string -> bool := fun _ => true.

(** An ethernet definition with a match, wake-on-lan and, although it is
    no modem, an APN. *)
Definition eth0 : NetplanNetDefinition :=
  {| def_type := NETPLAN_DEF_TYPE_ETHERNET;
     def_backend := NETPLAN_BACKEND_NM;
     def_id := "eth0";
     has_match := true;
     def_match := {| original_name := Some "enp3s0" |};
     wake_on_lan := true;
     modem_params :=
       {| auto_config := false; apn := Some "internet"; device_id := None;
          network_id := None; pin := None; sim_id := None;
          sim_operator_id := None |};
     access_points := [];
     backend_settings := no_backend_settings |}.

(** A definition of type [other] that carries all the same a match,
    wake-on-lan, an APN and an access point. *)
Definition dummy0 : NetplanNetDefinition :=
  {| def_type := NETPLAN_DEF_TYPE_OTHER;
     def_backend := NETPLAN_BACKEND_NM;
     def_id := "dummy0";
     has_match := true;
     def_match := {| original_name := Some "dummy0" |};
     wake_on_lan := true;
     modem_params :=
       {| auto_config := true; apn := Some "internet"; device_id := None;
          network_id := None; pin := None; sim_id := None;
          sim_operator_id := None |};
     access_points :=
       [{| ssid := "cafe"; hidden := true;
           mode := NETPLAN_WIFI_MODE_ADHOC;
           ap_backend_settings := no_backend_settings |}];
     backend_settings := full_settings |}.

(** A wifi definition with two access points, the second one of an
    unsupported mode. *)
Definition home_ap : NetplanWifiAccessPoint :=
  {| ssid := "home"; hidden := false;
     mode := NETPLAN_WIFI_MODE_INFRASTRUCTURE;
     ap_backend_settings := no_backend_settings |}.

Definition mesh_ap : NetplanWifiAccessPoint :=
  {| ssid := "mesh"; hidden := true;
     mode := NETPLAN_WIFI_MODE_OTHER;
     ap_backend_settings := two_pairs |}.

Definition wlan0 : NetplanNetDefinition :=
  {| def_type := NETPLAN_DEF_TYPE_WIFI;
     def_backend := NETPLAN_BACKEND_NM;
     def_id := "wlan0";
     has_match := false;
     def_match := {| original_name := None |};
     wake_on_lan := false;
     modem_params := no_modem_params;
     access_points := [home_ap; mesh_ap];
     backend_settings :=
       {| nm := {| uuid := Some "abc-123"; name := None;
                   passthrough := [] |} |} |}.

(** ** What a run can be held to, whatever the writer does *)

(** [subseq l1 l2]: [l1] is [l2] with some elements left out, the others
    in the same order. *)
Inductive subseq {A : Type} : list A -> list A -> Prop :=
| subseq_nil : subseq [] []
| subseq_skip x l1 l2 : subseq l1 l2 -> subseq l1 (x :: l2)
| subseq_keep x l1 l2 : subseq l1 l2 -> subseq (x :: l1) (x :: l2).

(** Among the [len] calls that start with the call number [start], the
    position of the first one the writer rejects. *)
Fixpoint first_rejected (fails : nat -> bool) (start len : nat) : option nat :=
  match len with
  | 0 => None
  | S len' =>
      if fails start then Some 0
      else option_map S (first_rejected fails (S start) len')
  end.

(** [renders fails strict m es ws]: the code [m] is put together from the
    building blocks of the emitters, and the events it hands to the
    writer are [es], the warnings it logs [ws], when nothing is rejected.
    With [strict] no block is used that goes on after a rejected write: no
    call whose result is not looked at, no iteration of a [void]
    callback. *)
Inductive renders (fails : nat -> bool)
    : bool -> Y -> list yaml_event -> list string -> Prop :=
| renders_emit strict e :
    renders fails strict (yaml_emitter_emit fails e) [e] []
| renders_skip strict : renders fails strict skip [] []
| renders_warning strict msg : renders fails strict (g_warning msg) [] [msg]
| renders_set_emitter strict st :
    renders fails strict (lift (set_emitter st)) [] []
| renders_andthen strict a b es1 ws1 es2 ws2 :
    renders fails strict a es1 ws1 -> renders fails strict b es2 ws2 ->
    renders fails strict (a ;; b) (es1 ++ es2) (ws1 ++ ws2)
| renders_unchecked a es ws :
    renders fails false a es ws -> renders fails false (unchecked a) es ws
| renders_foreach l (h : string * string -> Y) f :
    (forall kv, renders fails false (h kv) (f kv) []) ->
    renders fails false (g_datalist_foreach l (fun kv w => snd (h kv w)))
      (flat_map f l) [].

(** Two stretches of [write_netplan_conf]: from the wake-on-lan flag to
    the access points (lines 157 to 172), and from the backend settings
    to the end of the stream (lines 173 to 182). *)
Definition fields_after_match (fails : nat -> bool)
    (mode_to_str : NetplanWifiMode -> string)
    (def : NetplanNetDefinition) : Y :=
  when (wake_on_lan def)
    (YAML_STRING_PLAIN fails "wakeonlan" (Some "true"%string)) ;;
  when (auto_config (modem_params def))
    (YAML_STRING_PLAIN fails "auto-config" (Some "true"%string)) ;;
  YAML_STRING fails "apn" (apn (modem_params def)) ;;
  YAML_STRING fails "device-id" (device_id (modem_params def)) ;;
  YAML_STRING fails "network-id" (network_id (modem_params def)) ;;
  YAML_STRING fails "pin" (pin (modem_params def)) ;;
  YAML_STRING fails "sim-id" (sim_id (modem_params def)) ;;
  YAML_STRING fails "sim-operator-id" (sim_operator_id (modem_params def)) ;;
  when (def_type_eqb (def_type def) NETPLAN_DEF_TYPE_WIFI)
    (write_access_points fails mode_to_str def).

Definition settings_and_closing (fails : nat -> bool)
    (def : NetplanNetDefinition) : Y :=
  write_backend_settings fails (backend_settings def) ;;
  YAML_MAPPING_CLOSE fails ;;
  YAML_MAPPING_CLOSE fails ;;
  YAML_MAPPING_CLOSE fails ;;
  YAML_OUT_STOP fails.

(** The events of [fields_after_match]. *)
Definition events_after_match (mode_to_str : NetplanWifiMode -> string)
    (def : NetplanNetDefinition) : list yaml_event :=
  flag_events "wakeonlan" (wake_on_lan def)
  ++ modem_events (modem_params def)
  ++ (if def_type_eqb (def_type def) NETPLAN_DEF_TYPE_WIFI
      then access_points_events mode_to_str (access_points def)
      else []).

Definition no_passthrough (s : NetplanBackendSettings) : bool :=
  negb (nonempty (passthrough (nm s))).

(** The definitions all of whose writes are checked: no passthrough
    mapping in the backend settings and, unless the type is [other], no
    match and, for wifi, no passthrough mapping in an access point. *)
Definition every_write_checked (def : NetplanNetDefinition) : bool :=
  no_passthrough (backend_settings def)
  && (def_type_eqb (def_type def) NETPLAN_DEF_TYPE_OTHER
      || (negb (has_match def)
          && (negb (def_type_eqb (def_type def) NETPLAN_DEF_TYPE_WIFI)
              || forallb (fun ap => no_passthrough (ap_backend_settings ap))
                   (access_points def)))).

(** The definition without its match. *)
Definition without_match (def : NetplanNetDefinition) : NetplanNetDefinition :=
  {| def_type := def_type def;
     def_backend := def_backend def;
     def_id := def_id def;
     has_match := false;
     def_match := def_match def;
     wake_on_lan := wake_on_lan def;
     modem_params := modem_params def;
     access_points := access_points def;
     backend_settings := backend_settings def |}.

(** More inputs: a modem and a wifi definition all of whose writes are
    checked. *)
Definition ppp0 : NetplanNetDefinition :=
  {| def_type := NETPLAN_DEF_TYPE_MODEM;
     def_backend := NETPLAN_BACKEND_NM;
     def_id := "ppp0";
     has_match := false;
     def_match := {| original_name := None |};
     wake_on_lan := false;
     modem_params :=
       {| auto_config := true; apn := Some "internet"%string;
          device_id := None; network_id := None; pin := Some "1234"%string;
          sim_id := None; sim_operator_id := None |};
     access_points := [];
     backend_settings :=
       {| nm := {| uuid := Some "abc-123"%string; name := Some "mobile"%string;
                   passthrough := [] |} |} |}.

Definition guest_ap : NetplanWifiAccessPoint :=
  {| ssid := "guest"; hidden := true;
     mode := NETPLAN_WIFI_MODE_OTHER;
     ap_backend_settings :=
       {| nm := {| uuid := None; name := Some "guests"%string;
                   passthrough := [] |} |} |}.

Definition wlan1 : NetplanNetDefinition :=
  {| def_type := NETPLAN_DEF_TYPE_WIFI;
     def_backend := NETPLAN_BACKEND_NETWORKD;
     def_id := "wlan1";
     has_match := false;
     def_match := {| original_name := None |};
     wake_on_lan := true;
     modem_params := no_modem_params;
     access_points := [home_ap; guest_ap];
     backend_settings := no_backend_settings |}.

(** The free text of a definition: the strings that are not keywords of
    the format, identifiers or UUIDs. *)
Definition option_text (o : option string) : list string :=
  match o with Some s => [s] | None => [] end.

Definition settings_text (s : NetplanBackendSettings) : list string :=
  option_text (name (nm s)) ++ map snd (passthrough (nm s)).

Definition free_text (def : NetplanNetDefinition) : list string :=
  option_text (original_name (def_match def))
  ++ option_text (apn (modem_params def))
  ++ option_text (device_id (modem_params def))
  ++ option_text (network_id (modem_params def))
  ++ option_text (pin (modem_params def))
  ++ option_text (sim_id (modem_params def))
  ++ option_text (sim_operator_id (modem_params def))
  ++ flat_map (fun ap => ssid ap :: settings_text (ap_backend_settings ap))
       (access_points def)
  ++ settings_text (backend_settings def).

(** ** Reading a mapping back *)

(** The fields of one access point: what [write_access_points] writes
    between the MAPPING_START and the MAPPING_END of its entry. *)
Definition access_point_fields (mode_to_str : NetplanWifiMode -> string)
    (ap : NetplanWifiAccessPoint) : list yaml_event :=
  flag_events "hidden" (hidden ap)
  ++ [SCALAR PLAIN "mode";
      SCALAR PLAIN (if is_unsupported ap then "infrastructure"%string
                    else mode_to_str (mode ap))]
  ++ networkmanager_events (ap_backend_settings ap).

(** Reading the events written between the MAPPING_START and the
    MAPPING_END of a mapping back as the entries of that mapping, each a
    quoted key with a mapping for its value: the key and the events
    inside the value, in the order written.  [entry] is the entry being
    read, if any: its key, the events of its value read so far and the
    number of mappings open inside the value.  [None] when the events are
    anything else than a sequence of such entries: a key that is not
    quoted, a value that is not a mapping, a stray event between two
    entries, an entry left open. *)
Fixpoint mapping_entries (es : list yaml_event)
    (entry : option (string * list yaml_event * nat))
    : option (list (string * list yaml_event)) :=
  match entry with
  | None =>
      match es with
      | [] => Some []
      | SCALAR QUOTED k :: MAPPING_START :: rest =>
          mapping_entries rest (Some (k, [], 0))
      | _ => None
      end
  | Some (k, body, depth) =>
      match es with
      | [] => None
      | MAPPING_END :: rest =>
          match depth with
          | 0 =>
              match mapping_entries rest None with
              | Some l => Some ((k, body) :: l)
              | None => None
              end
          | S depth' =>
              mapping_entries rest (Some (k, body ++ [MAPPING_END], depth'))
          end
      | MAPPING_START :: rest =>
          mapping_entries rest (Some (k, body ++ [MAPPING_START], S depth))
      | e :: rest => mapping_entries rest (Some (k, body ++ [e], depth))
      end
  end.

(** Events that belong to the value of the entry being read, whatever
    comes after them: they close every mapping they open and no other. *)
Definition inside_entry (es : list yaml_event) : Prop :=
  forall k body depth rest,
    mapping_entries (es ++ rest) (Some (k, body, depth))
    = mapping_entries rest (Some (k, body ++ es, depth)).

(** ** Nesting, whatever the writer does *)

(** The number of mappings open after a run of events that starts with
    [depth] mappings open; [None] when the run closes a mapping that was
    never opened. *)
Fixpoint mapping_depth (es : list yaml_event) (depth : nat) : option nat :=
  match es with
  | [] => Some depth
  | MAPPING_START :: rest => mapping_depth rest (S depth)
  | MAPPING_END :: rest =>
      match depth with
      | 0 => None
      | S depth' => mapping_depth rest depth'
      end
  | _ :: rest => mapping_depth rest depth
  end.

(** [nests m a b]: run on a stream in which [a] mappings are open on top
    of [d] others, the code [m] closes none of these [d]; when it ends
    normally it leaves [b] mappings open on top of them, or more, and
    when it ends at [error], those it had left open by then. *)
Definition nests (m : Y) (a b : nat) : Prop :=
  forall w d,
    mapping_depth (emitted w) 0 = Some (d + a) ->
    exists d',
      d <= d'
      /\ mapping_depth (emitted (snd (m w))) 0
         = Some (if fst (m w) then d' + b else d').

(** ** The writes whose result is looked at *)

(** One mark for each event of a document: [true] where a rejected write
    takes the render to [error], [false] where the render goes on after
    it.  The second are the writes of [write_match], whose result line
    155 drops, and those of [_passthrough_handler], which returns
    nothing; every other write is followed by a jump to [error], in
    [write_netplan_conf] itself or in an emitter whose result it
    checks (lines 104, 172 and 174). *)
Definition all_checked (es : list yaml_event) : list bool :=
  map (fun _ => true) es.

Definition none_checked (es : list yaml_event) : list bool :=
  map (fun _ => false) es.

Definition networkmanager_checks (s : NetplanBackendSettings) : list bool :=
  if is_some (uuid (nm s)) || is_some (name (nm s))
     || nonempty (passthrough (nm s))
  then all_checked [SCALAR PLAIN "networkmanager"; MAPPING_START]
       ++ all_checked (pair_events PLAIN "uuid" (uuid (nm s)))
       ++ all_checked (pair_events QUOTED "name" (name (nm s)))
       ++ (if nonempty (passthrough (nm s))
           then all_checked [SCALAR PLAIN "passthrough"; MAPPING_START]
                ++ none_checked
                     (flat_map passthrough_pair (passthrough (nm s)))
                ++ all_checked [MAPPING_END]
           else [])
       ++ all_checked [MAPPING_END]
  else [].

Definition access_point_checks (mode_to_str : NetplanWifiMode -> string)
    (ap : NetplanWifiAccessPoint) : list bool :=
  all_checked [SCALAR QUOTED (ssid ap); MAPPING_START]
  ++ all_checked (flag_events "hidden" (hidden ap))
  ++ all_checked
       [SCALAR PLAIN "mode";
        SCALAR PLAIN (if is_unsupported ap then "infrastructure"%string
                      else mode_to_str (mode ap))]
  ++ networkmanager_checks (ap_backend_settings ap)
  ++ all_checked [MAPPING_END].

Definition access_points_checks (mode_to_str : NetplanWifiMode -> string)
    (aps : list NetplanWifiAccessPoint) : list bool :=
  all_checked [SCALAR PLAIN "access-points"; MAPPING_START]
  ++ flat_map (access_point_checks mode_to_str) aps
  ++ all_checked [MAPPING_END].

Definition field_checks (mode_to_str : NetplanWifiMode -> string)
    (def : NetplanNetDefinition) : list bool :=
  (if has_match def then none_checked (match_events def) else [])
  ++ all_checked (flag_events "wakeonlan" (wake_on_lan def))
  ++ all_checked (modem_events (modem_params def))
  ++ (if def_type_eqb (def_type def) NETPLAN_DEF_TYPE_WIFI
      then access_points_checks mode_to_str (access_points def)
      else []).

Definition document_checks (type_to_str : NetplanDefType -> string)
    (backend_to_name : NetplanBackend -> option string)
    (mode_to_str : NetplanWifiMode -> string)
    (def : NetplanNetDefinition) : list bool :=
  all_checked (skeleton_events type_to_str backend_to_name def)
  ++ (if def_type_eqb (def_type def) NETPLAN_DEF_TYPE_OTHER then []
      else field_checks mode_to_str def)
  ++ networkmanager_checks (backend_settings def)
  ++ all_checked closing_events
  ++ all_checked stop_events.

(** [checks fails m es cs]: the code [m] hands the events [es] to the
    writer when nothing is rejected, and [cs] marks those of its writes
    after which it stops: all the writes of a piece of code that is
    strict, none of the writes of a piece that is not. *)
Inductive checks (fails : nat -> bool)
    : Y -> list yaml_event -> list bool -> Prop :=
| checks_strict m es ws :
    renders fails true m es ws -> checks fails m es (all_checked es)
| checks_loose m es ws :
    renders fails false m es ws -> checks fails m es (none_checked es)
| checks_andthen a b es1 cs1 es2 cs2 :
    checks fails a es1 cs1 -> checks fails b es2 cs2 ->
    checks fails (a ;; b) (es1 ++ es2) (cs1 ++ cs2).

(** What a call of [write_netplan_conf] hands back to its caller.
    Unlike the emitters it calls, which return TRUE or FALSE, the
    function is declared [void] (line 118), and both its ends, the
    [return] of line 184 and the end of the [error] block at line 191,
    give the caller nothing: a call that returns returns no value. *)
Definition write_netplan_conf_returns (fails : nat -> bool)
    (type_to_str : NetplanDefType -> string)
    (backend_to_name : NetplanBackend -> option string)
    (mode_to_str : NetplanWifiMode -> string)
    (can_open : string -> bool)
    (def : NetplanNetDefinition) (rootdir : option string) (w : world)
    : option unit :=
  match write_netplan_conf fails type_to_str backend_to_name mode_to_str
          can_open def rootdir w with
  | Some _ => Some tt
  | None => None
  end.

(** ** A writer that accepts every event *)

Lemma logged_nothing w : logged [] [] None w = w.
Proof.
  destruct w; unfold logged; simpl.
  now rewrite app_nil_r, Nat.add_0_r, app_nil_r.
Qed.

Lemma logged_twice es1 ws1 em1 es2 ws2 em2 w :
  logged es2 ws2 em2 (logged es1 ws1 em1 w)
  = logged (es1 ++ es2) (ws1 ++ ws2) (or_else em2 em1) w.
Proof.
  unfold logged; simpl.
  rewrite <- !app_assoc, length_app, Nat.add_assoc.
  now destruct em2.
Qed.

Lemma writes_emit e : writes (yaml_emitter_emit never_fails e) [e] [] None.
Proof.
  intros w; unfold yaml_emitter_emit, never_fails, logged; simpl.
  now rewrite app_nil_r, Nat.add_1_r.
Qed.

Lemma writes_skip : writes skip [] [] None.
Proof. intros w; unfold skip; now rewrite logged_nothing. Qed.

Lemma writes_andthen a b es1 ws1 em1 es2 ws2 em2 :
  writes a es1 ws1 em1 -> writes b es2 ws2 em2 ->
  writes (a ;; b) (es1 ++ es2) (ws1 ++ ws2) (or_else em2 em1).
Proof.
  intros Ha Hb w; unfold andthen.
  now rewrite Ha, Hb, logged_twice.
Qed.

(** Sequencing two steps that leave the emitter and the log alone. *)
Lemma writes_seq a b es1 es2 :
  writes a es1 [] None -> writes b es2 [] None ->
  writes (a ;; b) (es1 ++ es2) [] None.
Proof. intros Ha Hb; exact (writes_andthen _ _ _ _ _ _ _ _ Ha Hb). Qed.

Lemma writes_YAML_STRING key v :
  writes (YAML_STRING never_fails key v) (pair_events QUOTED key v) [] None.
Proof.
  destruct v as [v|]; simpl; [|apply writes_skip].
  apply (writes_seq _ _ [_] [_]); apply writes_emit.
Qed.

Lemma writes_YAML_STRING_PLAIN key v :
  writes (YAML_STRING_PLAIN never_fails key v)
    (pair_events PLAIN key v) [] None.
Proof.
  destruct v as [v|]; simpl; [|apply writes_skip].
  apply (writes_seq _ _ [_] [_]); apply writes_emit.
Qed.

Lemma passthrough_handler_logged kv w :
  _passthrough_handler never_fails kv w
  = logged (passthrough_pair kv) [] None w.
Proof.
  unfold _passthrough_handler, YAML_SCALAR_PLAIN, YAML_SCALAR_QUOTED.
  now rewrite (writes_seq _ _ [_] [_] (writes_emit _) (writes_emit _)).
Qed.

Lemma writes_g_datalist_foreach l :
  writes (g_datalist_foreach l (_passthrough_handler never_fails))
    (flat_map passthrough_pair l) [] None.
Proof.
  unfold g_datalist_foreach; intros w; f_equal; revert w.
  induction l as [|kv l IH]; intros w; simpl fold_left.
  - now rewrite logged_nothing.
  - rewrite IH, passthrough_handler_logged, logged_twice.
    reflexivity.
Qed.

(** The events of the [networkmanager] mapping, field by field. *)
Lemma writes_backend_settings s :
  writes (write_backend_settings never_fails s)
    (networkmanager_events s) [] None.
Proof.
  unfold write_backend_settings, networkmanager_events.
  destruct (is_some (uuid (nm s)) || is_some (name (nm s))
            || nonempty (passthrough (nm s))); simpl when;
    [|apply writes_skip].
  apply (writes_seq _ _ [_]); [apply writes_emit|].
  apply (writes_seq _ _ [_]); [apply writes_emit|].
  apply writes_seq; [apply (writes_YAML_STRING_PLAIN "uuid")|].
  apply writes_seq; [apply (writes_YAML_STRING "name")|].
  apply writes_seq; [|apply writes_emit].
  destruct (nonempty (passthrough (nm s))); simpl when; [|apply writes_skip].
  apply (writes_seq _ _ [_]); [apply writes_emit|].
  apply (writes_seq _ _ [_]); [apply writes_emit|].
  apply writes_seq; [apply writes_g_datalist_foreach|apply writes_emit].
Qed.

Lemma block_pairs_passthrough l :
  block_pairs (flat_map passthrough_pair l) = Some l.
Proof.
  induction l as [|[k v] l IH]; simpl; [reflexivity|].
  now rewrite IH.
Qed.

(** ** The backend-settings emitter and the passthrough block *)

(** C3: when UUID, name and passthrough mapping are all absent the
    backend-settings emitter writes nothing at all (whatever the writer
    does, it is not even called); otherwise, on a writer that accepts
    every event, it opens one [networkmanager] mapping that holds, in this
    order, [uuid] as a plain scalar if present, [name] as a quoted scalar
    if present and the nested [passthrough] mapping if the mapping is not
    empty, and closes it. *)
Theorem backend_settings_emitter (s : NetplanBackendSettings) (w : world) :
  (uuid (nm s) = None -> name (nm s) = None -> passthrough (nm s) = [] ->
   forall fails, write_backend_settings fails s w = (true, w))
  /\
  (uuid (nm s) <> None \/ name (nm s) <> None \/ passthrough (nm s) <> [] ->
   write_backend_settings never_fails s w
   = (true,
      logged
        ([SCALAR PLAIN "networkmanager"; MAPPING_START]
         ++ pair_events PLAIN "uuid" (uuid (nm s))
         ++ pair_events QUOTED "name" (name (nm s))
         ++ match passthrough (nm s) with
            | [] => []
            | _ :: _ =>
                [SCALAR PLAIN "passthrough"; MAPPING_START]
                ++ flat_map passthrough_pair (passthrough (nm s))
                ++ [MAPPING_END]
            end
         ++ [MAPPING_END])
        [] None w)).
Proof.
  split.
  - intros Hu Hn Hp fails. unfold write_backend_settings.
    now rewrite Hu, Hn, Hp.
  - intros H. rewrite (writes_backend_settings s w).
    unfold networkmanager_events.
    destruct (uuid (nm s)) as [u|] eqn:Hu;
      destruct (name (nm s)) as [n|] eqn:Hn;
      destruct (passthrough (nm s)) as [|kv l] eqn:Hp;
      try reflexivity.
    exfalso. destruct H as [H|[H|H]]; now apply H.
Qed.

Lemma backend_settings_emitter_witness :
  write_backend_settings (fails_only_at 0) no_backend_settings world0
  = (true, world0)
  /\ fst (write_backend_settings never_fails full_settings world0) = true
  /\ emitted (snd (write_backend_settings never_fails full_settings world0))
     = [SCALAR PLAIN "networkmanager"; MAPPING_START;
        SCALAR PLAIN "uuid"; SCALAR PLAIN "abc-123";
        SCALAR PLAIN "name"; SCALAR QUOTED "home";
        SCALAR PLAIN "passthrough"; MAPPING_START;
        SCALAR PLAIN "a"; SCALAR QUOTED "1";
        SCALAR PLAIN "b"; SCALAR QUOTED "2";
        SCALAR PLAIN "c"; SCALAR QUOTED "3";
        MAPPING_END; MAPPING_END].
Proof.
  split.
  - apply (proj1 (backend_settings_emitter no_backend_settings world0));
      reflexivity.
  - rewrite (proj2 (backend_settings_emitter full_settings world0)).
    + split; reflexivity.
    + left; discriminate.
Defined.

(** C7: for a non-empty passthrough mapping, on a writer that accepts
    every event, the passthrough block holds one (plain key, quoted
    value) pair of events for each pair of the mapping, in the order of
    the iteration, whatever that order is: read back, the block gives the
    pairs of the mapping, none dropped, renamed or duplicated. *)
Theorem passthrough_block_complete (s : NetplanBackendSettings) (w : world) :
  passthrough (nm s) <> [] ->
  write_backend_settings never_fails s w
  = (true,
     logged
       ([SCALAR PLAIN "networkmanager"; MAPPING_START]
        ++ pair_events PLAIN "uuid" (uuid (nm s))
        ++ pair_events QUOTED "name" (name (nm s))
        ++ [SCALAR PLAIN "passthrough"; MAPPING_START]
        ++ flat_map (fun kv => [SCALAR PLAIN (fst kv); SCALAR QUOTED (snd kv)])
             (passthrough (nm s))
        ++ [MAPPING_END; MAPPING_END])
       [] None w)
  /\ block_pairs
       (flat_map (fun kv => [SCALAR PLAIN (fst kv); SCALAR QUOTED (snd kv)])
          (passthrough (nm s)))
     = Some (passthrough (nm s))
  /\ length
       (flat_map (fun kv => [SCALAR PLAIN (fst kv); SCALAR QUOTED (snd kv)])
          (passthrough (nm s)))
     = 2 * length (passthrough (nm s)).
Proof.
  intros Hp. split; [|split].
  - rewrite (writes_backend_settings s w).
    unfold networkmanager_events.
    destruct (passthrough (nm s)) as [|kv l] eqn:E; [now elim Hp|].
    rewrite !orb_true_r. unfold nonempty.
    do 2 f_equal. now rewrite <- !app_assoc.
  - apply block_pairs_passthrough.
  - clear Hp. induction (passthrough (nm s)) as [|kv l IH];
      [reflexivity|].
    cbn [flat_map app length]. rewrite IH. lia.
Qed.

Lemma passthrough_block_complete_witness :
  emitted (snd (write_backend_settings never_fails full_settings world0))
  = [SCALAR PLAIN "networkmanager"; MAPPING_START;
     SCALAR PLAIN "uuid"; SCALAR PLAIN "abc-123";
     SCALAR PLAIN "name"; SCALAR QUOTED "home";
     SCALAR PLAIN "passthrough"; MAPPING_START;
     SCALAR PLAIN "a"; SCALAR QUOTED "1";
     SCALAR PLAIN "b"; SCALAR QUOTED "2";
     SCALAR PLAIN "c"; SCALAR QUOTED "3";
     MAPPING_END; MAPPING_END].
Proof.
  assert (H : passthrough (nm full_settings) <> []) by discriminate.
  rewrite (proj1 (passthrough_block_complete full_settings world0 H)).
  reflexivity.
Defined.

(** C1 (evaluation at the failing input): the writer rejects the key of
    the first of two passthrough pairs and nothing else.  The handler
    leaves that pair, the iteration goes on to the second pair, which is
    written, both mappings are closed and [write_backend_settings]
    returns TRUE.  The same happens when the value of the first pair is
    the rejected write. *)
Theorem passthrough_failure_is_swallowed :
  write_backend_settings (fails_only_at 4) two_pairs world0
  = (true,
     {| emitted := [SCALAR PLAIN "networkmanager"; MAPPING_START;
                    SCALAR PLAIN "passthrough"; MAPPING_START;
                    SCALAR PLAIN "b"; SCALAR QUOTED "2";
                    MAPPING_END; MAPPING_END];
        calls := 9; warnings := []; emitter := EMITTER_NONE;
        output := STREAM_NONE; fcloses := 0 |})
  /\
  write_backend_settings (fails_only_at 5) two_pairs world0
  = (true,
     {| emitted := [SCALAR PLAIN "networkmanager"; MAPPING_START;
                    SCALAR PLAIN "passthrough"; MAPPING_START;
                    SCALAR PLAIN "a";
                    SCALAR PLAIN "b"; SCALAR QUOTED "2";
                    MAPPING_END; MAPPING_END];
        calls := 10; warnings := []; emitter := EMITTER_NONE;
        output := STREAM_NONE; fcloses := 0 |}).
Proof. split; reflexivity. Qed.

(** ** The whole document on a writer that accepts every event *)

Lemma writes_when (c : bool) a es :
  writes a es [] None -> writes (when c a) (if c then es else []) [] None.
Proof. destruct c; [trivial|intros _; apply writes_skip]. Qed.

Lemma writes_unchecked a es ws em :
  writes a es ws em -> writes (unchecked a) es ws em.
Proof. intros H w; unfold unchecked; now rewrite H. Qed.

Lemma writes_flag key (flag : bool) :
  writes (when flag (YAML_STRING_PLAIN never_fails key (Some "true")))
    (flag_events key flag) [] None.
Proof. apply writes_when, (writes_YAML_STRING_PLAIN key (Some "true")). Qed.

Lemma writes_match def :
  writes (write_match never_fails def) (match_events def) [] None.
Proof.
  unfold write_match, match_events.
  apply (writes_seq _ _ [_]); [apply writes_emit|].
  apply (writes_seq _ _ [_]); [apply writes_emit|].
  apply writes_seq; [apply writes_YAML_STRING|apply writes_emit].
Qed.

(** Sequencing, with the lists and the emitter to be put in shape
    afterwards. *)
Lemma writes_step a b es1 ws1 em1 es2 ws2 em2 es ws em :
  writes a es1 ws1 em1 -> writes b es2 ws2 em2 ->
  es = es1 ++ es2 -> ws = ws1 ++ ws2 -> em = or_else em2 em1 ->
  writes (a ;; b) es ws em.
Proof. intros Ha Hb -> -> ->; now apply writes_andthen. Qed.

Lemma writes_then a b es1 ws1 es2 ws2 es ws em :
  writes a es1 ws1 None -> writes b es2 ws2 em ->
  es = es1 ++ es2 -> ws = ws1 ++ ws2 ->
  writes (a ;; b) es ws em.
Proof.
  intros Ha Hb -> ->.
  assert (E : em = or_else em None) by now destruct em.
  rewrite E. now apply writes_andthen.
Qed.

Lemma writes_g_warning msg : writes (g_warning msg) [] [msg] None.
Proof.
  intros w. unfold g_warning, lift, logged; simpl.
  now rewrite app_nil_r, Nat.add_0_r.
Qed.

Lemma writes_set_emitter e : writes (lift (set_emitter e)) [] [] (Some e).
Proof.
  intros w. unfold lift, set_emitter, logged; simpl.
  now rewrite !app_nil_r, Nat.add_0_r.
Qed.

Ltac writes_leaf :=
  first
    [ apply writes_emit
    | apply writes_skip
    | apply writes_g_warning
    | apply writes_set_emitter
    | apply writes_YAML_STRING
    | apply writes_YAML_STRING_PLAIN
    | apply writes_flag
    | apply writes_backend_settings
    | apply writes_unchecked, writes_match
    | apply writes_match ].

Ltac writes_chain :=
  first
    [ writes_leaf
    | eapply writes_step;
      [ writes_chain | writes_chain | reflexivity | reflexivity | reflexivity ] ].

Section Document.

Variable netplan_def_type_to_str : NetplanDefType -> string.
Variable netplan_backend_to_name : NetplanBackend -> option string.
Variable netplan_wifi_mode_to_str : NetplanWifiMode -> string.

Lemma writes_mode id ap :
  writes
    (if negb (wifi_mode_eqb (mode ap) NETPLAN_WIFI_MODE_OTHER)
     then YAML_SCALAR_PLAIN never_fails (netplan_wifi_mode_to_str (mode ap))
     else g_warning (unsupported_mode_warning id (ssid ap)) ;;
          YAML_SCALAR_PLAIN never_fails "infrastructure")
    [SCALAR PLAIN (if is_unsupported ap then "infrastructure"
                   else netplan_wifi_mode_to_str (mode ap))]
    (mode_warnings id [ap]) None.
Proof.
  unfold mode_warnings, is_unsupported; simpl filter.
  destruct (wifi_mode_eqb (mode ap) NETPLAN_WIFI_MODE_OTHER); simpl negb;
    writes_chain.
Qed.

Lemma writes_access_point id ap :
  writes (write_access_point never_fails netplan_wifi_mode_to_str id ap)
    (access_point_events netplan_wifi_mode_to_str ap)
    (mode_warnings id [ap]) None.
Proof.
  unfold write_access_point, access_point_events.
  eapply writes_then; [writes_leaf| |reflexivity..].
  eapply writes_then; [writes_leaf| |reflexivity..].
  eapply writes_then;
    [apply (writes_flag "hidden")| |reflexivity..].
  eapply writes_then; [writes_leaf| |reflexivity..].
  eapply writes_then; [apply writes_mode| |reflexivity|].
  - writes_chain.
  - now rewrite app_nil_r.
Qed.

Lemma mode_warnings_cons id ap aps :
  mode_warnings id (ap :: aps) = mode_warnings id [ap] ++ mode_warnings id aps.
Proof.
  unfold mode_warnings; simpl filter.
  destruct (is_unsupported ap); reflexivity.
Qed.

Lemma writes_access_points_loop id aps :
  writes (access_points_loop never_fails netplan_wifi_mode_to_str id aps)
    (flat_map (access_point_events netplan_wifi_mode_to_str) aps)
    (mode_warnings id aps) None.
Proof.
  induction aps as [|ap aps IH]; [apply writes_skip|].
  simpl access_points_loop. simpl flat_map. rewrite mode_warnings_cons.
  exact (writes_andthen _ _ _ _ _ _ _ _ (writes_access_point id ap) IH).
Qed.

Lemma writes_access_points def :
  writes (write_access_points never_fails netplan_wifi_mode_to_str def)
    (access_points_events netplan_wifi_mode_to_str (access_points def))
    (mode_warnings (def_id def) (access_points def)) None.
Proof.
  unfold write_access_points, access_points_events.
  eapply writes_then; [writes_leaf| |reflexivity..].
  eapply writes_then; [writes_leaf| |reflexivity..].
  eapply writes_then;
    [apply writes_access_points_loop|writes_leaf|reflexivity|].
  now rewrite app_nil_r.
Qed.

Lemma writes_OUT_START :
  writes (YAML_OUT_START never_fails)
    [STREAM_START; DOCUMENT_START; MAPPING_START] [] (Some EMITTER_READY).
Proof.
  unfold YAML_OUT_START, yaml_emitter_initialize.
  eapply writes_step;
    [apply writes_set_emitter|writes_chain|reflexivity..].
Qed.

Lemma writes_OUT_STOP :
  writes (YAML_OUT_STOP never_fails) stop_events [] (Some EMITTER_DELETED).
Proof.
  unfold YAML_OUT_STOP, yaml_emitter_delete, stop_events.
  eapply writes_then; [writes_leaf| |reflexivity..].
  eapply writes_then; [writes_leaf| |reflexivity..].
  eapply writes_step;
    [writes_leaf|apply writes_set_emitter|reflexivity..].
Qed.

Lemma writes_access_points_if_wifi def :
  writes
    (when (def_type_eqb (def_type def) NETPLAN_DEF_TYPE_WIFI)
       (write_access_points never_fails netplan_wifi_mode_to_str def))
    (if def_type_eqb (def_type def) NETPLAN_DEF_TYPE_WIFI
     then access_points_events netplan_wifi_mode_to_str (access_points def)
     else [])
    (document_warnings def) None.
Proof.
  unfold document_warnings.
  destruct (def_type_eqb (def_type def) NETPLAN_DEF_TYPE_WIFI);
    [apply writes_access_points|apply writes_skip].
Qed.

Lemma writes_match_if_present def :
  writes (when (has_match def) (unchecked (write_match never_fails def)))
    (if has_match def then match_events def else []) [] None.
Proof. apply writes_when, writes_unchecked, writes_match. Qed.

Lemma other_is_not_wifi t :
  def_type_eqb t NETPLAN_DEF_TYPE_OTHER = true ->
  def_type_eqb t NETPLAN_DEF_TYPE_WIFI = false.
Proof. now destruct t. Qed.

(** The body of [write_netplan_conf] on a writer that accepts every
    event: it reaches the normal exit, having written the document. *)
Lemma writes_netplan_conf_body def :
  writes
    (write_netplan_conf_body never_fails netplan_def_type_to_str
       netplan_backend_to_name netplan_wifi_mode_to_str def)
    (document_events netplan_def_type_to_str netplan_backend_to_name
       netplan_wifi_mode_to_str def)
    (document_warnings def) (Some EMITTER_DELETED).
Proof.
  unfold write_netplan_conf_body, document_events, skeleton_events.
  eapply writes_step with (em2 := Some EMITTER_DELETED);
    [apply writes_OUT_START| |reflexivity..].
  do 2 (eapply writes_then; [writes_leaf| |reflexivity..]).
  eapply writes_then;
    [apply (writes_YAML_STRING_PLAIN "version" (Some "2"))|
    |reflexivity..].
  do 4 (eapply writes_then; [writes_leaf| |reflexivity..]).
  eapply writes_then;
    [apply (writes_YAML_STRING_PLAIN "renderer")| |reflexivity..].
  eapply writes_then with (ws1 := document_warnings def) (ws2 := []);
    [ |  | reflexivity | now rewrite app_nil_r ].
  - destruct (def_type_eqb (def_type def) NETPLAN_DEF_TYPE_OTHER) eqn:E.
    + unfold document_warnings. rewrite (other_is_not_wifi _ E).
      apply writes_skip.
    + unfold field_events, modem_events.
      eapply writes_then;
        [apply writes_match_if_present| |reflexivity..].
      eapply writes_then;
        [apply (writes_flag "wakeonlan")| |reflexivity..].
      rewrite <- !app_assoc.
      eapply writes_then;
        [apply (writes_flag "auto-config")| |reflexivity..].
      do 6 (eapply writes_then;
            [apply writes_YAML_STRING| |reflexivity..]).
      apply writes_access_points_if_wifi.
  - eapply writes_then; [apply writes_backend_settings| |reflexivity..].
    unfold closing_events.
    do 3 (eapply writes_then; [writes_leaf| |reflexivity..]).
    apply writes_OUT_STOP.
Qed.

End Document.

(** ** Any writer: what every run keeps *)

Lemma andthen_run a b w :
  (a ;; b) w = if fst (a w) then b (snd (a w)) else (false, snd (a w)).
Proof. unfold andthen. now destruct (a w) as [[|] w1]. Qed.

Section Scripts.

Variable fails : nat -> bool.
Variable allowed : yaml_event -> Prop.

Lemma script_when (c : bool) a :
  script fails allowed a -> script fails allowed (when c a).
Proof. destruct c; [trivial|intros _; apply script_skip]. Qed.

Lemma script_with_value {A} (o : option A) f :
  (forall v, script fails allowed (f v)) ->
  script fails allowed (with_value o f).
Proof. destruct o; simpl; [auto|intros _; apply script_skip]. Qed.

Lemma script_if (c : bool) a b :
  script fails allowed a -> script fails allowed b ->
  script fails allowed (if c then a else b).
Proof. now destruct c. Qed.

(** A script touches neither the stream nor the count of [fclose]. *)
Lemma script_frame m :
  script fails allowed m ->
  forall w, output (snd (m w)) = output w /\ fcloses (snd (m w)) = fcloses w.
Proof.
  induction 1 as [e He| |msg|st|a b _ IHa _ IHb|a _ IHa|l h _ IH]; intros w.
  - unfold yaml_emitter_emit. now destruct (fails (calls w)).
  - now split.
  - now split.
  - now split.
  - rewrite andthen_run. destruct (IHa w) as [Ho Hf].
    destruct (fst (a w)); [|now split].
    destruct (IHb (snd (a w))) as [Ho' Hf']. split; congruence.
  - apply IHa.
  - unfold g_datalist_foreach. simpl snd. revert w.
    induction l as [|kv l IHl]; intros w; [now split|].
    simpl fold_left. destruct (IHl (snd (h kv w))) as [Ho Hf].
    destruct (IH kv w) as [Ho' Hf']. split; congruence.
Qed.

(** A script that ends at [error] made its last call to a writer that
    rejected it. *)
Lemma script_stops m :
  script fails allowed m ->
  forall w, fst (m w) = false ->
    0 < calls (snd (m w)) /\ fails (pred (calls (snd (m w)))) = true.
Proof.
  induction 1 as [e He| |msg|st|a b _ IHa _ IHb|a _ IHa|l h _ IH]; intros w;
    try (intros Hf; discriminate Hf).
  - unfold yaml_emitter_emit.
    destruct (fails (calls w)) eqn:E; [|discriminate].
    intros _. simpl. split; [lia|exact E].
  - rewrite andthen_run. specialize (IHa w).
    destruct (fst (a w)); [apply IHb|intros _; now apply IHa].
Qed.

(** Every event a script adds is one it is allowed to emit. *)
Lemma script_events m :
  script fails allowed m ->
  forall w e, In e (emitted (snd (m w))) -> In e (emitted w) \/ allowed e.
Proof.
  induction 1 as [e He| |msg|st|a b _ IHa _ IHb|a _ IHa|l h _ IH];
    intros w e'; try (now left).
  - unfold yaml_emitter_emit. destruct (fails (calls w)); simpl; [now left|].
    rewrite in_app_iff. intros [Hin|[<-|[]]]; [now left|now right].
  - rewrite andthen_run.
    destruct (fst (a w)); [|apply IHa].
    intros Hin. destruct (IHb _ _ Hin) as [Hin'|]; [|now right].
    now apply IHa.
  - apply IHa.
  - unfold g_datalist_foreach. simpl snd. revert w.
    induction l as [|kv l IHl]; intros w; [now left|].
    simpl fold_left. intros Hin.
    destruct (IHl _ Hin) as [Hin'|]; [|now right].
    exact (IH kv w e' Hin').
Qed.

End Scripts.

Lemma script_weaken fails (allowed allowed' : yaml_event -> Prop) m :
  (forall e, allowed e -> allowed' e) ->
  script fails allowed m -> script fails allowed' m.
Proof.
  intros Hsub. induction 1; try (now constructor).
  - apply script_emit; auto.
Qed.

Ltac script_macros :=
  unfold YAML_OUT_START, YAML_OUT_STOP, YAML_STRING, YAML_STRING_PLAIN,
    YAML_MAPPING_OPEN, YAML_MAPPING_CLOSE, YAML_SCALAR_PLAIN,
    YAML_SCALAR_QUOTED, yaml_emitter_initialize, yaml_emitter_delete.

Ltac script_steps known :=
  repeat lazymatch goal with
    | |- script _ _ (_ ;; _) => apply script_andthen
    | |- script _ _ (when _ _) => apply script_when
    | |- script _ _ (with_value _ _) =>
        apply script_with_value; intros ?; cbv beta
    | |- script _ _ (if _ then _ else _) => apply script_if
    | |- script _ _ (unchecked _) => apply script_unchecked
    | |- script _ _ skip => apply script_skip
    | |- script _ _ (g_warning _) => apply script_warning
    | |- script _ _ (lift (set_emitter _)) => apply script_set_emitter
    | |- script _ _ (yaml_emitter_emit _ _) =>
        apply script_emit; first [exact I | discriminate]
    | |- script _ _ _ => known
    end.

Section AnyWriter.

Variable fails : nat -> bool.

Lemma script_write_match def :
  script fails not_stream_end (write_match fails def).
Proof.
  unfold write_match. script_macros. script_steps fail.
Qed.

Lemma script_write_backend_settings s :
  script fails not_stream_end (write_backend_settings fails s).
Proof.
  unfold write_backend_settings. script_macros.
  script_steps
    ltac:(apply
            (script_foreach fails not_stream_end _
               (fun kv =>
                  YAML_SCALAR_PLAIN fails (fst kv) ;;
                  YAML_SCALAR_QUOTED fails (snd kv)));
          intros kv; script_macros).
Qed.

Section AnyTables.

Variable netplan_def_type_to_str : NetplanDefType -> string.
Variable netplan_backend_to_name : NetplanBackend -> option string.
Variable netplan_wifi_mode_to_str : NetplanWifiMode -> string.

Lemma script_write_access_points def :
  script fails not_stream_end
    (write_access_points fails netplan_wifi_mode_to_str def).
Proof.
  unfold write_access_points. script_macros.
  script_steps
    ltac:(induction (access_points def) as [|ap aps IH];
          [apply script_skip|];
          simpl access_points_loop; unfold write_access_point;
          script_macros;
          script_steps
            ltac:(first [apply script_write_backend_settings | exact IH])).
Qed.

(** The whole body is a script, stream end included. *)
Lemma script_netplan_conf_body def :
  script fails (fun _ => True)
    (write_netplan_conf_body fails netplan_def_type_to_str
       netplan_backend_to_name netplan_wifi_mode_to_str def).
Proof.
  unfold write_netplan_conf_body. script_macros.
  script_steps
    ltac:(apply (script_weaken fails not_stream_end); [intros; exact I|];
          first [ apply script_write_match
                | apply script_write_backend_settings
                | apply script_write_access_points ]).
Qed.

Lemma no_stream_end_andthen a b :
  script fails not_stream_end a -> no_stream_end_on_error b ->
  no_stream_end_on_error (a ;; b).
Proof.
  intros Ha Hb w Hw. rewrite andthen_run.
  assert (Hw' : ~ In STREAM_END (emitted (snd (a w)))).
  { intros Hin.
    destruct (script_events fails _ a Ha w _ Hin) as [H|H]; [auto|].
    now apply H. }
  destruct (fst (a w)); [now apply Hb|intros _; exact Hw'].
Qed.

Lemma no_stream_end_last :
  no_stream_end_on_error
    (yaml_emitter_emit fails STREAM_END ;; lift (set_emitter EMITTER_DELETED)).
Proof.
  intros w Hw. unfold andthen, yaml_emitter_emit, lift.
  destruct (fails (calls w)); simpl; [intros _; exact Hw|discriminate].
Qed.

Lemma netplan_conf_body_no_stream_end_on_error def :
  no_stream_end_on_error
    (write_netplan_conf_body fails netplan_def_type_to_str
       netplan_backend_to_name netplan_wifi_mode_to_str def).
Proof.
  unfold write_netplan_conf_body, YAML_OUT_STOP, yaml_emitter_delete.
  repeat lazymatch goal with
    | |- no_stream_end_on_error (yaml_emitter_emit _ STREAM_END ;; _) =>
        apply no_stream_end_last
    | |- no_stream_end_on_error (_ ;; _) =>
        apply no_stream_end_andthen;
        [ script_macros;
          script_steps
            ltac:(first [ apply script_write_match
                        | apply script_write_backend_settings
                        | apply script_write_access_points ])
        | ]
    end.
Qed.

Lemma finalizes_andthen a b : finalizes fails b -> finalizes fails (a ;; b).
Proof.
  intros Hb w. rewrite andthen_run.
  destruct (fst (a w)); [apply Hb|discriminate].
Qed.

Lemma finalizes_OUT_STOP : finalizes fails (YAML_OUT_STOP fails).
Proof.
  intros w. unfold YAML_OUT_STOP, yaml_emitter_delete, lift, andthen,
    yaml_emitter_emit. simpl calls.
  destruct (fails (calls w)); [discriminate|]. simpl calls.
  destruct (fails (S (calls w))); [discriminate|]. simpl calls.
  destruct (fails (S (S (calls w)))) eqn:E; [discriminate|].
  intros _. simpl. split; [lia|]. split; [exact E|]. split; [reflexivity|].
  exists (emitted w). now rewrite <- !app_assoc.
Qed.

Lemma finalizes_netplan_conf_body def :
  finalizes fails
    (write_netplan_conf_body fails netplan_def_type_to_str
       netplan_backend_to_name netplan_wifi_mode_to_str def).
Proof.
  unfold write_netplan_conf_body.
  repeat lazymatch goal with
    | |- finalizes _ (YAML_OUT_STOP _) => apply finalizes_OUT_STOP
    | |- finalizes _ (_ ;; _) => apply finalizes_andthen
    end.
Qed.

End AnyTables.
End AnyWriter.

(** ** The render operation *)

Section Render.

Variable fails : nat -> bool.
Variable netplan_def_type_to_str : NetplanDefType -> string.
Variable netplan_backend_to_name : NetplanBackend -> option string.
Variable netplan_wifi_mode_to_str : NetplanWifiMode -> string.
Variable can_open : string -> bool.

(** Once the stream is open, a call runs the body on it and closes it,
    after deleting the emitter when the body ended at [error]. *)
Lemma write_netplan_conf_opened def rootdir w :
  can_open (conf_path def rootdir) = true ->
  write_netplan_conf fails netplan_def_type_to_str netplan_backend_to_name
    netplan_wifi_mode_to_str can_open def rootdir w
  = let r :=
      write_netplan_conf_body fails netplan_def_type_to_str
        netplan_backend_to_name netplan_wifi_mode_to_str def
        (set_output (STREAM_OPEN (conf_path def rootdir)) w) in
    Some (fclose (if fst r then snd r
                  else set_emitter EMITTER_DELETED (snd r))).
Proof.
  intros Hopen. unfold write_netplan_conf, fopen. rewrite Hopen.
  destruct (write_netplan_conf_body _ _ _ _ _ _) as [[|] w2]; reflexivity.
Qed.

End Render.

(** The document a writer that accepts every event is left with. *)
Lemma write_netplan_conf_accepted type_to_str backend_to_name mode_to_str
    can_open def rootdir :
  can_open (conf_path def rootdir) = true ->
  write_netplan_conf never_fails type_to_str backend_to_name mode_to_str
    can_open def rootdir world0
  = Some
      {| emitted := document_events type_to_str backend_to_name mode_to_str def;
         calls :=
           length (document_events type_to_str backend_to_name mode_to_str def);
         warnings := document_warnings def;
         emitter := EMITTER_DELETED;
         output := STREAM_CLOSED (conf_path def rootdir);
         fcloses := 1 |}.
Proof.
  intros Hopen. rewrite write_netplan_conf_opened by exact Hopen.
  cbv zeta. rewrite !writes_netplan_conf_body. reflexivity.
Qed.

Lemma body_keeps_output_stream fails type_to_str backend_to_name
    mode_to_str def w :
  output (snd (write_netplan_conf_body fails type_to_str backend_to_name
                 mode_to_str def w)) = output w
  /\ fcloses (snd (write_netplan_conf_body fails type_to_str backend_to_name
                     mode_to_str def w)) = fcloses w.
Proof.
  apply (script_frame fails (fun _ => True)), script_netplan_conf_body.
Qed.

(** C10: whenever the output stream could be opened, it is closed when
    [write_netplan_conf] returns, by exactly one [fclose], whatever the
    writer rejects on the way: on the normal exit and on the error path
    alike. *)
Theorem output_stream_always_closed (fails : nat -> bool)
    (type_to_str : NetplanDefType -> string)
    (backend_to_name : NetplanBackend -> option string)
    (mode_to_str : NetplanWifiMode -> string)
    (can_open : string -> bool)
    (def : NetplanNetDefinition) (rootdir : option string) :
  can_open (conf_path def rootdir) = true ->
  exists w',
    write_netplan_conf fails type_to_str backend_to_name mode_to_str
      can_open def rootdir world0 = Some w'
    /\ output w' = STREAM_CLOSED (conf_path def rootdir)
    /\ fcloses w' = 1.
Proof.
  intros Hopen. eexists. split.
  - apply write_netplan_conf_opened, Hopen.
  - cbv zeta.
    destruct (script_frame fails _ _
                (script_netplan_conf_body fails type_to_str backend_to_name
                   mode_to_str def)
                (set_output (STREAM_OPEN (conf_path def rootdir)) world0))
      as [Ho Hf].
    destruct (fst _); unfold fclose, set_emitter; simpl;
      rewrite Ho, Hf; now split.
Qed.

Lemma output_stream_always_closed_witness :
  exists w',
    write_netplan_conf (fails_only_at 20) example_def_type_to_str
      example_backend_to_name example_wifi_mode_to_str always_opens
      wlan0 (Some "/tmp/root") world0 = Some w'
    /\ output w' = STREAM_CLOSED "/tmp/root/etc/netplan/90-NM-abc-123.yaml"
    /\ fcloses w' = 1.
Proof.
  apply (output_stream_always_closed (fails_only_at 20)
           example_def_type_to_str example_backend_to_name
           example_wifi_mode_to_str always_opens wlan0 (Some "/tmp/root")).
  reflexivity.
Defined.

(** ** Definitions of type [other] *)

(** C5: for a definition whose type is [other], whatever the writer does,
    the call behaves as it does on the definition stripped of its match,
    wake-on-lan flag, modem parameters and access points; and on a writer
    that accepts every event the document is the skeleton (network,
    version, device-type keyword, identifier, renderer), then the
    [networkmanager] mapping if there is one, then the closing events:
    no match, wake-on-lan, modem or access-point key is written. *)
Theorem other_type_renders_skeleton_and_settings (fails : nat -> bool)
    (type_to_str : NetplanDefType -> string)
    (backend_to_name : NetplanBackend -> option string)
    (mode_to_str : NetplanWifiMode -> string)
    (can_open : string -> bool)
    (def : NetplanNetDefinition) (rootdir : option string) (w : world) :
  def_type def = NETPLAN_DEF_TYPE_OTHER ->
  can_open (conf_path def rootdir) = true ->
  write_netplan_conf fails type_to_str backend_to_name mode_to_str
    can_open def rootdir w
  = write_netplan_conf fails type_to_str backend_to_name mode_to_str
      can_open (only_passthrough def) rootdir w
  /\ exists w',
       write_netplan_conf never_fails type_to_str backend_to_name
         mode_to_str can_open def rootdir world0 = Some w'
       /\ emitted w'
          = [STREAM_START; DOCUMENT_START; MAPPING_START;
             SCALAR PLAIN "network"; MAPPING_START;
             SCALAR PLAIN "version"; SCALAR PLAIN "2";
             SCALAR PLAIN (type_to_str NETPLAN_DEF_TYPE_OTHER); MAPPING_START;
             SCALAR PLAIN (def_id def); MAPPING_START]
            ++ pair_events PLAIN "renderer" (backend_to_name (def_backend def))
            ++ networkmanager_events (backend_settings def)
            ++ [MAPPING_END; MAPPING_END; MAPPING_END]
            ++ [MAPPING_END; DOCUMENT_END; STREAM_END]
       /\ warnings w' = [].
Proof.
  intros Htype Hopen. split.
  - unfold write_netplan_conf, write_netplan_conf_body, conf_path,
      conf_filename. simpl. now rewrite Htype.
  - eexists. split; [apply write_netplan_conf_accepted, Hopen|].
    simpl. unfold document_events, document_warnings, skeleton_events.
    rewrite Htype. simpl. split; reflexivity.
Qed.

Lemma other_type_renders_skeleton_and_settings_witness :
  exists w',
    write_netplan_conf never_fails example_def_type_to_str
      example_backend_to_name example_wifi_mode_to_str always_opens
      dummy0 (Some "/tmp/root") world0 = Some w'
    /\ emitted w'
       = [STREAM_START; DOCUMENT_START; MAPPING_START;
          SCALAR PLAIN "network"; MAPPING_START;
          SCALAR PLAIN "version"; SCALAR PLAIN "2";
          SCALAR PLAIN "nm-devices"; MAPPING_START;
          SCALAR PLAIN "dummy0"; MAPPING_START;
          SCALAR PLAIN "renderer"; SCALAR PLAIN "NetworkManager";
          SCALAR PLAIN "networkmanager"; MAPPING_START;
          SCALAR PLAIN "uuid"; SCALAR PLAIN "abc-123";
          SCALAR PLAIN "name"; SCALAR QUOTED "home";
          SCALAR PLAIN "passthrough"; MAPPING_START;
          SCALAR PLAIN "a"; SCALAR QUOTED "1";
          SCALAR PLAIN "b"; SCALAR QUOTED "2";
          SCALAR PLAIN "c"; SCALAR QUOTED "3";
          MAPPING_END; MAPPING_END;
          MAPPING_END; MAPPING_END; MAPPING_END;
          MAPPING_END; DOCUMENT_END; STREAM_END]
    /\ warnings w' = [].
Proof.
  apply (other_type_renders_skeleton_and_settings never_fails
           example_def_type_to_str example_backend_to_name
           example_wifi_mode_to_str always_opens dummy0 (Some "/tmp/root")
           world0);
    reflexivity.
Defined.

(** ** Modem parameters *)

Lemma in_pair_events key key' v :
  In (SCALAR PLAIN key) (pair_events QUOTED key' v)
  <-> key' = key /\ is_some v = true.
Proof.
  destruct v as [v|]; simpl.
  - split.
    + intros [H|[H|[]]]; [now inversion H|discriminate].
    + intros [-> _]. now left.
  - split; [intros []|intros [_ H]; discriminate].
Qed.

Lemma in_flag_events key key' (flag : bool) :
  In (SCALAR PLAIN key) (flag_events key' flag)
  <-> (key' = key \/ "true"%string = key) /\ flag = true.
Proof.
  destruct flag; simpl.
  - split.
    + intros [H|[H|[]]]; inversion H; auto.
    + intros [[->| <-] _]; auto.
  - split; [intros []|intros [_ H]; discriminate].
Qed.

Lemma modem_key_written p key :
  In key modem_keys ->
  (In (SCALAR PLAIN key) (modem_events p)
   <-> modem_field_set p key = true).
Proof.
  intros Hkey. unfold modem_events.
  rewrite !in_app_iff, in_flag_events, !in_pair_events.
  unfold modem_keys in Hkey. simpl in Hkey.
  repeat (destruct Hkey as [<-|Hkey]; [cbn; intuition discriminate|]).
  destruct Hkey.
Qed.

(** C9 (counterexample): an ethernet definition whose APN field is set is
    rendered with an [apn] key. *)
Lemma modem_key_on_ethernet :
  def_type eth0 <> NETPLAN_DEF_TYPE_MODEM
  /\ write_netplan_conf never_fails example_def_type_to_str
       example_backend_to_name example_wifi_mode_to_str always_opens
       eth0 (Some "/") world0
     = Some
         {| emitted :=
              [STREAM_START; DOCUMENT_START; MAPPING_START;
               SCALAR PLAIN "network"; MAPPING_START;
               SCALAR PLAIN "version"; SCALAR PLAIN "2";
               SCALAR PLAIN "ethernets"; MAPPING_START;
               SCALAR PLAIN "eth0"; MAPPING_START;
               SCALAR PLAIN "renderer"; SCALAR PLAIN "NetworkManager";
               SCALAR PLAIN "match"; MAPPING_START;
               SCALAR PLAIN "name"; SCALAR QUOTED "enp3s0"; MAPPING_END;
               SCALAR PLAIN "wakeonlan"; SCALAR PLAIN "true";
               SCALAR PLAIN "apn"; SCALAR QUOTED "internet";
               MAPPING_END; MAPPING_END; MAPPING_END;
               MAPPING_END; DOCUMENT_END; STREAM_END];
            calls := 28; warnings := []; emitter := EMITTER_DELETED;
            output := STREAM_CLOSED "/etc/netplan/10-netplan-eth0.yaml";
            fcloses := 1 |}.
Proof. split; [discriminate|reflexivity]. Qed.

(** C9 (amended): on a writer that accepts every event, the keys of the
    modem parameters are written for every definition whose type is not
    [other], a modem or not, after the wake-on-lan flag and before the
    access points: each key is there exactly when its field is set.  For
    a definition of type [other] none of them is written. *)
Theorem modem_keys_follow_fields
    (type_to_str : NetplanDefType -> string)
    (backend_to_name : NetplanBackend -> option string)
    (mode_to_str : NetplanWifiMode -> string)
    (can_open : string -> bool)
    (def : NetplanNetDefinition) (rootdir : option string) :
  can_open (conf_path def rootdir) = true ->
  exists w',
    write_netplan_conf never_fails type_to_str backend_to_name mode_to_str
      can_open def rootdir world0 = Some w'
    /\ emitted w'
       = skeleton_events type_to_str backend_to_name def
         ++ (if def_type_eqb (def_type def) NETPLAN_DEF_TYPE_OTHER then []
             else
               (if has_match def then match_events def else [])
               ++ flag_events "wakeonlan" (wake_on_lan def)
               ++ modem_events (modem_params def)
               ++ (if def_type_eqb (def_type def) NETPLAN_DEF_TYPE_WIFI
                   then access_points_events mode_to_str (access_points def)
                   else []))
         ++ networkmanager_events (backend_settings def)
         ++ [MAPPING_END; MAPPING_END; MAPPING_END]
         ++ [MAPPING_END; DOCUMENT_END; STREAM_END]
    /\ forall key, In key modem_keys ->
         (In (SCALAR PLAIN key) (modem_events (modem_params def))
          <-> modem_field_set (modem_params def) key = true).
Proof.
  intros Hopen. eexists.
  split; [apply write_netplan_conf_accepted, Hopen|].
  split; [reflexivity|].
  intros key. apply modem_key_written.
Qed.

Lemma modem_keys_follow_fields_witness :
  exists w',
    write_netplan_conf never_fails example_def_type_to_str
      example_backend_to_name example_wifi_mode_to_str always_opens
      eth0 (Some "/") world0 = Some w'
    /\ emitted w'
       = skeleton_events example_def_type_to_str example_backend_to_name eth0
         ++ (match_events eth0
             ++ flag_events "wakeonlan" true
             ++ modem_events (modem_params eth0)
             ++ [])
         ++ []
         ++ [MAPPING_END; MAPPING_END; MAPPING_END]
         ++ [MAPPING_END; DOCUMENT_END; STREAM_END]
    /\ forall key, In key modem_keys ->
         (In (SCALAR PLAIN key) (modem_events (modem_params eth0))
          <-> modem_field_set (modem_params eth0) key = true).
Proof.
  apply (modem_keys_follow_fields example_def_type_to_str
           example_backend_to_name example_wifi_mode_to_str always_opens
           eth0 (Some "/")).
  reflexivity.
Defined.

(** ** The output path *)

Open Scope string_scope.

Lemma is_empty_yaml s : is_empty (s ++ ".yaml") = false.
Proof. now destruct s. Qed.

Lemma skip_separators_yaml s :
  is_empty (skip_separators (s ++ ".yaml")) = false.
Proof.
  induction s as [|c s IH]; [reflexivity|].
  simpl. now destruct (is_separator c).
Qed.

Lemma drop_trailing_separators_yaml s :
  drop_trailing_separators (s ++ ".yaml") = s ++ ".yaml".
Proof.
  induction s as [|c s IH]; [reflexivity|].
  simpl. now rewrite IH, is_empty_yaml, andb_false_r.
Qed.

Lemma trailing_separators_yaml s : trailing_separators (s ++ ".yaml") = "".
Proof.
  induction s as [|c s IH]; [reflexivity|].
  change (trailing_separators (String c s ++ ".yaml"))
    with (if is_empty (skip_separators (String c s ++ ".yaml"))
          then String c s ++ ".yaml"
          else trailing_separators (s ++ ".yaml")).
  now rewrite (skip_separators_yaml (String c s)).
Qed.

(** The file name starts with a digit and ends with [.yaml]. *)
Lemma conf_filename_shape def :
  exists c s,
    conf_filename def = String c (s ++ ".yaml") /\ is_separator c = false.
Proof.
  unfold conf_filename.
  destruct (uuid (nm (backend_settings def))) as [u|].
  - exists "9"%char, ("0-NM-" ++ u). now split.
  - exists "1"%char, ("0-netplan-" ++ def_id def). now split.
Qed.

(** What [g_build_path] does with the file name, once something was
    written before it. *)
Lemma build_path_step_filename st def :
  have_leading st = true -> is_first st = false ->
  build_path_step st (conf_filename def)
  = {| result := result st ++ "/" ++ conf_filename def;
       is_first := false; have_leading := true;
       single_element := None; last_trailing := Some "" |}.
Proof.
  intros Hl Hf. destruct (conf_filename_shape def) as (c & s & -> & Hc).
  unfold build_path_step.
  change (is_empty (String c (s ++ ".yaml"))) with false. cbv iota.
  change (skip_separators (String c (s ++ ".yaml")))
    with (if is_separator c then skip_separators (s ++ ".yaml")
          else String c (s ++ ".yaml")).
  rewrite Hc, Hl.
  change (String c (s ++ ".yaml")) with (String c s ++ ".yaml").
  rewrite (drop_trailing_separators_yaml (String c s)).
  rewrite (trailing_separators_yaml (String c s)).
  rewrite (is_empty_yaml (String c s)). simpl. now rewrite Hf.
Qed.

Lemma append_assoc (a b c : string) : (a ++ b) ++ c = a ++ b ++ c.
Proof. induction a as [|x a IH]; simpl; [reflexivity|now rewrite IH]. Qed.

Lemma append_empty_r (s : string) : s ++ "" = s.
Proof. induction s as [|x s IH]; simpl; [reflexivity|now rewrite IH]. Qed.

(** What [g_build_path] does with the root directory, its first element
    when it is not empty. *)
Lemma build_path_step_rootdir r :
  is_empty r = false ->
  build_path_step build_path_start r
  = {| result :=
         leading_separators r ++ drop_trailing_separators (skip_separators r);
       is_first := is_empty (drop_trailing_separators (skip_separators r));
       have_leading := true;
       single_element :=
         if is_empty (drop_trailing_separators (skip_separators r))
         then Some r else None;
       last_trailing := Some (trailing_separators r) |}.
Proof.
  intros Hr. unfold build_path_step, build_path_start. rewrite Hr.
  cbn [have_leading is_first result single_element last_trailing].
  destruct (drop_trailing_separators (skip_separators r)) eqn:E;
    cbn [is_empty append]; [now rewrite append_empty_r|reflexivity].
Qed.

Lemma build_path_step_etc st :
  have_leading st = true ->
  build_path_step st "etc"
  = {| result := result st ++ (if is_first st then "" else "/") ++ "etc";
       is_first := false; have_leading := true;
       single_element := None; last_trailing := Some "" |}.
Proof. intros H. unfold build_path_step. rewrite H. reflexivity. Qed.

Lemma build_path_step_netplan st :
  have_leading st = true ->
  build_path_step st "netplan"
  = {| result := result st ++ (if is_first st then "" else "/") ++ "netplan";
       is_first := false; have_leading := true;
       single_element := None; last_trailing := Some "" |}.
Proof. intros H. unfold build_path_step. rewrite H. reflexivity. Qed.

(** With a root directory: its leading separators are kept, its trailing
    ones are dropped, and [etc/netplan/<filename>] follows. *)
Lemma conf_path_rooted def r :
  is_empty r = false ->
  conf_path def (Some r)
  = leading_separators r
    ++ (if is_empty (drop_trailing_separators (skip_separators r)) then ""
        else drop_trailing_separators (skip_separators r) ++ "/")
    ++ "etc/netplan/" ++ conf_filename def.
Proof.
  intros Hr. unfold conf_path, g_build_path. cbn [fold_left].
  rewrite (build_path_step_rootdir r Hr).
  rewrite build_path_step_etc by reflexivity.
  rewrite build_path_step_netplan by reflexivity.
  rewrite build_path_step_filename by reflexivity.
  cbn [single_element last_trailing result is_first].
  destruct (is_empty (drop_trailing_separators (skip_separators r))) eqn:Hb.
  - destruct (drop_trailing_separators (skip_separators r)); [|discriminate].
    rewrite !append_assoc, append_empty_r. reflexivity.
  - rewrite !append_assoc, append_empty_r. reflexivity.
Qed.

Lemma leading_then_rest s : leading_separators s ++ skip_separators s = s.
Proof.
  induction s as [|c s IH]; [reflexivity|].
  simpl. destruct (is_separator c); [simpl; now rewrite IH|reflexivity].
Qed.

Lemma is_empty_drop_trailing s :
  is_empty (drop_trailing_separators s) = is_empty (skip_separators s).
Proof.
  induction s as [|c s IH]; [reflexivity|].
  simpl. rewrite IH.
  destruct (is_separator c); [|reflexivity].
  now destruct (is_empty (skip_separators s)).
Qed.

Lemma drop_then_trailing s :
  drop_trailing_separators s ++ trailing_separators s = s.
Proof.
  induction s as [|c s IH]; [reflexivity|].
  change (trailing_separators (String c s))
    with (if is_empty (skip_separators (String c s))
          then String c s else trailing_separators s).
  simpl. rewrite is_empty_drop_trailing.
  destruct (is_separator c); simpl.
  - destruct (is_empty (skip_separators s)); [reflexivity|].
    simpl. now rewrite IH.
  - now rewrite IH.
Qed.

Lemma trailing_after_skip s :
  is_empty (skip_separators s) = false ->
  trailing_separators (skip_separators s) = trailing_separators s.
Proof.
  induction s as [|c s IH]; [reflexivity|].
  change (trailing_separators (String c s))
    with (if is_empty (skip_separators (String c s))
          then String c s else trailing_separators s).
  simpl. destruct (is_separator c) eqn:Hc.
  - intros H. rewrite H. now apply IH.
  - intros _.
    change (trailing_separators (String c s))
      with (if is_empty (skip_separators (String c s))
            then String c s else trailing_separators s).
    simpl. now rewrite Hc.
Qed.

Lemma skip_separators_twice s :
  skip_separators (skip_separators s) = skip_separators s.
Proof.
  induction s as [|c s IH]; [reflexivity|].
  simpl. destruct (is_separator c) eqn:Hc; [exact IH|].
  simpl. now rewrite Hc.
Qed.

(** A root directory that does not end with a separator and is not made
    of separators only: the path is [<rootdir>/etc/netplan/<filename>]. *)
Lemma conf_path_under_rootdir def r :
  is_empty (skip_separators r) = false ->
  trailing_separators r = "" ->
  conf_path def (Some r) = r ++ "/etc/netplan/" ++ conf_filename def.
Proof.
  intros Hbody Htrail.
  assert (Hr : is_empty r = false) by (destruct r; [discriminate|reflexivity]).
  rewrite (conf_path_rooted def r Hr), is_empty_drop_trailing,
    skip_separators_twice, Hbody.
  assert (E : drop_trailing_separators (skip_separators r)
              = skip_separators r).
  { rewrite <- (drop_then_trailing (skip_separators r)) at 2.
    now rewrite (trailing_after_skip r Hbody), Htrail, append_empty_r. }
  rewrite E, !append_assoc, <- (append_assoc (leading_separators r)).
  now rewrite leading_then_rest.
Qed.

(** C4 (evaluation at the failing input): with a NULL root directory
    [g_build_path] ignores the empty first element, and the path is the
    relative [etc/netplan/<filename>] for every definition, not
    [/etc/netplan/<filename>]; with a root directory the path lies under
    it. *)
Theorem null_rootdir_gives_relative_path (def : NetplanNetDefinition) :
  conf_path def None = "etc/netplan/" ++ conf_filename def
  /\ conf_path def None <> "/etc/netplan/" ++ conf_filename def
  /\ conf_path eth0 None = "etc/netplan/10-netplan-eth0.yaml"
  /\ conf_path wlan0 None = "etc/netplan/90-NM-abc-123.yaml"
  /\ conf_path eth0 (Some "/tmp/root")
     = "/tmp/root/etc/netplan/10-netplan-eth0.yaml"
  /\ conf_path wlan0 (Some "/tmp/root")
     = "/tmp/root/etc/netplan/90-NM-abc-123.yaml".
Proof.
  assert (H : conf_path def None = "etc/netplan/" ++ conf_filename def).
  { unfold conf_path, g_build_path. cbn [fold_left].
    change (build_path_step _ "") with build_path_start.
    change (build_path_step _ "etc") with
      {| result := "etc"; is_first := false; have_leading := true;
         single_element := None; last_trailing := Some "" |}.
    change (build_path_step _ "netplan") with
      {| result := "etc/netplan"; is_first := false; have_leading := true;
         single_element := None; last_trailing := Some "" |}.
    rewrite build_path_step_filename by reflexivity.
    cbn [single_element last_trailing result].
    generalize (conf_filename def). intros f. simpl.
    repeat f_equal. induction f as [|c f IH]; simpl; [reflexivity|].
    now rewrite IH. }
  split; [exact H|]. split; [rewrite H; discriminate|].
  repeat split.
Qed.

(** ** Nesting of the mappings *)

Open Scope list_scope.

Lemma balanced_nil : balanced [].
Proof. intros key stack. now exists key. Qed.

Lemma balanced_scalar style s : balanced [SCALAR style s].
Proof. intros key stack. now exists (Some s). Qed.

Lemma balanced_app es1 es2 :
  balanced es1 -> balanced es2 -> balanced (es1 ++ es2).
Proof.
  intros H1 H2 key stack.
  destruct (H1 key stack) as [key1 E1].
  destruct (H2 key1 stack) as [key2 E2].
  exists key2. intros rest. now rewrite <- app_assoc, E1, E2.
Qed.

Lemma balanced_mapping es :
  balanced es -> balanced (MAPPING_START :: es ++ [MAPPING_END]).
Proof.
  intros H key stack. destruct (H None (key :: stack)) as [key1 E1].
  exists None. intros rest. simpl. now rewrite <- app_assoc, E1.
Qed.

Lemma balanced_if (c : bool) es1 es2 :
  balanced es1 -> balanced es2 -> balanced (if c then es1 else es2).
Proof. now destruct c. Qed.

Lemma balanced_flat_map {A} (f : A -> list yaml_event) l :
  (forall x, balanced (f x)) -> balanced (flat_map f l).
Proof.
  intros H. induction l as [|x l IH]; [apply balanced_nil|].
  simpl. now apply balanced_app.
Qed.

Lemma balanced_pair_events style key v : balanced (pair_events style key v).
Proof.
  destruct v as [v|]; [|apply balanced_nil].
  apply (balanced_app [_] [_]); apply balanced_scalar.
Qed.

Lemma balanced_flag_events key flag : balanced (flag_events key flag).
Proof.
  destruct flag; [|apply balanced_nil].
  apply (balanced_app [_] [_]); apply balanced_scalar.
Qed.

(** A key followed by the mapping that is its value. *)
Lemma balanced_keyed_mapping style key es :
  balanced es ->
  balanced ([SCALAR style key; MAPPING_START] ++ es ++ [MAPPING_END]).
Proof.
  intros H. apply (balanced_app [_]); [apply balanced_scalar|].
  now apply balanced_mapping.
Qed.

Lemma balanced_keyed_mapping3 style key es1 es2 es3 :
  balanced es1 -> balanced es2 -> balanced es3 ->
  balanced
    ([SCALAR style key; MAPPING_START] ++ es1 ++ es2 ++ es3 ++ [MAPPING_END]).
Proof.
  intros H1 H2 H3.
  replace (es1 ++ es2 ++ es3 ++ [MAPPING_END])
    with ((es1 ++ es2 ++ es3) ++ [MAPPING_END])
    by now rewrite <- !app_assoc.
  apply balanced_keyed_mapping. now repeat apply balanced_app.
Qed.

Lemma balanced_match_events def : balanced (match_events def).
Proof. apply balanced_keyed_mapping, balanced_pair_events. Qed.

Lemma balanced_modem_events p : balanced (modem_events p).
Proof.
  unfold modem_events.
  repeat apply balanced_app;
    first [apply balanced_flag_events | apply balanced_pair_events].
Qed.

Lemma balanced_networkmanager_events s : balanced (networkmanager_events s).
Proof.
  unfold networkmanager_events.
  apply balanced_if; [|apply balanced_nil].
  apply balanced_keyed_mapping3; try apply balanced_pair_events.
  apply balanced_if; [|apply balanced_nil].
  apply balanced_keyed_mapping, balanced_flat_map.
  intros kv. apply (balanced_app [_] [_]); apply balanced_scalar.
Qed.

Lemma balanced_access_points_events mode_to_str aps :
  balanced (access_points_events mode_to_str aps).
Proof.
  apply balanced_keyed_mapping, balanced_flat_map. intros ap.
  apply balanced_keyed_mapping3.
  - apply balanced_flag_events.
  - apply (balanced_app [_] [_]); apply balanced_scalar.
  - apply balanced_networkmanager_events.
Qed.

Lemma balanced_field_events mode_to_str def :
  balanced (field_events mode_to_str def).
Proof.
  unfold field_events.
  apply balanced_app;
    [apply balanced_if; [apply balanced_match_events|apply balanced_nil]|].
  apply balanced_app; [apply balanced_flag_events|].
  apply balanced_app; [apply balanced_modem_events|].
  apply balanced_if; [apply balanced_access_points_events|apply balanced_nil].
Qed.

Lemma def_type_eqb_other t :
  t <> NETPLAN_DEF_TYPE_OTHER ->
  def_type_eqb t NETPLAN_DEF_TYPE_OTHER = false.
Proof. destruct t; try reflexivity. intros H; now elim H. Qed.

(** After the skeleton, the fields and the backend settings, the open
    mappings are those of the identifier, of the device type, of
    [network] and the root mapping, innermost first. *)
Lemma open_mappings_document type_to_str backend_to_name mode_to_str def rest :
  exists key',
    open_mappings
      (skeleton_events type_to_str backend_to_name def
       ++ field_events mode_to_str def
       ++ networkmanager_events (backend_settings def)
       ++ rest) None []
    = open_mappings rest key'
        [Some (def_id def); Some (type_to_str (def_type def));
         Some "network"%string; None].
Proof.
  unfold skeleton_events. rewrite <- app_assoc. simpl.
  assert (H : balanced
                (pair_events PLAIN "renderer"
                   (backend_to_name (def_backend def))
                 ++ field_events mode_to_str def
                 ++ networkmanager_events (backend_settings def))).
  { apply balanced_app; [apply balanced_pair_events|].
    apply balanced_app;
      [apply balanced_field_events|apply balanced_networkmanager_events]. }
  destruct (H None
              [Some (def_id def); Some (type_to_str (def_type def));
               Some "network"%string; None]) as [key' E].
  exists key'. rewrite <- (E rest). now rewrite <- !app_assoc.
Qed.

(** ** Definitions of the other types *)

(** C6: for a definition whose type is not [other], on a writer that
    accepts every event, the document holds after the skeleton, in this
    order: the match mapping if there is a match, [wakeonlan: true] if
    the flag is set, the modem parameters that are present, the
    access-points mapping if the type is wifi, and the backend settings.
    The mappings then open are those of the identifier, of the device
    type and of [network], innermost first, over the root mapping: the
    three MAPPING_END events that follow close them in that order, and
    the stream is finalized with every mapping closed. *)
Theorem fields_in_fixed_order
    (type_to_str : NetplanDefType -> string)
    (backend_to_name : NetplanBackend -> option string)
    (mode_to_str : NetplanWifiMode -> string)
    (can_open : string -> bool)
    (def : NetplanNetDefinition) (rootdir : option string) :
  def_type def <> NETPLAN_DEF_TYPE_OTHER ->
  can_open (conf_path def rootdir) = true ->
  exists w',
    write_netplan_conf never_fails type_to_str backend_to_name mode_to_str
      can_open def rootdir world0 = Some w'
    /\ emitted w'
       = skeleton_events type_to_str backend_to_name def
         ++ (if has_match def then match_events def else [])
         ++ flag_events "wakeonlan" (wake_on_lan def)
         ++ modem_events (modem_params def)
         ++ (if def_type_eqb (def_type def) NETPLAN_DEF_TYPE_WIFI
             then access_points_events mode_to_str (access_points def)
             else [])
         ++ networkmanager_events (backend_settings def)
         ++ [MAPPING_END; MAPPING_END; MAPPING_END]
         ++ [MAPPING_END; DOCUMENT_END; STREAM_END]
    /\ open_mappings
         (skeleton_events type_to_str backend_to_name def
          ++ (if has_match def then match_events def else [])
          ++ flag_events "wakeonlan" (wake_on_lan def)
          ++ modem_events (modem_params def)
          ++ (if def_type_eqb (def_type def) NETPLAN_DEF_TYPE_WIFI
              then access_points_events mode_to_str (access_points def)
              else [])
          ++ networkmanager_events (backend_settings def)) None []
       = Some [Some (def_id def); Some (type_to_str (def_type def));
               Some "network"%string; None]
    /\ open_mappings (emitted w') None [] = Some [].
Proof.
  intros Htype Hopen. apply def_type_eqb_other in Htype.
  eexists. split; [apply write_netplan_conf_accepted, Hopen|].
  simpl emitted. unfold document_events. rewrite Htype.
  unfold field_events, closing_events, stop_events. rewrite <- !app_assoc.
  split; [reflexivity|]. split.
  - destruct (open_mappings_document type_to_str backend_to_name
                mode_to_str def []) as [key' E].
    unfold field_events in E. rewrite <- !app_assoc, app_nil_r in E.
    exact E.
  - destruct (open_mappings_document type_to_str backend_to_name
                mode_to_str def
                ([MAPPING_END; MAPPING_END; MAPPING_END]
                 ++ [MAPPING_END; DOCUMENT_END; STREAM_END]))
      as [key' E].
    unfold field_events in E. rewrite <- !app_assoc in E.
    rewrite E. reflexivity.
Qed.

Lemma fields_in_fixed_order_witness :
  exists w',
    write_netplan_conf never_fails example_def_type_to_str
      example_backend_to_name example_wifi_mode_to_str always_opens
      wlan0 (Some "/tmp/root") world0 = Some w'
    /\ emitted w'
       = skeleton_events example_def_type_to_str example_backend_to_name wlan0
         ++ []
         ++ flag_events "wakeonlan" false
         ++ modem_events no_modem_params
         ++ access_points_events example_wifi_mode_to_str [home_ap; mesh_ap]
         ++ networkmanager_events (backend_settings wlan0)
         ++ [MAPPING_END; MAPPING_END; MAPPING_END]
         ++ [MAPPING_END; DOCUMENT_END; STREAM_END]
    /\ open_mappings
         (skeleton_events example_def_type_to_str example_backend_to_name
            wlan0
          ++ []
          ++ flag_events "wakeonlan" false
          ++ modem_events no_modem_params
          ++ access_points_events example_wifi_mode_to_str [home_ap; mesh_ap]
          ++ networkmanager_events (backend_settings wlan0)) None []
       = Some [Some "wlan0"%string; Some "wifis"%string;
               Some "network"%string; None]
    /\ open_mappings (emitted w') None [] = Some [].
Proof.
  apply (fields_in_fixed_order example_def_type_to_str
           example_backend_to_name example_wifi_mode_to_str always_opens
           wlan0 (Some "/tmp/root")).
  - discriminate.
  - reflexivity.
Defined.

(** ** Access points of an unsupported mode *)

Lemma mode_warnings_app id aps1 aps2 :
  mode_warnings id (aps1 ++ aps2)
  = mode_warnings id aps1 ++ mode_warnings id aps2.
Proof. unfold mode_warnings. now rewrite filter_app, map_app. Qed.

Lemma access_point_events_unsupported mode_to_str ap :
  mode ap = NETPLAN_WIFI_MODE_OTHER ->
  access_point_events mode_to_str ap
  = [SCALAR QUOTED (ssid ap); MAPPING_START]
    ++ flag_events "hidden" (hidden ap)
    ++ [SCALAR PLAIN "mode"; SCALAR PLAIN "infrastructure"]
    ++ networkmanager_events (ap_backend_settings ap)
    ++ [MAPPING_END].
Proof.
  intros Hmode. unfold access_point_events, is_unsupported.
  now rewrite Hmode.
Qed.

Lemma access_points_events_split mode_to_str before ap after :
  access_points_events mode_to_str (before ++ ap :: after)
  = [SCALAR PLAIN "access-points"; MAPPING_START]
    ++ flat_map (access_point_events mode_to_str) before
    ++ access_point_events mode_to_str ap
    ++ flat_map (access_point_events mode_to_str) after
    ++ [MAPPING_END].
Proof.
  unfold access_points_events. rewrite flat_map_app.
  change (flat_map (access_point_events mode_to_str) (ap :: after))
    with (access_point_events mode_to_str ap
          ++ flat_map (access_point_events mode_to_str) after).
  now rewrite <- !app_assoc.
Qed.

(** C8: a wifi definition has an access point [ap] of the unsupported
    mode, reached by the iteration after the access points [before] and
    ahead of the access points [after].  On a writer that accepts every
    event, the mapping written for [ap] holds [mode: infrastructure],
    whatever the mode table says; exactly one warning is logged for [ap],
    between those of the access points before and after it; and the
    rendering runs to its end: the document is complete, the emitter is
    deleted and the stream is closed. *)
Theorem unsupported_mode_falls_back
    (type_to_str : NetplanDefType -> string)
    (backend_to_name : NetplanBackend -> option string)
    (mode_to_str : NetplanWifiMode -> string)
    (can_open : string -> bool)
    (def : NetplanNetDefinition) (rootdir : option string)
    (before after : list NetplanWifiAccessPoint)
    (ap : NetplanWifiAccessPoint) :
  def_type def = NETPLAN_DEF_TYPE_WIFI ->
  can_open (conf_path def rootdir) = true ->
  access_points def = before ++ ap :: after ->
  mode ap = NETPLAN_WIFI_MODE_OTHER ->
  exists w',
    write_netplan_conf never_fails type_to_str backend_to_name mode_to_str
      can_open def rootdir world0 = Some w'
    /\ emitted w'
       = skeleton_events type_to_str backend_to_name def
         ++ (if has_match def then match_events def else [])
         ++ flag_events "wakeonlan" (wake_on_lan def)
         ++ modem_events (modem_params def)
         ++ [SCALAR PLAIN "access-points"; MAPPING_START]
         ++ flat_map (access_point_events mode_to_str) before
         ++ ([SCALAR QUOTED (ssid ap); MAPPING_START]
             ++ flag_events "hidden" (hidden ap)
             ++ [SCALAR PLAIN "mode"; SCALAR PLAIN "infrastructure"]
             ++ networkmanager_events (ap_backend_settings ap)
             ++ [MAPPING_END])
         ++ flat_map (access_point_events mode_to_str) after
         ++ [MAPPING_END]
         ++ networkmanager_events (backend_settings def)
         ++ [MAPPING_END; MAPPING_END; MAPPING_END]
         ++ [MAPPING_END; DOCUMENT_END; STREAM_END]
    /\ warnings w'
       = mode_warnings (def_id def) before
         ++ [unsupported_mode_warning (def_id def) (ssid ap)]
         ++ mode_warnings (def_id def) after
    /\ emitter w' = EMITTER_DELETED
    /\ output w' = STREAM_CLOSED (conf_path def rootdir).
Proof.
  intros Htype Hopen Haps Hmode.
  eexists. split; [apply write_netplan_conf_accepted, Hopen|].
  cbn [emitted warnings emitter output]. split; [|split; [|now split]].
  - unfold document_events, field_events, closing_events, stop_events.
    rewrite Htype, Haps. simpl def_type_eqb. cbv iota.
    rewrite access_points_events_split.
    rewrite (access_point_events_unsupported _ _ Hmode).
    now rewrite <- !app_assoc.
  - unfold document_warnings. rewrite Htype, Haps. simpl def_type_eqb.
    cbv iota. rewrite mode_warnings_app, mode_warnings_cons.
    unfold mode_warnings at 2, is_unsupported. simpl filter.
    rewrite Hmode. reflexivity.
Qed.

Lemma unsupported_mode_falls_back_witness :
  exists w',
    write_netplan_conf never_fails example_def_type_to_str
      example_backend_to_name example_wifi_mode_to_str always_opens
      wlan0 (Some "/tmp/root") world0 = Some w'
    /\ emitted w'
       = [STREAM_START; DOCUMENT_START; MAPPING_START;
          SCALAR PLAIN "network"; MAPPING_START;
          SCALAR PLAIN "version"; SCALAR PLAIN "2";
          SCALAR PLAIN "wifis"; MAPPING_START;
          SCALAR PLAIN "wlan0"; MAPPING_START;
          SCALAR PLAIN "renderer"; SCALAR PLAIN "NetworkManager";
          SCALAR PLAIN "access-points"; MAPPING_START;
          SCALAR QUOTED "home"; MAPPING_START;
          SCALAR PLAIN "mode"; SCALAR PLAIN "infrastructure";
          MAPPING_END;
          SCALAR QUOTED "mesh"; MAPPING_START;
          SCALAR PLAIN "hidden"; SCALAR PLAIN "true";
          SCALAR PLAIN "mode"; SCALAR PLAIN "infrastructure";
          SCALAR PLAIN "networkmanager"; MAPPING_START;
          SCALAR PLAIN "passthrough"; MAPPING_START;
          SCALAR PLAIN "a"; SCALAR QUOTED "1";
          SCALAR PLAIN "b"; SCALAR QUOTED "2";
          MAPPING_END; MAPPING_END;
          MAPPING_END;
          MAPPING_END;
          SCALAR PLAIN "networkmanager"; MAPPING_START;
          SCALAR PLAIN "uuid"; SCALAR PLAIN "abc-123";
          MAPPING_END;
          MAPPING_END; MAPPING_END; MAPPING_END;
          MAPPING_END; DOCUMENT_END; STREAM_END]
    /\ warnings w'
       = ["netplan: serialize: wlan0 (SSID mesh), unsupported AP mode, falling back to 'infrastructure'"%string]
    /\ emitter w' = EMITTER_DELETED
    /\ output w'
       = STREAM_CLOSED "/tmp/root/etc/netplan/90-NM-abc-123.yaml".
Proof.
  apply (unsupported_mode_falls_back example_def_type_to_str
           example_backend_to_name example_wifi_mode_to_str always_opens
           wlan0 (Some "/tmp/root") [home_ap] [] mesh_ap);
    reflexivity.
Defined.


(** ** Subsequences and the first rejected call *)

Lemma subseq_refl {A} (l : list A) : subseq l l.
Proof. induction l; now constructor. Qed.

Lemma subseq_nil_l {A} (l : list A) : subseq [] l.
Proof. induction l; now constructor. Qed.

Lemma subseq_app {A} (l1 l1' l2 l2' : list A) :
  subseq l1 l1' -> subseq l2 l2' -> subseq (l1 ++ l2) (l1' ++ l2').
Proof. induction 1; intros H2; simpl; try (now constructor; auto). exact H2. Qed.

Lemma subseq_app_l {A} (l1 l1' l2' : list A) :
  subseq l1 l1' -> subseq l1 (l1' ++ l2').
Proof.
  intros H. rewrite <- (app_nil_r l1).
  apply subseq_app; [exact H|apply subseq_nil_l].
Qed.

Lemma subseq_length {A} (l1 l2 : list A) :
  subseq l1 l2 -> length l1 <= length l2.
Proof. induction 1; simpl; lia. Qed.

Lemma subseq_In {A} (l1 l2 : list A) x : subseq l1 l2 -> In x l1 -> In x l2.
Proof.
  induction 1; simpl; [tauto|auto|]. intros [->|H']; auto.
Qed.

Lemma first_rejected_bound fails start len k :
  first_rejected fails start len = Some k ->
  k < len /\ fails (start + k) = true
  /\ forall n, n < k -> fails (start + n) = false.
Proof.
  revert start k. induction len as [|len IH]; intros start k; simpl;
    [discriminate|].
  destruct (fails start) eqn:E.
  - intros [= <-]. rewrite Nat.add_0_r. repeat split; [lia|exact E|lia].
  - destruct (first_rejected fails (S start) len) as [k'|] eqn:E';
      [|discriminate].
    intros [= <-]. destruct (IH _ _ E') as (Hlt & Hk & Hbefore).
    repeat split; [lia|now rewrite Nat.add_succ_r|].
    intros [|n] Hn; [now rewrite Nat.add_0_r|].
    rewrite Nat.add_succ_r. apply Hbefore. lia.
Qed.

Lemma first_rejected_none fails start len :
  first_rejected fails start len = None <->
  forall n, n < len -> fails (start + n) = false.
Proof.
  revert start. induction len as [|len IH]; intros start; simpl.
  - split; [intros _ n Hn; lia|reflexivity].
  - destruct (fails start) eqn:E.
    + split; [discriminate|]. intros H. specialize (H 0).
      rewrite Nat.add_0_r, E in H. discriminate H. lia.
    + destruct (first_rejected fails (S start) len) as [k'|] eqn:E'.
      * split; [discriminate|]. intros H.
        assert (E'' : first_rejected fails (S start) len = None).
        { apply IH. intros n Hn. replace (S start + n) with (start + S n) by lia.
          apply H. lia. }
        congruence.
      * split; [|reflexivity]. intros _ [|n] Hn; [now rewrite Nat.add_0_r|].
        replace (start + S n) with (S start + n) by lia.
        apply (proj1 (IH (S start)) E'). lia.
Qed.

Lemma first_rejected_add fails start len1 len2 :
  first_rejected fails start (len1 + len2)
  = match first_rejected fails start len1 with
    | Some k => Some k
    | None => option_map (Nat.add len1)
                (first_rejected fails (start + len1) len2)
    end.
Proof.
  revert start. induction len1 as [|len1 IH]; intros start; simpl.
  - rewrite Nat.add_0_r. now destruct (first_rejected fails start len2).
  - destruct (fails start); [reflexivity|]. rewrite IH.
    destruct (first_rejected fails (S start) len1); [reflexivity|].
    rewrite Nat.add_succ_r. simpl.
    now destruct (first_rejected fails (S (start + len1)) len2).
Qed.

(** ** Runs of the building blocks on any writer *)

Section Renders.

Variable fails : nat -> bool.

Lemma renders_weaken strict m es ws :
  renders fails strict m es ws -> renders fails false m es ws.
Proof.
  induction 1; try (now constructor).
Qed.

(** When the writer accepts all the calls a piece of code is about to
    make, the code ends normally, having written its events and logged
    its warnings. *)
Lemma renders_accepted strict m es ws :
  renders fails strict m es ws ->
  forall w,
    (forall n, n < length es -> fails (calls w + n) = false) ->
    fst (m w) = true
    /\ emitted (snd (m w)) = emitted w ++ es
    /\ calls (snd (m w)) = calls w + length es
    /\ warnings (snd (m w)) = warnings w ++ ws.
Proof.
  induction 1 as [strict e|strict|strict msg|strict st
                 |strict a b es1 ws1 es2 ws2 _ IHa _ IHb
                 |a es ws _ IHa|l h f _ IH]; intros w Hacc.
  - unfold yaml_emitter_emit.
    specialize (Hacc 0 (Nat.lt_0_1)). rewrite Nat.add_0_r in Hacc.
    rewrite Hacc. simpl. repeat split; [lia|now rewrite app_nil_r].
  - simpl. now rewrite !app_nil_r, Nat.add_0_r.
  - simpl. now rewrite !app_nil_r, Nat.add_0_r.
  - simpl. now rewrite !app_nil_r, Nat.add_0_r.
  - rewrite length_app in Hacc. rewrite andthen_run.
    destruct (IHa w) as (Hok & He & Hc & Hw); [intros n Hn; apply Hacc; lia|].
    rewrite Hok.
    destruct (IHb (snd (a w))) as (Hok' & He' & Hc' & Hw').
    { intros n Hn. rewrite Hc, <- Nat.add_assoc. apply Hacc. lia. }
    rewrite Hok', He', Hc', Hw', He, Hc, Hw, length_app, !app_assoc.
    repeat split. lia.
  - destruct (IHa w Hacc) as (_ & He & Hc & Hw). now repeat split.
  - unfold g_datalist_foreach. simpl fst. simpl snd.
    split; [reflexivity|]. revert w Hacc.
    induction l as [|kv l IHl]; intros w Hacc.
    + simpl. now rewrite !app_nil_r, Nat.add_0_r.
    + simpl flat_map in *. rewrite length_app in Hacc. simpl fold_left.
      destruct (IH kv w) as (_ & He & Hc & Hw);
        [intros n Hn; apply Hacc; lia|].
      destruct (IHl (snd (h kv w))) as (He' & Hc' & Hw').
      { intros n Hn. rewrite Hc, <- Nat.add_assoc. apply Hacc. lia. }
      rewrite He', Hc', Hw', He, Hc, Hw, length_app, !app_assoc, app_nil_r.
      repeat split. lia.
Qed.

(** Whatever the writer rejects, what a piece of code writes is a
    subsequence of what it writes when nothing is rejected, and so are
    the warnings it logs. *)
Lemma renders_subseq strict m es ws :
  renders fails strict m es ws ->
  forall w, exists es' ws',
    subseq es' es /\ subseq ws' ws
    /\ emitted (snd (m w)) = emitted w ++ es'
    /\ warnings (snd (m w)) = warnings w ++ ws'.
Proof.
  induction 1 as [strict e|strict|strict msg|strict st
                 |strict a b es1 ws1 es2 ws2 _ IHa _ IHb
                 |a es ws _ IHa|l h f _ IH]; intros w.
  - unfold yaml_emitter_emit. destruct (fails (calls w)); simpl.
    + exists [], []. rewrite !app_nil_r.
      repeat split; [apply subseq_nil_l|constructor].
    + exists [e], []. rewrite app_nil_r.
      repeat split; [apply subseq_refl|constructor].
  - exists [], []. simpl. rewrite !app_nil_r. repeat split; constructor.
  - exists [], [msg]. simpl. rewrite app_nil_r.
    repeat split; [constructor|apply subseq_refl].
  - exists [], []. simpl. rewrite !app_nil_r. repeat split; constructor.
  - rewrite andthen_run.
    destruct (IHa w) as (es1' & ws1' & Hs & Hsw & He & Hw).
    destruct (fst (a w)).
    + destruct (IHb (snd (a w))) as (es2' & ws2' & Hs' & Hsw' & He' & Hw').
      exists (es1' ++ es2'), (ws1' ++ ws2').
      rewrite He', Hw', He, Hw, !app_assoc.
      repeat split; now apply subseq_app.
    + exists es1', ws1'. simpl.
      repeat split; try assumption; now apply subseq_app_l.
  - apply IHa.
  - unfold g_datalist_foreach. simpl snd. revert w.
    induction l as [|kv l IHl]; intros w.
    + exists [], []. simpl. rewrite !app_nil_r. repeat split; constructor.
    + simpl fold_left. simpl flat_map.
      destruct (IH kv w) as (es1' & ws1' & Hs & Hsw & He & Hw).
      destruct (IHl (snd (h kv w))) as (es2' & ws2' & Hs' & Hsw' & He' & Hw').
      exists (es1' ++ es2'), (ws1' ++ ws2').
      rewrite He', Hw', He, Hw, !app_assoc.
      repeat split; [now apply subseq_app|].
      inversion Hsw; subst. exact Hsw'.
Qed.

(** Strict code stops at the first rejected write: it ends at [error],
    having written the events before that write and no other, and that
    write is the last call it made.  With no rejected write it ends
    normally with all its events written. *)
Lemma renders_strict strict m es ws :
  renders fails strict m es ws -> strict = true ->
  forall w,
    match first_rejected fails (calls w) (length es) with
    | None =>
        fst (m w) = true
        /\ emitted (snd (m w)) = emitted w ++ es
        /\ calls (snd (m w)) = calls w + length es
    | Some k =>
        fst (m w) = false
        /\ emitted (snd (m w)) = emitted w ++ firstn k es
        /\ calls (snd (m w)) = calls w + S k
    end.
Proof.
  induction 1 as [strict e|strict|strict msg|strict st
                 |strict a b es1 ws1 es2 ws2 _ IHa _ IHb
                 |a es ws _ IHa|l h f _ IH]; intros Hstrict w;
    try discriminate Hstrict.
  - unfold yaml_emitter_emit. simpl first_rejected.
    destruct (fails (calls w)); simpl.
    + repeat split; try lia. now rewrite app_nil_r.
    + repeat split. lia.
  - simpl. now rewrite app_nil_r, Nat.add_0_r.
  - simpl. now rewrite app_nil_r, Nat.add_0_r.
  - simpl. now rewrite app_nil_r, Nat.add_0_r.
  - specialize (IHa Hstrict w). rewrite length_app, first_rejected_add.
    rewrite andthen_run.
    destruct (first_rejected fails (calls w) (length es1)) as [k|] eqn:E.
    + destruct IHa as (Hok & He & Hc). rewrite Hok. simpl.
      destruct (first_rejected_bound _ _ _ _ E) as (Hk & _).
      rewrite firstn_app, He.
      replace (k - length es1) with 0 by lia.
      simpl. now rewrite app_nil_r.
    + destruct IHa as (Hok & He & Hc). rewrite Hok.
      specialize (IHb Hstrict (snd (a w))). rewrite Hc in IHb.
      destruct (first_rejected fails (calls w + length es1) (length es2))
        as [k|]; simpl option_map; cbv iota.
      * destruct IHb as (Hok' & He' & Hc'). rewrite Hok', He', Hc', He.
        rewrite firstn_app.
        replace (length es1 + k - length es1) with k by lia.
        rewrite (firstn_all2 (n := length es1 + k) es1) by lia.
        rewrite app_assoc. repeat split. lia.
      * destruct IHb as (Hok' & He' & Hc'). rewrite Hok', He', Hc', He.
        rewrite app_assoc. repeat split. lia.
Qed.

End Renders.

(** ** The emitters as runs of building blocks *)

Section RendersEmitters.

Variable fails : nat -> bool.

Lemma renders_then strict a b es1 ws1 es2 ws2 es ws :
  renders fails strict a es1 ws1 -> renders fails strict b es2 ws2 ->
  es = es1 ++ es2 -> ws = ws1 ++ ws2 ->
  renders fails strict (a ;; b) es ws.
Proof. intros Ha Hb -> ->. now apply renders_andthen. Qed.

Lemma renders_when strict (c : bool) a es :
  renders fails strict a es [] ->
  renders fails strict (when c a) (if c then es else []) [].
Proof. destruct c; [trivial|intros _; apply renders_skip]. Qed.

Lemma renders_YAML_STRING strict key v :
  renders fails strict (YAML_STRING fails key v) (pair_events QUOTED key v) [].
Proof.
  destruct v as [v|]; simpl; [|apply renders_skip].
  apply (renders_andthen fails strict _ _ [_] [] [_] []);
    apply renders_emit.
Qed.

Lemma renders_YAML_STRING_PLAIN strict key v :
  renders fails strict (YAML_STRING_PLAIN fails key v)
    (pair_events PLAIN key v) [].
Proof.
  destruct v as [v|]; simpl; [|apply renders_skip].
  apply (renders_andthen fails strict _ _ [_] [] [_] []);
    apply renders_emit.
Qed.

Lemma renders_flag strict key (flag : bool) :
  renders fails strict
    (when flag (YAML_STRING_PLAIN fails key (Some "true"%string)))
    (flag_events key flag) [].
Proof.
  apply renders_when, (renders_YAML_STRING_PLAIN strict key (Some _)).
Qed.

Ltac renders_emit_then :=
  eapply renders_then; [apply renders_emit| |reflexivity..].

Lemma renders_match strict def :
  renders fails strict (write_match fails def) (match_events def) [].
Proof.
  unfold write_match, match_events.
  do 2 renders_emit_then.
  eapply renders_then;
    [apply renders_YAML_STRING|apply renders_emit|reflexivity..].
Qed.

Lemma renders_passthrough l :
  renders fails false (g_datalist_foreach l (_passthrough_handler fails))
    (flat_map passthrough_pair l) [].
Proof.
  apply (renders_foreach fails l
           (fun kv =>
              YAML_SCALAR_PLAIN fails (fst kv) ;;
              YAML_SCALAR_QUOTED fails (snd kv))
           passthrough_pair).
  intros kv.
  apply (renders_andthen fails false _ _ [_] [] [_] []); apply renders_emit.
Qed.

Lemma renders_backend_settings strict s :
  (strict = true -> no_passthrough s = true) ->
  renders fails strict (write_backend_settings fails s)
    (networkmanager_events s) [].
Proof.
  intros Hstrict. unfold write_backend_settings, networkmanager_events.
  destruct (is_some (uuid (nm s)) || is_some (name (nm s))
            || nonempty (passthrough (nm s))); simpl when;
    [|apply renders_skip].
  do 2 renders_emit_then.
  eapply renders_then;
    [apply (renders_YAML_STRING_PLAIN strict "uuid")| |reflexivity..].
  eapply renders_then;
    [apply (renders_YAML_STRING strict "name")| |reflexivity..].
  eapply renders_then with (ws1 := []);
    [|apply renders_emit|reflexivity..].
  unfold no_passthrough in Hstrict.
  destruct (nonempty (passthrough (nm s))); simpl when;
    [|apply renders_skip].
  destruct strict; [now discriminate Hstrict|].
  do 2 renders_emit_then.
  eapply renders_then;
    [apply renders_passthrough|apply renders_emit|reflexivity..].
Qed.

Section RendersTables.

Variable netplan_def_type_to_str : NetplanDefType -> string.
Variable netplan_backend_to_name : NetplanBackend -> option string.
Variable netplan_wifi_mode_to_str : NetplanWifiMode -> string.

Lemma renders_mode strict id ap :
  renders fails strict
    (if negb (wifi_mode_eqb (mode ap) NETPLAN_WIFI_MODE_OTHER)
     then YAML_SCALAR_PLAIN fails (netplan_wifi_mode_to_str (mode ap))
     else g_warning (unsupported_mode_warning id (ssid ap)) ;;
          YAML_SCALAR_PLAIN fails "infrastructure")
    [SCALAR PLAIN (if is_unsupported ap then "infrastructure"%string
                   else netplan_wifi_mode_to_str (mode ap))]
    (mode_warnings id [ap]).
Proof.
  unfold mode_warnings, is_unsupported; simpl filter.
  destruct (wifi_mode_eqb (mode ap) NETPLAN_WIFI_MODE_OTHER); simpl negb.
  - eapply renders_then;
      [apply renders_warning|apply renders_emit|reflexivity..].
  - apply renders_emit.
Qed.

Lemma renders_access_point strict id ap :
  (strict = true -> no_passthrough (ap_backend_settings ap) = true) ->
  renders fails strict
    (write_access_point fails netplan_wifi_mode_to_str id ap)
    (access_point_events netplan_wifi_mode_to_str ap)
    (mode_warnings id [ap]).
Proof.
  intros Hstrict. unfold write_access_point, access_point_events.
  do 2 renders_emit_then.
  eapply renders_then; [apply (renders_flag strict "hidden")| |reflexivity..].
  renders_emit_then.
  eapply renders_then; [apply renders_mode| |reflexivity|].
  - eapply renders_then;
      [now apply renders_backend_settings|apply renders_emit|reflexivity..].
  - now rewrite app_nil_r.
Qed.

Lemma renders_access_points_loop strict id aps :
  (strict = true ->
   forallb (fun ap => no_passthrough (ap_backend_settings ap)) aps = true) ->
  renders fails strict
    (access_points_loop fails netplan_wifi_mode_to_str id aps)
    (flat_map (access_point_events netplan_wifi_mode_to_str) aps)
    (mode_warnings id aps).
Proof.
  induction aps as [|ap aps IH]; intros Hstrict; [apply renders_skip|].
  simpl access_points_loop. rewrite mode_warnings_cons.
  change (flat_map (access_point_events netplan_wifi_mode_to_str) (ap :: aps))
    with (access_point_events netplan_wifi_mode_to_str ap
          ++ flat_map (access_point_events netplan_wifi_mode_to_str) aps).
  apply renders_andthen.
  - apply renders_access_point. intros E. specialize (Hstrict E).
    simpl in Hstrict. now apply andb_true_iff in Hstrict.
  - apply IH. intros E. specialize (Hstrict E).
    simpl in Hstrict. now apply andb_true_iff in Hstrict.
Qed.

Lemma renders_access_points strict def :
  (strict = true ->
   forallb (fun ap => no_passthrough (ap_backend_settings ap))
     (access_points def) = true) ->
  renders fails strict
    (write_access_points fails netplan_wifi_mode_to_str def)
    (access_points_events netplan_wifi_mode_to_str (access_points def))
    (mode_warnings (def_id def) (access_points def)).
Proof.
  intros Hstrict. unfold write_access_points, access_points_events.
  do 2 renders_emit_then.
  eapply renders_then;
    [now apply renders_access_points_loop|apply renders_emit|reflexivity|].
  now rewrite app_nil_r.
Qed.

Lemma renders_fields_after_match strict def :
  (strict = true ->
   def_type_eqb (def_type def) NETPLAN_DEF_TYPE_WIFI = true ->
   forallb (fun ap => no_passthrough (ap_backend_settings ap))
     (access_points def) = true) ->
  renders fails strict
    (fields_after_match fails netplan_wifi_mode_to_str def)
    (events_after_match netplan_wifi_mode_to_str def)
    (document_warnings def).
Proof.
  intros Hstrict.
  unfold fields_after_match, events_after_match, modem_events.
  eapply renders_then; [apply (renders_flag strict "wakeonlan")| |reflexivity..].
  rewrite <- !app_assoc.
  eapply renders_then;
    [apply (renders_flag strict "auto-config")| |reflexivity..].
  do 6 (eapply renders_then; [apply renders_YAML_STRING| |reflexivity..]).
  unfold document_warnings.
  destruct (def_type_eqb (def_type def) NETPLAN_DEF_TYPE_WIFI);
    [|apply renders_skip].
  apply renders_access_points. auto.
Qed.

Lemma renders_OUT_START strict :
  renders fails strict (YAML_OUT_START fails)
    [STREAM_START; DOCUMENT_START; MAPPING_START] [].
Proof.
  unfold YAML_OUT_START, yaml_emitter_initialize.
  eapply renders_then; [apply renders_set_emitter| |reflexivity..].
  do 2 renders_emit_then. apply renders_emit.
Qed.

Lemma renders_settings_and_closing strict def :
  (strict = true -> no_passthrough (backend_settings def) = true) ->
  renders fails strict (settings_and_closing fails def)
    (networkmanager_events (backend_settings def)
     ++ closing_events ++ stop_events) [].
Proof.
  intros Hstrict. unfold settings_and_closing, closing_events, stop_events.
  eapply renders_then;
    [now apply renders_backend_settings| |reflexivity..].
  do 3 renders_emit_then.
  unfold YAML_OUT_STOP, yaml_emitter_delete.
  do 2 renders_emit_then.
  eapply renders_then;
    [apply renders_emit|apply renders_set_emitter|reflexivity..].
Qed.

(** The body of [write_netplan_conf], cut at the match and at the backend
    settings. *)
Lemma write_netplan_conf_body_parts def :
  write_netplan_conf_body fails netplan_def_type_to_str
    netplan_backend_to_name netplan_wifi_mode_to_str def
  = (YAML_OUT_START fails ;;
     YAML_SCALAR_PLAIN fails "network" ;;
     YAML_MAPPING_OPEN fails ;;
     YAML_STRING_PLAIN fails "version" (Some "2"%string) ;;
     YAML_SCALAR_PLAIN fails (netplan_def_type_to_str (def_type def)) ;;
     YAML_MAPPING_OPEN fails ;;
     YAML_SCALAR_PLAIN fails (def_id def) ;;
     YAML_MAPPING_OPEN fails ;;
     YAML_STRING_PLAIN fails "renderer"
       (netplan_backend_to_name (def_backend def)) ;;
     (if def_type_eqb (def_type def) NETPLAN_DEF_TYPE_OTHER
      then skip
      else when (has_match def) (unchecked (write_match fails def)) ;;
           fields_after_match fails netplan_wifi_mode_to_str def) ;;
     settings_and_closing fails def).
Proof. reflexivity. Qed.

Lemma renders_skeleton strict def rest es ws :
  renders fails strict rest es ws ->
  renders fails strict
    (YAML_OUT_START fails ;;
     YAML_SCALAR_PLAIN fails "network" ;;
     YAML_MAPPING_OPEN fails ;;
     YAML_STRING_PLAIN fails "version" (Some "2"%string) ;;
     YAML_SCALAR_PLAIN fails (netplan_def_type_to_str (def_type def)) ;;
     YAML_MAPPING_OPEN fails ;;
     YAML_SCALAR_PLAIN fails (def_id def) ;;
     YAML_MAPPING_OPEN fails ;;
     YAML_STRING_PLAIN fails "renderer"
       (netplan_backend_to_name (def_backend def)) ;;
     rest)
    (skeleton_events netplan_def_type_to_str netplan_backend_to_name def
     ++ es) ws.
Proof.
  intros Hrest. unfold skeleton_events.
  eapply renders_then; [apply renders_OUT_START| |reflexivity..].
  do 2 renders_emit_then.
  eapply renders_then;
    [apply (renders_YAML_STRING_PLAIN strict "version" (Some "2"%string))|
    |reflexivity..].
  do 4 renders_emit_then.
  eapply renders_then;
    [apply (renders_YAML_STRING_PLAIN strict "renderer")|exact Hrest
    |reflexivity..].
Qed.

(** The whole body: strict when every write of the definition is
    checked. *)
Lemma renders_netplan_conf_body strict def :
  (strict = true -> every_write_checked def = true) ->
  renders fails strict
    (write_netplan_conf_body fails netplan_def_type_to_str
       netplan_backend_to_name netplan_wifi_mode_to_str def)
    (document_events netplan_def_type_to_str netplan_backend_to_name
       netplan_wifi_mode_to_str def)
    (document_warnings def).
Proof.
  intros Hstrict. rewrite write_netplan_conf_body_parts.
  unfold document_events. apply renders_skeleton.
  assert (Hbs : strict = true ->
                no_passthrough (backend_settings def) = true).
  { intros E. specialize (Hstrict E). unfold every_write_checked in Hstrict.
    now apply andb_true_iff in Hstrict. }
  eapply renders_then with (ws2 := []);
    [ |now apply renders_settings_and_closing|reflexivity
    |now rewrite app_nil_r].
  destruct (def_type_eqb (def_type def) NETPLAN_DEF_TYPE_OTHER) eqn:Hother.
  - unfold document_warnings. rewrite (other_is_not_wifi _ Hother).
    apply renders_skip.
  - unfold field_events. fold (events_after_match netplan_wifi_mode_to_str def).
    assert (Hrest : strict = true ->
              has_match def = false
              /\ (def_type_eqb (def_type def) NETPLAN_DEF_TYPE_WIFI = true ->
                  forallb (fun ap => no_passthrough (ap_backend_settings ap))
                    (access_points def) = true)).
    { intros E. specialize (Hstrict E). unfold every_write_checked in Hstrict.
      rewrite Hother in Hstrict. simpl in Hstrict.
      apply andb_true_iff in Hstrict. destruct Hstrict as [_ H].
      apply andb_true_iff in H. destruct H as [Hm Hw].
      split; [now destruct (has_match def)|].
      intros Hwifi. rewrite Hwifi in Hw. exact Hw. }
    eapply renders_then with (ws1 := []);
      [ |apply renders_fields_after_match|reflexivity|reflexivity].
    + destruct (has_match def) eqn:Hm; [|apply renders_skip].
      destruct strict; [now destruct (Hrest eq_refl)|].
      apply renders_unchecked, renders_match.
    + intros E. now apply (Hrest E).
Qed.

End RendersTables.
End RendersEmitters.

(** ** What every render keeps *)

(** Whatever the writer rejects, the events [write_netplan_conf] leaves
    in the stream are a subsequence of the document it writes when
    nothing is rejected, and the warnings it logs are among those of
    that run, in the same order: nothing is written that does not belong
    to the document, and nothing is written out of order. *)
Theorem render_writes_part_of_the_document (fails : nat -> bool)
    (type_to_str : NetplanDefType -> string)
    (backend_to_name : NetplanBackend -> option string)
    (mode_to_str : NetplanWifiMode -> string)
    (can_open : string -> bool)
    (def : NetplanNetDefinition) (rootdir : option string) :
  can_open (conf_path def rootdir) = true ->
  exists w',
    write_netplan_conf fails type_to_str backend_to_name mode_to_str
      can_open def rootdir world0 = Some w'
    /\ subseq (emitted w')
         (document_events type_to_str backend_to_name mode_to_str def)
    /\ subseq (warnings w') (document_warnings def).
Proof.
  intros Hopen. eexists.
  split; [apply write_netplan_conf_opened, Hopen|]. cbv zeta.
  destruct (renders_subseq fails false _ _ _
              (renders_netplan_conf_body fails type_to_str backend_to_name
                 mode_to_str false def (fun E => False_ind _ (diff_false_true E)))
              (set_output (STREAM_OPEN (conf_path def rootdir)) world0))
    as (es' & ws' & Hes & Hws & He & Hw).
  simpl in He, Hw.
  destruct (fst _); simpl; rewrite He, Hw; now split.
Qed.

(** On [wlan0] with the call number 30 rejected, the key of the first
    passthrough pair of the access point [mesh]: the pair is left out,
    the render goes on, and the warning for [mesh] is logged. *)
Lemma render_writes_part_of_the_document_witness :
  exists w',
    write_netplan_conf (fails_only_at 30) example_def_type_to_str
      example_backend_to_name example_wifi_mode_to_str always_opens
      wlan0 (Some "/tmp/root"%string) world0 = Some w'
    /\ subseq (emitted w')
         (document_events example_def_type_to_str example_backend_to_name
            example_wifi_mode_to_str wlan0)
    /\ subseq (warnings w') (document_warnings wlan0).
Proof.
  apply (render_writes_part_of_the_document (fails_only_at 30)
           example_def_type_to_str example_backend_to_name
           example_wifi_mode_to_str always_opens wlan0
           (Some "/tmp/root"%string)).
  reflexivity.
Defined.

(** For a definition all of whose writes are checked, the render stops
    at the first write the writer rejects: the stream holds the events of
    the document that come before that write, and no call is made after
    it.  When no write is rejected the stream holds the whole document. *)
Theorem checked_render_stops_at_first_rejected_write (fails : nat -> bool)
    (type_to_str : NetplanDefType -> string)
    (backend_to_name : NetplanBackend -> option string)
    (mode_to_str : NetplanWifiMode -> string)
    (can_open : string -> bool)
    (def : NetplanNetDefinition) (rootdir : option string) :
  every_write_checked def = true ->
  can_open (conf_path def rootdir) = true ->
  exists w',
    write_netplan_conf fails type_to_str backend_to_name mode_to_str
      can_open def rootdir world0 = Some w'
    /\ match
         first_rejected fails 0
           (length (document_events type_to_str backend_to_name
                      mode_to_str def))
       with
       | None =>
           emitted w'
           = document_events type_to_str backend_to_name mode_to_str def
           /\ calls w'
              = length (document_events type_to_str backend_to_name
                          mode_to_str def)
       | Some k =>
           emitted w'
           = firstn k
               (document_events type_to_str backend_to_name mode_to_str def)
           /\ calls w' = S k
       end.
Proof.
  intros Hchecked Hopen. eexists.
  split; [apply write_netplan_conf_opened, Hopen|]. cbv zeta.
  pose proof (renders_strict fails true _ _ _
                (renders_netplan_conf_body fails type_to_str backend_to_name
                   mode_to_str true def (fun _ => Hchecked)) eq_refl
                (set_output (STREAM_OPEN (conf_path def rootdir)) world0))
    as H.
  simpl calls in H. simpl emitted in H.
  destruct (first_rejected fails 0 _) as [k|];
    destruct H as (Hok & He & Hc); rewrite Hok; simpl;
    rewrite He, Hc; now split.
Qed.

Lemma checked_render_stops_at_first_rejected_write_witness :
  exists w',
    write_netplan_conf (fun n => Nat.leb 17 n) example_def_type_to_str
      example_backend_to_name example_wifi_mode_to_str always_opens
      wlan1 (Some "/tmp/root"%string) world0 = Some w'
    /\ emitted w'
       = [STREAM_START; DOCUMENT_START; MAPPING_START;
          SCALAR PLAIN "network"; MAPPING_START;
          SCALAR PLAIN "version"; SCALAR PLAIN "2";
          SCALAR PLAIN "wifis"; MAPPING_START;
          SCALAR PLAIN "wlan1"; MAPPING_START;
          SCALAR PLAIN "renderer"; SCALAR PLAIN "networkd";
          SCALAR PLAIN "wakeonlan"; SCALAR PLAIN "true";
          SCALAR PLAIN "access-points"; MAPPING_START]
    /\ calls w' = 18.
Proof.
  apply (checked_render_stops_at_first_rejected_write
           (fun n => Nat.leb 17 n)
           example_def_type_to_str example_backend_to_name
           example_wifi_mode_to_str always_opens wlan1
           (Some "/tmp/root"%string));
    reflexivity.
Defined.

(** ** The emitters, one by one *)

(** [write_match] returns TRUE exactly when the writer accepts all its
    writes; otherwise it returns FALSE at the first rejected write, with
    the events before it written and no call made after it. *)
Theorem write_match_stops_at_first_rejected_write (fails : nat -> bool)
    (def : NetplanNetDefinition) (w : world) :
  match first_rejected fails (calls w) (length (match_events def)) with
  | None =>
      fst (write_match fails def w) = true
      /\ emitted (snd (write_match fails def w))
         = emitted w ++ match_events def
      /\ calls (snd (write_match fails def w))
         = calls w + length (match_events def)
  | Some k =>
      fst (write_match fails def w) = false
      /\ emitted (snd (write_match fails def w))
         = emitted w ++ firstn k (match_events def)
      /\ calls (snd (write_match fails def w)) = calls w + S k
  end.
Proof.
  exact (renders_strict fails true _ _ _ (renders_match fails true def)
           eq_refl w).
Qed.

(** When the passthrough mapping is empty, [write_backend_settings]
    returns FALSE at the first rejected write and TRUE when none is
    rejected. *)
Theorem backend_settings_without_passthrough_stop (fails : nat -> bool)
    (s : NetplanBackendSettings) (w : world) :
  passthrough (nm s) = [] ->
  match
    first_rejected fails (calls w) (length (networkmanager_events s))
  with
  | None =>
      fst (write_backend_settings fails s w) = true
      /\ emitted (snd (write_backend_settings fails s w))
         = emitted w ++ networkmanager_events s
      /\ calls (snd (write_backend_settings fails s w))
         = calls w + length (networkmanager_events s)
  | Some k =>
      fst (write_backend_settings fails s w) = false
      /\ emitted (snd (write_backend_settings fails s w))
         = emitted w ++ firstn k (networkmanager_events s)
      /\ calls (snd (write_backend_settings fails s w)) = calls w + S k
  end.
Proof.
  intros Hp.
  apply (renders_strict fails true _ _ []); [|reflexivity].
  apply renders_backend_settings. intros _.
  unfold no_passthrough. now rewrite Hp.
Qed.

Lemma backend_settings_without_passthrough_stop_witness :
  fst (write_backend_settings (fails_only_at 3) (backend_settings ppp0)
         world0) = false
  /\ emitted (snd (write_backend_settings (fails_only_at 3)
                     (backend_settings ppp0) world0))
     = [SCALAR PLAIN "networkmanager"; MAPPING_START; SCALAR PLAIN "uuid"]
  /\ calls (snd (write_backend_settings (fails_only_at 3)
                   (backend_settings ppp0) world0)) = 4.
Proof.
  apply (backend_settings_without_passthrough_stop (fails_only_at 3)
           (backend_settings ppp0) world0).
  reflexivity.
Defined.

(** When no access point has a passthrough mapping,
    [write_access_points] returns FALSE at the first rejected write, be
    it a write of the loop or one of [write_backend_settings] for an
    access point: the access points after it are not visited. *)
Theorem access_points_stop_at_first_rejected_write (fails : nat -> bool)
    (mode_to_str : NetplanWifiMode -> string)
    (def : NetplanNetDefinition) (w : world) :
  forallb (fun ap => no_passthrough (ap_backend_settings ap))
    (access_points def) = true ->
  match
    first_rejected fails (calls w)
      (length (access_points_events mode_to_str (access_points def)))
  with
  | None =>
      fst (write_access_points fails mode_to_str def w) = true
      /\ emitted (snd (write_access_points fails mode_to_str def w))
         = emitted w ++ access_points_events mode_to_str (access_points def)
      /\ calls (snd (write_access_points fails mode_to_str def w))
         = calls w
           + length (access_points_events mode_to_str (access_points def))
  | Some k =>
      fst (write_access_points fails mode_to_str def w) = false
      /\ emitted (snd (write_access_points fails mode_to_str def w))
         = emitted w
           ++ firstn k (access_points_events mode_to_str (access_points def))
      /\ calls (snd (write_access_points fails mode_to_str def w))
         = calls w + S k
  end.
Proof.
  intros Hp.
  apply (renders_strict fails true _ _
           (mode_warnings (def_id def) (access_points def)));
    [|reflexivity].
  now apply renders_access_points.
Qed.

Lemma access_points_stop_at_first_rejected_write_witness :
  fst (write_access_points (fails_only_at 11) example_wifi_mode_to_str
         wlan1 world0) = false
  /\ emitted (snd (write_access_points (fails_only_at 11)
                     example_wifi_mode_to_str wlan1 world0))
     = [SCALAR PLAIN "access-points"; MAPPING_START;
        SCALAR QUOTED "home"; MAPPING_START;
        SCALAR PLAIN "mode"; SCALAR PLAIN "infrastructure";
        MAPPING_END;
        SCALAR QUOTED "guest"; MAPPING_START;
        SCALAR PLAIN "hidden"; SCALAR PLAIN "true"]
  /\ calls (snd (write_access_points (fails_only_at 11)
                   example_wifi_mode_to_str wlan1 world0)) = 12.
Proof.
  apply (access_points_stop_at_first_rejected_write (fails_only_at 11)
           example_wifi_mode_to_str wlan1 world0).
  reflexivity.
Defined.

(** ** The iteration over the passthrough pairs *)

Lemma passthrough_handler_calls fails kv w :
  calls (_passthrough_handler fails kv w)
  = calls w + (if fails (calls w) then 1 else 2).
Proof.
  unfold _passthrough_handler, YAML_SCALAR_PLAIN, YAML_SCALAR_QUOTED,
    andthen, yaml_emitter_emit.
  destruct (fails (calls w)); simpl; [lia|].
  destruct (fails (S (calls w))); simpl; lia.
Qed.

(** The iteration over the passthrough pairs never stops early and never
    reports: whatever the writer rejects, it returns normally after one
    or two writes attempted for every pair, and what it wrote is a
    subsequence of the pairs' events. *)
Theorem passthrough_iteration_visits_every_pair (fails : nat -> bool)
    (l : list (string * string)) (w : world) :
  fst (g_datalist_foreach l (_passthrough_handler fails) w) = true
  /\ calls w + length l
     <= calls (snd (g_datalist_foreach l (_passthrough_handler fails) w))
  /\ calls (snd (g_datalist_foreach l (_passthrough_handler fails) w))
     <= calls w + 2 * length l
  /\ exists es',
       subseq es' (flat_map passthrough_pair l)
       /\ emitted (snd (g_datalist_foreach l (_passthrough_handler fails) w))
          = emitted w ++ es'.
Proof.
  split; [reflexivity|].
  assert (Hcalls :
    calls w + length l
    <= calls (snd (g_datalist_foreach l (_passthrough_handler fails) w))
    <= calls w + 2 * length l).
  { unfold g_datalist_foreach. simpl snd. revert w.
    induction l as [|kv l IH]; intros w; simpl fold_left; [simpl; lia|].
    specialize (IH (_passthrough_handler fails kv w)).
    rewrite passthrough_handler_calls in IH. simpl length.
    destruct (fails (calls w)); lia. }
  split; [apply Hcalls|]. split; [apply Hcalls|].
  destruct (renders_subseq fails false _ _ _ (renders_passthrough fails l) w)
    as (es' & ws' & Hes & _ & He & _).
  now exists es'.
Qed.

(** When the writer rejects the key of one passthrough pair and nothing
    else, the iteration writes all the other pairs and leaves that pair
    out, and returns normally. *)
Theorem rejected_passthrough_key_drops_the_pair
    (before after : list (string * string)) (kv : string * string)
    (w : world) :
  let fails := fails_only_at (calls w + 2 * length before) in
  fst (g_datalist_foreach (before ++ kv :: after)
         (_passthrough_handler fails) w) = true
  /\ emitted (snd (g_datalist_foreach (before ++ kv :: after)
                     (_passthrough_handler fails) w))
     = emitted w ++ flat_map passthrough_pair (before ++ after)
  /\ calls (snd (g_datalist_foreach (before ++ kv :: after)
                   (_passthrough_handler fails) w))
     = calls w + 2 * length (before ++ after) + 1.
Proof.
  intros fails. split; [reflexivity|].
  assert (Hlen : forall l, length (flat_map passthrough_pair l) = 2 * length l).
  { induction l as [|x l IH]; [reflexivity|].
    cbn [flat_map app length passthrough_pair]. rewrite IH. lia. }
  unfold g_datalist_foreach. simpl snd. rewrite fold_left_app.
  simpl fold_left.
  destruct (renders_accepted fails false _ _ _
              (renders_passthrough fails before) w) as (_ & He & Hc & _).
  { intros n Hn. rewrite Hlen in Hn. unfold fails, fails_only_at.
    apply Nat.eqb_neq. lia. }
  unfold g_datalist_foreach in He, Hc. simpl snd in He, Hc.
  set (w1 := fold_left (fun w' kv0 => _passthrough_handler fails kv0 w')
               before w) in *.
  rewrite Hlen in Hc.
  assert (Hk : fails (calls w1) = true).
  { unfold fails, fails_only_at. rewrite Hc. apply Nat.eqb_refl. }
  set (w2 := _passthrough_handler fails kv w1).
  assert (He2 : emitted w2 = emitted w1 /\ calls w2 = S (calls w1)).
  { unfold w2, _passthrough_handler, YAML_SCALAR_PLAIN, andthen,
      yaml_emitter_emit. rewrite Hk. now split. }
  destruct He2 as [He2 Hc2].
  destruct (renders_accepted fails false _ _ _
              (renders_passthrough fails after) w2) as (_ & He3 & Hc3 & _).
  { intros n Hn. unfold fails, fails_only_at.
    apply Nat.eqb_neq. lia. }
  unfold g_datalist_foreach in He3, Hc3. simpl snd in He3, Hc3.
  rewrite He3, Hc3, He2, Hc2, He, Hc, Hlen, flat_map_app, length_app,
    app_assoc.
  split; [reflexivity|lia].
Qed.

(** ** More on the output path *)

Open Scope string_scope.

Lemma conf_path_under_rootdir_witness :
  conf_path wlan0 (Some "/tmp/root")
  = "/tmp/root" ++ "/etc/netplan/" ++ conf_filename wlan0.
Proof. apply conf_path_under_rootdir; reflexivity. Defined.

Lemma drop_trailing_separators_sep s :
  drop_trailing_separators (s ++ "/") = drop_trailing_separators s.
Proof.
  induction s as [|c s IH]; [reflexivity|].
  simpl. now rewrite IH.
Qed.

Lemma leading_separators_sep s :
  is_empty (skip_separators s) = false ->
  leading_separators (s ++ "/") = leading_separators s.
Proof.
  induction s as [|c s IH]; [discriminate|].
  simpl. destruct (is_separator c); [|reflexivity].
  intros H. now rewrite IH.
Qed.

Lemma skip_separators_sep s :
  is_empty (skip_separators s) = false ->
  skip_separators (s ++ "/") = skip_separators s ++ "/".
Proof.
  induction s as [|c s IH]; [discriminate|].
  simpl. destruct (is_separator c); [exact IH|reflexivity].
Qed.

(** A separator at the end of the root directory changes nothing: the
    path is the one of the root directory without it. *)
Theorem rootdir_trailing_separator_is_dropped (def : NetplanNetDefinition)
    (r : string) :
  is_empty (skip_separators r) = false ->
  conf_path def (Some (r ++ "/")) = conf_path def (Some r).
Proof.
  intros Hbody.
  assert (Hr : is_empty r = false) by (destruct r; [discriminate|reflexivity]).
  assert (Hr' : is_empty (r ++ "/") = false) by now destruct r.
  rewrite (conf_path_rooted def _ Hr), (conf_path_rooted def _ Hr').
  now rewrite leading_separators_sep, skip_separators_sep,
    drop_trailing_separators_sep by exact Hbody.
Qed.

Lemma rootdir_trailing_separator_is_dropped_witness :
  conf_path eth0 (Some ("/tmp/root" ++ "/"))
  = "/tmp/root/etc/netplan/10-netplan-eth0.yaml".
Proof.
  rewrite (rootdir_trailing_separator_is_dropped eth0 "/tmp/root");
    reflexivity.
Defined.

Lemma string_length_append (a b : string) :
  String.length (a ++ b) = String.length a + String.length b.
Proof. induction a as [|c a IH]; simpl; [reflexivity|now rewrite IH]. Qed.

Lemma append_cancel_r (a b s : string) : a ++ s = b ++ s -> a = b.
Proof.
  revert b. induction a as [|c a IH]; intros [|c' b] H; simpl in H.
  - reflexivity.
  - apply (f_equal String.length) in H. simpl in H.
    rewrite string_length_append in H. lia.
  - apply (f_equal String.length) in H. simpl in H.
    rewrite string_length_append in H. lia.
  - injection H as -> H. f_equal. now apply IH.
Qed.

Lemma append_cancel_l (p a b : string) : p ++ a = p ++ b -> a = b.
Proof.
  induction p as [|c p IH]; simpl; [trivial|].
  intros H. injection H as H. now apply IH.
Qed.

Lemma conf_path_without_rootdir def :
  conf_path def None = "etc/netplan/" ++ conf_filename def.
Proof.
  unfold conf_path, g_build_path. cbn [fold_left].
  change (build_path_step _ "") with build_path_start.
  change (build_path_step build_path_start "etc") with
    {| result := "etc"; is_first := false; have_leading := true;
       single_element := None; last_trailing := Some "" |}.
  rewrite build_path_step_netplan, build_path_step_filename by reflexivity.
  cbn [single_element last_trailing result is_first].
  now rewrite !append_assoc, append_empty_r.
Qed.

(** The path is a prefix that depends on the root directory only,
    followed by the file name. *)
Lemma conf_path_prefix rootdir :
  exists prefix, forall def,
    conf_path def rootdir = prefix ++ conf_filename def.
Proof.
  destruct rootdir as [r|].
  - destruct (is_empty r) eqn:Hr.
    + destruct r; [|discriminate]. exists "etc/netplan/". intros def.
      apply conf_path_without_rootdir.
    + exists ((leading_separators r
               ++ (if is_empty (drop_trailing_separators (skip_separators r))
                   then ""
                   else drop_trailing_separators (skip_separators r) ++ "/"))
              ++ "etc/netplan/").
      intros def. rewrite (conf_path_rooted def r Hr).
      now rewrite !append_assoc.
  - exists "etc/netplan/". intros def.
    apply conf_path_without_rootdir.
Qed.

(** Two definitions are written to the same path exactly when they carry
    the same UUID, or carry none and have the same identifier: a
    definition with a UUID and one without never share a file. *)
Theorem same_path_same_profile (def1 def2 : NetplanNetDefinition)
    (rootdir : option string) :
  conf_path def1 rootdir = conf_path def2 rootdir
  <-> match uuid (nm (backend_settings def1)),
            uuid (nm (backend_settings def2)) with
      | Some u1, Some u2 => u1 = u2
      | None, None => def_id def1 = def_id def2
      | _, _ => False
      end.
Proof.
  destruct (conf_path_prefix rootdir) as [prefix Hp]. rewrite !Hp.
  unfold conf_filename.
  destruct (uuid (nm (backend_settings def1))) as [u1|];
    destruct (uuid (nm (backend_settings def2))) as [u2|].
  - split; [|now intros ->]. intros H. apply append_cancel_l in H.
    apply (append_cancel_l "90-NM-") in H. now apply append_cancel_r in H.
  - split; [|tauto]. intros H. apply append_cancel_l in H. discriminate H.
  - split; [|tauto]. intros H. apply append_cancel_l in H. discriminate H.
  - split; [|now intros ->]. intros H. apply append_cancel_l in H.
    apply (append_cancel_l "10-netplan-") in H.
    now apply append_cancel_r in H.
Qed.

Open Scope list_scope.

(** ** A rejected write in the match mapping *)

Lemma andthen_accepted fails strict a b es ws w :
  renders fails strict a es ws ->
  (forall n, n < length es -> fails (calls w + n) = false) ->
  (a ;; b) w = b (snd (a w))
  /\ emitted (snd (a w)) = emitted w ++ es
  /\ calls (snd (a w)) = calls w + length es
  /\ warnings (snd (a w)) = warnings w ++ ws.
Proof.
  intros Hr Hacc.
  destruct (renders_accepted fails strict a es ws Hr w Hacc)
    as (Hok & He & Hc & Hw).
  rewrite andthen_run, Hok. now repeat split.
Qed.

Ltac accepted_step R :=
  lazymatch goal with
  | |- context [(?a ;; ?b) ?w] =>
      let Hrun := fresh "Hrun" in
      let He := fresh "He" in
      let Hc := fresh "Hc" in
      let Hw := fresh "Hw" in
      destruct (andthen_accepted _ false a b _ _ w R) as (Hrun & He & Hc & Hw);
      [ intros ? ?; unfold fails_only_at; apply Nat.eqb_neq;
        cbn [length pair_events] in *; lia
      | rewrite Hrun; clear Hrun;
        let w' := fresh "w" in
        set (w' := snd (a w)) in * ]
  end.

Lemma write_match_run_rejected fails def w :
  fails (calls w) = true ->
  emitted (snd (write_match fails def w)) = emitted w
  /\ calls (snd (write_match fails def w)) = S (calls w)
  /\ warnings (snd (write_match fails def w)) = warnings w.
Proof.
  intros H. unfold write_match, YAML_SCALAR_PLAIN, andthen, yaml_emitter_emit.
  rewrite H. now repeat split.
Qed.

Lemma document_without_match type_to_str backend_to_name mode_to_str def :
  def_type_eqb (def_type def) NETPLAN_DEF_TYPE_OTHER = false ->
  document_events type_to_str backend_to_name mode_to_str (without_match def)
  = skeleton_events type_to_str backend_to_name def
    ++ events_after_match mode_to_str def
    ++ networkmanager_events (backend_settings def)
    ++ closing_events ++ stop_events.
Proof.
  intros Htype. unfold document_events, field_events, skeleton_events.
  cbn [without_match def_type def_backend def_id has_match wake_on_lan
       modem_params access_points backend_settings].
  now rewrite Htype.
Qed.

(** The body of [write_netplan_conf] when the [match] key is the one
    rejected write. *)
Lemma rejected_match_key_body type_to_str backend_to_name mode_to_str def w :
  has_match def = true ->
  def_type_eqb (def_type def) NETPLAN_DEF_TYPE_OTHER = false ->
  calls w = 0 -> emitted w = [] -> warnings w = [] ->
  fst (write_netplan_conf_body
         (fails_only_at
            (length (skeleton_events type_to_str backend_to_name def)))
         type_to_str backend_to_name mode_to_str def w) = true
  /\ emitted (snd (write_netplan_conf_body
                     (fails_only_at
                        (length (skeleton_events type_to_str backend_to_name
                                   def)))
                     type_to_str backend_to_name mode_to_str def w))
     = document_events type_to_str backend_to_name mode_to_str
         (without_match def)
  /\ calls (snd (write_netplan_conf_body
                   (fails_only_at
                      (length (skeleton_events type_to_str backend_to_name
                                 def)))
                   type_to_str backend_to_name mode_to_str def w))
     = S (length (document_events type_to_str backend_to_name mode_to_str
                    (without_match def)))
  /\ warnings (snd (write_netplan_conf_body
                      (fails_only_at
                         (length (skeleton_events type_to_str backend_to_name
                                    def)))
                      type_to_str backend_to_name mode_to_str def w))
     = document_warnings def.
Proof.
  intros Hmatch Htype Hc0 He0 Hw0.
  generalize (eq_refl (length (skeleton_events type_to_str backend_to_name
                                 def))).
  generalize (length (skeleton_events type_to_str backend_to_name def)) at 1 3 4 5 6.
  intros k Hk0.
  assert (Hk : k = 11 + length (pair_events PLAIN "renderer"
                                  (backend_to_name (def_backend def)))).
  { rewrite Hk0. unfold skeleton_events. now rewrite length_app. }
  clear Hk0.
  rewrite write_netplan_conf_body_parts, Htype, Hmatch.
  rewrite (document_without_match _ _ _ _ Htype).
  accepted_step (renders_OUT_START (fails_only_at k) false).
  accepted_step (renders_emit (fails_only_at k) false
                   (SCALAR PLAIN "network")).
  accepted_step (renders_emit (fails_only_at k) false MAPPING_START).
  accepted_step (renders_YAML_STRING_PLAIN (fails_only_at k) false
                   "version" (Some "2"%string)).
  accepted_step (renders_emit (fails_only_at k) false
                   (SCALAR PLAIN (type_to_str (def_type def)))).
  accepted_step (renders_emit (fails_only_at k) false MAPPING_START).
  accepted_step (renders_emit (fails_only_at k) false
                   (SCALAR PLAIN (def_id def))).
  accepted_step (renders_emit (fails_only_at k) false MAPPING_START).
  accepted_step (renders_YAML_STRING_PLAIN (fails_only_at k) false
                   "renderer" (backend_to_name (def_backend def))).
  cbn [length pair_events] in *.
  rewrite andthen_run.
  change (when true (unchecked (write_match (fails_only_at k) def)))
    with (unchecked (write_match (fails_only_at k) def)).
  rewrite (andthen_run (unchecked (write_match (fails_only_at k) def))).
  cbn [unchecked fst snd].
  assert (Hrej : fails_only_at k (calls w8) = true).
  { unfold fails_only_at. apply Nat.eqb_eq. lia. }
  destruct (write_match_run_rejected (fails_only_at k) def w8 Hrej)
    as (Hem & Hcm & Hwm).
  set (w9 := snd (write_match (fails_only_at k) def w8)) in *.
  destruct (renders_accepted (fails_only_at k) false _ _ _
              (renders_fields_after_match (fails_only_at k) mode_to_str
                 false def (fun E _ => False_ind _ (diff_false_true E))) w9)
    as (Hok & Hef & Hcf & Hwf).
  { intros n Hn. unfold fails_only_at. apply Nat.eqb_neq. lia. }
  rewrite Hok.
  set (w10 := snd (fields_after_match (fails_only_at k) mode_to_str def w9))
    in *.
  destruct (renders_accepted (fails_only_at k) false _ _ _
              (renders_settings_and_closing (fails_only_at k) false def
                 (fun E => False_ind _ (diff_false_true E))) w10)
    as (Hok' & Het & Hct & Hwt).
  { intros n Hn. unfold fails_only_at. apply Nat.eqb_neq. lia. }
  split; [exact Hok'|].
  repeat match goal with
         | H : emitted _ = _ |- _ => rewrite H
         | H : calls _ = _ |- _ => rewrite H
         | H : warnings _ = _ |- _ => rewrite H
         end.
  unfold skeleton_events.
  split; [now rewrite <- !app_assoc|].
  split; [|now rewrite !app_nil_r].
  rewrite !length_app. cbn [length pair_events]. lia.
Qed.

Lemma fclose_keeps w :
  emitted (fclose w) = emitted w /\ calls (fclose w) = calls w
  /\ warnings (fclose w) = warnings w /\ emitter (fclose w) = emitter w.
Proof. now repeat split. Qed.

(** The result of [write_match] is not looked at: when the writer
    rejects the [match] key of a definition with a match (of a type other
    than [other]) and nothing else, the render goes on to its normal end,
    and the stream holds the whole document of the definition without its
    match; the warnings are those of the definition. *)
Theorem rejected_match_key_goes_unnoticed
    (type_to_str : NetplanDefType -> string)
    (backend_to_name : NetplanBackend -> option string)
    (mode_to_str : NetplanWifiMode -> string)
    (can_open : string -> bool)
    (def : NetplanNetDefinition) (rootdir : option string) :
  has_match def = true ->
  def_type def <> NETPLAN_DEF_TYPE_OTHER ->
  can_open (conf_path def rootdir) = true ->
  exists w',
    write_netplan_conf
      (fails_only_at (length (skeleton_events type_to_str backend_to_name def)))
      type_to_str backend_to_name mode_to_str can_open def rootdir world0
    = Some w'
    /\ emitted w'
       = document_events type_to_str backend_to_name mode_to_str
           (without_match def)
    /\ calls w'
       = S (length (document_events type_to_str backend_to_name mode_to_str
                      (without_match def)))
    /\ warnings w' = document_warnings def
    /\ emitter w' = EMITTER_DELETED
    /\ output w' = STREAM_CLOSED (conf_path def rootdir).
Proof.
  intros Hmatch Htype Hopen. apply def_type_eqb_other in Htype.
  destruct (rejected_match_key_body type_to_str backend_to_name mode_to_str
              def (set_output (STREAM_OPEN (conf_path def rootdir)) world0)
              Hmatch Htype eq_refl eq_refl eq_refl)
    as (Hok & He & Hc & Hw).
  destruct (finalizes_netplan_conf_body _ type_to_str
              backend_to_name mode_to_str def _ Hok) as (_ & _ & Hem & _).
  destruct (body_keeps_output_stream
              (fails_only_at
                 (length (skeleton_events type_to_str backend_to_name def)))
              type_to_str backend_to_name mode_to_str def
              (set_output (STREAM_OPEN (conf_path def rootdir)) world0))
    as [Hout _].
  rewrite (write_netplan_conf_opened _ _ _ _ _ _ _ _ Hopen). cbv zeta.
  rewrite Hok. eexists. split; [reflexivity|].
  destruct (fclose_keeps
              (snd (write_netplan_conf_body
                      (fails_only_at
                         (length (skeleton_events type_to_str backend_to_name
                                    def)))
                      type_to_str backend_to_name mode_to_str def
                      (set_output (STREAM_OPEN (conf_path def rootdir))
                         world0))))
    as (Fe & Fc & Fw & Fm).
  rewrite Fe, Fc, Fw, Fm, He, Hc, Hw, Hem.
  repeat split. unfold fclose. cbn [output]. now rewrite Hout.
Qed.

Lemma rejected_match_key_goes_unnoticed_witness :
  exists w',
    write_netplan_conf (fails_only_at 13) example_def_type_to_str
      example_backend_to_name example_wifi_mode_to_str always_opens
      eth0 (Some "/tmp/root"%string) world0 = Some w'
    /\ emitted w'
       = [STREAM_START; DOCUMENT_START; MAPPING_START;
          SCALAR PLAIN "network"; MAPPING_START;
          SCALAR PLAIN "version"; SCALAR PLAIN "2";
          SCALAR PLAIN "ethernets"; MAPPING_START;
          SCALAR PLAIN "eth0"; MAPPING_START;
          SCALAR PLAIN "renderer"; SCALAR PLAIN "NetworkManager";
          SCALAR PLAIN "wakeonlan"; SCALAR PLAIN "true";
          SCALAR PLAIN "apn"; SCALAR QUOTED "internet";
          MAPPING_END; MAPPING_END; MAPPING_END;
          MAPPING_END; DOCUMENT_END; STREAM_END]
    /\ calls w' = 24
    /\ warnings w' = []
    /\ emitter w' = EMITTER_DELETED
    /\ output w'
       = STREAM_CLOSED "/tmp/root/etc/netplan/10-netplan-eth0.yaml".
Proof.
  apply (rejected_match_key_goes_unnoticed example_def_type_to_str
           example_backend_to_name example_wifi_mode_to_str always_opens
           eth0 (Some "/tmp/root"%string)).
  - reflexivity.
  - discriminate.
  - reflexivity.
Defined.

(** ** Nesting of what is written *)

Lemma open_mappings_whole_document type_to_str backend_to_name mode_to_str
    def :
  open_mappings
    (document_events type_to_str backend_to_name mode_to_str def) None []
  = Some [].
Proof.
  unfold document_events, skeleton_events. rewrite <- app_assoc. simpl.
  assert (H : balanced
                (pair_events PLAIN "renderer"
                   (backend_to_name (def_backend def))
                 ++ (if def_type_eqb (def_type def) NETPLAN_DEF_TYPE_OTHER
                     then [] else field_events mode_to_str def)
                 ++ networkmanager_events (backend_settings def))).
  { apply balanced_app; [apply balanced_pair_events|].
    apply balanced_app; [|apply balanced_networkmanager_events].
    apply balanced_if; [apply balanced_nil|apply balanced_field_events]. }
  destruct (H None
              [Some (def_id def); Some (type_to_str (def_type def));
               Some "network"%string; None]) as [key' E].
  transitivity
    (open_mappings (closing_events ++ stop_events) key'
       [Some (def_id def); Some (type_to_str (def_type def));
        Some "network"%string; None]);
    [|reflexivity].
  rewrite <- E. now rewrite <- !app_assoc.
Qed.

(** ** What is written quoted *)

Lemma quoted_in_pair_events style key v s :
  In (SCALAR QUOTED s) (pair_events style key v) ->
  style = QUOTED /\ In s (option_text v).
Proof.
  destruct v as [v|]; simpl; [|tauto].
  intros [H|[H|[]]]; [discriminate|]. injection H as -> ->. auto.
Qed.

Lemma quoted_in_flag_events key flag s :
  ~ In (SCALAR QUOTED s) (flag_events key flag).
Proof. destruct flag; simpl; [|tauto]. intros [H|[H|[]]]; discriminate. Qed.

Lemma quoted_in_match_events def s :
  In (SCALAR QUOTED s) (match_events def) ->
  In s (option_text (original_name (def_match def))).
Proof.
  unfold match_events. rewrite !in_app_iff.
  intros [[H|[H|[]]]|[H|[H|[]]]]; try discriminate.
  now apply quoted_in_pair_events in H.
Qed.

Lemma quoted_in_modem_events p s :
  In (SCALAR QUOTED s) (modem_events p) ->
  In s (option_text (apn p) ++ option_text (device_id p)
        ++ option_text (network_id p) ++ option_text (pin p)
        ++ option_text (sim_id p) ++ option_text (sim_operator_id p)).
Proof.
  unfold modem_events. rewrite !in_app_iff.
  intros [H|H]; [now apply quoted_in_flag_events in H|].
  repeat (destruct H as [H|H];
          [apply quoted_in_pair_events in H; tauto|]).
  apply quoted_in_pair_events in H; tauto.
Qed.

Lemma quoted_in_networkmanager_events s0 s :
  In (SCALAR QUOTED s) (networkmanager_events s0) -> In s (settings_text s0).
Proof.
  unfold networkmanager_events, settings_text.
  destruct (is_some (uuid (nm s0)) || is_some (name (nm s0))
            || nonempty (passthrough (nm s0))); [|intros []].
  rewrite !in_app_iff.
  intros [[H|[H|[]]]|[H|[H|[H|[H|[]]]]]]; try discriminate.
  - apply quoted_in_pair_events in H. destruct H as [H _]. discriminate H.
  - apply quoted_in_pair_events in H. tauto.
  - right. destruct (nonempty (passthrough (nm s0))); [|destruct H].
    rewrite !in_app_iff in H.
    destruct H as [[H|[H|[]]]|[H|[H|[]]]]; try discriminate.
    induction (passthrough (nm s0)) as [|kv l IH]; [destruct H|].
    simpl in H. destruct H as [H|[H|H]]; [discriminate| |right; auto].
    injection H as <-. now left.
Qed.

Lemma quoted_in_access_points_events mode_to_str aps s :
  In (SCALAR QUOTED s) (access_points_events mode_to_str aps) ->
  In s (flat_map (fun ap => ssid ap :: settings_text (ap_backend_settings ap))
          aps).
Proof.
  unfold access_points_events. rewrite !in_app_iff.
  intros [[H|[H|[]]]|[H|[H|[]]]]; try discriminate.
  induction aps as [|ap aps IH]; [destruct H|].
  cbn [flat_map] in *. rewrite in_app_iff in H. rewrite in_app_iff.
  destruct H as [H|H]; [left|right; auto].
  unfold access_point_events in H. rewrite !in_app_iff in H.
  destruct H as [[H|[H|[]]]|[H|[[H|[H|[]]]|[H|[H|[]]]]]]; try discriminate.
  - injection H as <-. now left.
  - now apply quoted_in_flag_events in H.
  - right. now apply quoted_in_networkmanager_events.
Qed.

Lemma quoted_in_document type_to_str backend_to_name mode_to_str def s :
  In (SCALAR QUOTED s)
    (document_events type_to_str backend_to_name mode_to_str def) ->
  In s (free_text def).
Proof.
  unfold document_events, skeleton_events, free_text, closing_events,
    stop_events.
  rewrite !in_app_iff. intros [[H|H]|[H|[H|[H|H]]]].
  - simpl in H. repeat (destruct H as [H|H]; [discriminate|]). destruct H.
  - apply quoted_in_pair_events in H. destruct H as [H _]. discriminate H.
  - destruct (def_type_eqb (def_type def) NETPLAN_DEF_TYPE_OTHER);
      [destruct H|].
    unfold field_events in H. rewrite !in_app_iff in H.
    destruct H as [H|[H|[H|H]]].
    + destruct (has_match def); [|destruct H].
      left. now apply quoted_in_match_events.
    + now apply quoted_in_flag_events in H.
    + apply quoted_in_modem_events in H. rewrite !in_app_iff in H. tauto.
    + destruct (def_type_eqb (def_type def) NETPLAN_DEF_TYPE_WIFI);
        [|destruct H].
      apply quoted_in_access_points_events in H. tauto.
  - apply quoted_in_networkmanager_events in H. tauto.
  - simpl in H. repeat (destruct H as [H|H]; [discriminate|]). destruct H.
  - simpl in H. repeat (destruct H as [H|H]; [discriminate|]). destruct H.
Qed.

(** Whatever the writer rejects, a scalar is written quoted only if it
    is free text of the definition (a match name, a modem string, an
    SSID, a connection name or a passthrough value): no keyword of the
    format, no identifier and no UUID is ever written quoted. *)
Theorem only_free_text_is_quoted (fails : nat -> bool)
    (type_to_str : NetplanDefType -> string)
    (backend_to_name : NetplanBackend -> option string)
    (mode_to_str : NetplanWifiMode -> string)
    (can_open : string -> bool)
    (def : NetplanNetDefinition) (rootdir : option string) (s : string) :
  can_open (conf_path def rootdir) = true ->
  exists w',
    write_netplan_conf fails type_to_str backend_to_name mode_to_str
      can_open def rootdir world0 = Some w'
    /\ (In (SCALAR QUOTED s) (emitted w') -> In s (free_text def)).
Proof.
  intros Hopen. eexists.
  split; [apply write_netplan_conf_opened, Hopen|]. cbv zeta.
  destruct (renders_subseq fails false _ _ _
              (renders_netplan_conf_body fails type_to_str backend_to_name
                 mode_to_str false def
                 (fun E => False_ind _ (diff_false_true E)))
              (set_output (STREAM_OPEN (conf_path def rootdir)) world0))
    as (es' & ws' & Hes & _ & He & _).
  simpl in He.
  assert (Hemitted :
    forall w, emitted w = es' -> In (SCALAR QUOTED s) (emitted w) ->
              In s (free_text def)).
  { intros w -> Hin.
    apply (quoted_in_document type_to_str backend_to_name mode_to_str).
    exact (subseq_In _ _ _ Hes Hin). }
  destruct (fst _); apply Hemitted; exact He.
Qed.

Lemma only_free_text_is_quoted_witness :
  exists w',
    write_netplan_conf (fails_only_at 20) example_def_type_to_str
      example_backend_to_name example_wifi_mode_to_str always_opens
      wlan0 None world0 = Some w'
    /\ (In (SCALAR QUOTED "home"%string) (emitted w') ->
        In "home"%string (free_text wlan0)).
Proof.
  apply (only_free_text_is_quoted (fails_only_at 20)
           example_def_type_to_str example_backend_to_name
           example_wifi_mode_to_str always_opens wlan0 None "home"%string).
  reflexivity.
Defined.

(** ** A root directory made of separators *)

Open Scope string_scope.

Lemma leading_separators_only r :
  is_empty (skip_separators r) = true -> leading_separators r = r.
Proof.
  induction r as [|c r IH]; [reflexivity|].
  simpl. destruct (is_separator c); [|discriminate].
  intros H. now rewrite IH.
Qed.

(** A root directory that consists of separators only, as "/" does: the
    path is the root directory followed by [etc/netplan/<filename>], an
    absolute path. *)
Theorem conf_path_under_root_separator (def : NetplanNetDefinition)
    (r : string) :
  is_empty r = false ->
  is_empty (skip_separators r) = true ->
  conf_path def (Some r) = r ++ "etc/netplan/" ++ conf_filename def.
Proof.
  intros Hr Hsep. rewrite (conf_path_rooted def r Hr).
  rewrite is_empty_drop_trailing, skip_separators_twice, Hsep.
  now rewrite leading_separators_only.
Qed.

Lemma conf_path_under_root_separator_witness :
  conf_path eth0 (Some "/") = "/etc/netplan/10-netplan-eth0.yaml".
Proof.
  rewrite (conf_path_under_root_separator eth0 "/"); reflexivity.
Defined.

Lemma same_path_same_profile_witness :
  conf_path wlan0 (Some "/tmp/root") = conf_path ppp0 (Some "/tmp/root").
Proof.
  apply (proj2 (same_path_same_profile wlan0 ppp0 (Some "/tmp/root"))).
  reflexivity.
Defined.

Open Scope list_scope.

(** ** The entries of the access-points mapping *)

Lemma inside_entry_nil : inside_entry [].
Proof. intros k body depth rest. now rewrite app_nil_r. Qed.

Lemma inside_entry_scalar style s : inside_entry [SCALAR style s].
Proof. intros k body depth rest. reflexivity. Qed.

Lemma inside_entry_app es1 es2 :
  inside_entry es1 -> inside_entry es2 -> inside_entry (es1 ++ es2).
Proof.
  intros H1 H2 k body depth rest.
  now rewrite <- app_assoc, H1, H2, app_assoc.
Qed.

Lemma inside_entry_mapping es :
  inside_entry es -> inside_entry (MAPPING_START :: es ++ [MAPPING_END]).
Proof.
  intros H k body depth rest.
  change ((MAPPING_START :: es ++ [MAPPING_END]) ++ rest)
    with (MAPPING_START :: (es ++ [MAPPING_END]) ++ rest).
  rewrite <- app_assoc. cbn [mapping_entries]. rewrite H.
  cbn [app mapping_entries].
  now rewrite <- !app_assoc.
Qed.

Lemma inside_entry_mapping3 es1 es2 es3 :
  inside_entry es1 -> inside_entry es2 -> inside_entry es3 ->
  inside_entry (MAPPING_START :: es1 ++ es2 ++ es3 ++ [MAPPING_END]).
Proof.
  intros H1 H2 H3.
  replace (es1 ++ es2 ++ es3 ++ [MAPPING_END])
    with ((es1 ++ es2 ++ es3) ++ [MAPPING_END])
    by now rewrite <- !app_assoc.
  now apply inside_entry_mapping; repeat apply inside_entry_app.
Qed.

Lemma inside_entry_pair_events style key v :
  inside_entry (pair_events style key v).
Proof.
  destruct v as [v|]; [|apply inside_entry_nil].
  apply (inside_entry_app [_] [_]); apply inside_entry_scalar.
Qed.

Lemma inside_entry_flag_events key flag : inside_entry (flag_events key flag).
Proof.
  destruct flag; [|apply inside_entry_nil].
  apply (inside_entry_app [_] [_]); apply inside_entry_scalar.
Qed.

Lemma inside_entry_passthrough l : inside_entry (flat_map passthrough_pair l).
Proof.
  induction l as [|kv l IH]; [apply inside_entry_nil|].
  apply (inside_entry_app (passthrough_pair kv)); [|exact IH].
  apply (inside_entry_app [_] [_]); apply inside_entry_scalar.
Qed.

Lemma inside_entry_networkmanager_events s :
  inside_entry (networkmanager_events s).
Proof.
  unfold networkmanager_events.
  destruct (is_some (uuid (nm s)) || is_some (name (nm s))
            || nonempty (passthrough (nm s))); [|apply inside_entry_nil].
  apply (inside_entry_app [_]); [apply inside_entry_scalar|].
  apply inside_entry_mapping3; try apply inside_entry_pair_events.
  destruct (nonempty (passthrough (nm s))); [|apply inside_entry_nil].
  apply (inside_entry_app [_]); [apply inside_entry_scalar|].
  apply inside_entry_mapping, inside_entry_passthrough.
Qed.

Lemma inside_entry_access_point_fields mode_to_str ap :
  inside_entry (access_point_fields mode_to_str ap).
Proof.
  unfold access_point_fields.
  apply inside_entry_app; [apply inside_entry_flag_events|].
  apply (inside_entry_app [_]); [apply inside_entry_scalar|].
  apply (inside_entry_app [_]); [apply inside_entry_scalar|].
  apply inside_entry_networkmanager_events.
Qed.

Lemma access_point_events_entry mode_to_str ap :
  access_point_events mode_to_str ap
  = SCALAR QUOTED (ssid ap) :: MAPPING_START
    :: access_point_fields mode_to_str ap ++ [MAPPING_END].
Proof.
  unfold access_point_events, access_point_fields.
  now rewrite <- !app_assoc.
Qed.

Lemma mapping_entries_access_points mode_to_str aps :
  mapping_entries (flat_map (access_point_events mode_to_str) aps) None
  = Some (map (fun ap => (ssid ap, access_point_fields mode_to_str ap)) aps).
Proof.
  induction aps as [|ap aps IH]; [reflexivity|].
  change (flat_map (access_point_events mode_to_str) (ap :: aps))
    with (access_point_events mode_to_str ap
          ++ flat_map (access_point_events mode_to_str) aps).
  rewrite access_point_events_entry.
  cbn [app mapping_entries]. rewrite <- app_assoc.
  rewrite inside_entry_access_point_fields.
  cbn [app mapping_entries]. now rewrite IH.
Qed.

(** On a writer that accepts every event, [write_access_points] writes
    the key [access-points], a MAPPING_START, a block of events and a
    MAPPING_END, and the block reads back as exactly one entry for each
    access point of the table, in the order of the iteration: the SSID,
    quoted, for its key and a mapping of the fields of that access point
    for its value.  Nothing else is in the block: the [networkmanager]
    and [passthrough] mappings of an access point are inside its value,
    and for an empty table the block is empty, and so is the mapping. *)
Theorem access_points_mapping_has_one_entry_per_access_point
    (mode_to_str : NetplanWifiMode -> string) (def : NetplanNetDefinition) :
  let block := flat_map (access_point_events mode_to_str) (access_points def) in
  (forall w,
     write_access_points never_fails mode_to_str def w
     = (true,
        logged
          (SCALAR PLAIN "access-points" :: MAPPING_START
           :: block ++ [MAPPING_END])
          (mode_warnings (def_id def) (access_points def)) None w))
  /\ mapping_entries block None
     = Some (map (fun ap => (ssid ap, access_point_fields mode_to_str ap))
               (access_points def)).
Proof.
  cbv zeta. split.
  - intros w. apply (writes_access_points mode_to_str def).
  - apply mapping_entries_access_points.
Qed.

(** The access-points mapping of [wlan0], read back: two entries, the
    settings of [mesh] inside its value. *)
Example mapping_entries_wlan0 :
  mapping_entries
    (flat_map (access_point_events example_wifi_mode_to_str)
       (access_points wlan0)) None
  = Some
      [("home"%string,
        [SCALAR PLAIN "mode"; SCALAR PLAIN "infrastructure"]);
       ("mesh"%string,
        [SCALAR PLAIN "hidden"; SCALAR PLAIN "true";
         SCALAR PLAIN "mode"; SCALAR PLAIN "infrastructure";
         SCALAR PLAIN "networkmanager"; MAPPING_START;
         SCALAR PLAIN "passthrough"; MAPPING_START;
         SCALAR PLAIN "a"; SCALAR QUOTED "1";
         SCALAR PLAIN "b"; SCALAR QUOTED "2";
         MAPPING_END; MAPPING_END])].
Proof. reflexivity. Qed.

(** Events that are not a sequence of such entries do not read back: a
    scalar entry between two access points, a plain key. *)
Example mapping_entries_strict :
  mapping_entries
    [SCALAR QUOTED "home"; MAPPING_START; MAPPING_END;
     SCALAR PLAIN "stray"; SCALAR PLAIN "value";
     SCALAR QUOTED "mesh"; MAPPING_START; MAPPING_END] None = None
  /\ mapping_entries [SCALAR PLAIN "home"; MAPPING_START; MAPPING_END] None
     = None
  /\ mapping_entries [SCALAR QUOTED "home"; MAPPING_START] None = None.
Proof. repeat split. Qed.

(** ** Nesting, whatever the writer rejects *)

Lemma mapping_depth_app es1 es2 d :
  mapping_depth (es1 ++ es2) d
  = match mapping_depth es1 d with
    | Some d' => mapping_depth es2 d'
    | None => None
    end.
Proof.
  revert d. induction es1 as [|e es1 IH]; intros d; [reflexivity|].
  destruct e; simpl; try apply IH. destruct d; [reflexivity|apply IH].
Qed.

(** [open_mappings] and [mapping_depth] agree: the one keeps the keys of
    the open mappings, the other counts them. *)
Lemma open_mappings_depth es : forall key stack,
  match open_mappings es key stack with
  | Some stack' => mapping_depth es (length stack) = Some (length stack')
  | None => mapping_depth es (length stack) = None
  end.
Proof.
  induction es as [|e es IH]; intros key stack; [reflexivity|].
  destruct e; simpl;
    try apply IH;
    try apply (IH None (key :: stack)).
  destruct stack as [|top stack]; [reflexivity|apply IH].
Qed.

Section Nesting.

Variable fails : nat -> bool.

Lemma nests_emit e a :
  e <> MAPPING_START -> e <> MAPPING_END ->
  nests (yaml_emitter_emit fails e) a a.
Proof.
  intros Hs He w d Hw. unfold yaml_emitter_emit.
  destruct (fails (calls w)); simpl.
  - exists (d + a). split; [lia|exact Hw].
  - exists d. split; [lia|]. rewrite mapping_depth_app, Hw.
    destruct e; try reflexivity; congruence.
Qed.

Lemma nests_MAPPING_OPEN a : nests (YAML_MAPPING_OPEN fails) a (S a).
Proof.
  intros w d Hw. unfold YAML_MAPPING_OPEN, yaml_emitter_emit.
  destruct (fails (calls w)); simpl.
  - exists (d + a). split; [lia|exact Hw].
  - exists d. split; [lia|]. rewrite mapping_depth_app, Hw. simpl.
    now rewrite Nat.add_succ_r.
Qed.

Lemma nests_MAPPING_CLOSE a : nests (YAML_MAPPING_CLOSE fails) (S a) a.
Proof.
  intros w d Hw. unfold YAML_MAPPING_CLOSE, yaml_emitter_emit.
  destruct (fails (calls w)); simpl.
  - exists (d + S a). split; [lia|exact Hw].
  - exists d. split; [lia|]. rewrite mapping_depth_app, Hw.
    now rewrite Nat.add_succ_r.
Qed.

Lemma nests_SCALAR_PLAIN s a : nests (YAML_SCALAR_PLAIN fails s) a a.
Proof. apply nests_emit; discriminate. Qed.

Lemma nests_SCALAR_QUOTED s a : nests (YAML_SCALAR_QUOTED fails s) a a.
Proof. apply nests_emit; discriminate. Qed.

Lemma nests_skip a : nests skip a a.
Proof. intros w d Hw. exists d. split; [lia|exact Hw]. Qed.

Lemma nests_g_warning msg a : nests (g_warning msg) a a.
Proof. intros w d Hw. exists d. split; [lia|exact Hw]. Qed.

Lemma nests_set_emitter st a : nests (lift (set_emitter st)) a a.
Proof. intros w d Hw. exists d. split; [lia|exact Hw]. Qed.

Lemma nests_andthen x y a b c :
  nests x a b -> nests y b c -> nests (x ;; y) a c.
Proof.
  intros Hx Hy w d Hw. rewrite andthen_run.
  destruct (Hx w d Hw) as (d1 & Hd1 & H1).
  destruct (fst (x w)).
  - destruct (Hy (snd (x w)) d1 H1) as (d2 & Hd2 & H2).
    exists d2. split; [lia|exact H2].
  - exists d1. split; [lia|exact H1].
Qed.

Lemma nests_when (c : bool) m a : nests m a a -> nests (when c m) a a.
Proof. destruct c; [trivial|intros _; apply nests_skip]. Qed.

Lemma nests_if (c : bool) x y a b :
  nests x a b -> nests y a b -> nests (if c then x else y) a b.
Proof. now destruct c. Qed.

Lemma nests_with_value {A} (o : option A) f a :
  (forall v, nests (f v) a a) -> nests (with_value o f) a a.
Proof. destruct o; [intros H; apply H|intros _; apply nests_skip]. Qed.

(** A call whose result is not looked at: the code that follows runs
    whether the call ended normally or at [error], on top of the
    mappings the call left open. *)
Lemma nests_unchecked m a : nests m 0 0 -> nests (unchecked m) a a.
Proof.
  intros Hm w d Hw. unfold unchecked. simpl.
  destruct (Hm w (d + a)) as (d' & Hd' & H);
    [now rewrite Nat.add_0_r|].
  exists (d' - a). split; [lia|]. rewrite H.
  destruct (fst (m w)); f_equal; lia.
Qed.

Lemma nests_g_datalist_foreach l (h : string * string -> Y) a :
  (forall kv, nests (h kv) 0 0) ->
  nests (g_datalist_foreach l (fun kv w => snd (h kv w))) a a.
Proof.
  intros Hh. unfold g_datalist_foreach.
  induction l as [|kv l IH]; intros w d Hw; simpl.
  - exists d. split; [lia|exact Hw].
  - destruct (nests_unchecked (h kv) a (Hh kv) w d Hw) as (d1 & Hd1 & H1).
    simpl in H1.
    destruct (IH (snd (h kv w)) d1 H1) as (d2 & Hd2 & H2).
    exists d2. split; [lia|exact H2].
Qed.

Ltac nests_leaf :=
  first
    [ apply nests_SCALAR_PLAIN
    | apply nests_SCALAR_QUOTED
    | apply nests_MAPPING_OPEN
    | apply nests_MAPPING_CLOSE
    | apply nests_skip
    | apply nests_g_warning
    | apply nests_set_emitter
    | apply nests_emit; discriminate ].

Ltac nests_steps known :=
  repeat first
    [ nests_leaf
    | known
    | eapply nests_andthen
    | apply nests_when
    | apply nests_if
    | apply nests_with_value; intros ? ].

Lemma nests_YAML_STRING key v a : nests (YAML_STRING fails key v) a a.
Proof. unfold YAML_STRING. nests_steps fail. Qed.

Lemma nests_YAML_STRING_PLAIN key v a :
  nests (YAML_STRING_PLAIN fails key v) a a.
Proof. unfold YAML_STRING_PLAIN. nests_steps fail. Qed.

Lemma nests_write_match def : nests (write_match fails def) 0 0.
Proof.
  unfold write_match.
  nests_steps ltac:(apply nests_YAML_STRING).
Qed.

Lemma nests_passthrough l a :
  nests (g_datalist_foreach l (_passthrough_handler fails)) a a.
Proof.
  apply (nests_g_datalist_foreach l
           (fun kv =>
              YAML_SCALAR_PLAIN fails (fst kv) ;;
              YAML_SCALAR_QUOTED fails (snd kv))).
  intros kv. nests_steps fail.
Qed.

Lemma nests_write_backend_settings s a :
  nests (write_backend_settings fails s) a a.
Proof.
  unfold write_backend_settings.
  nests_steps ltac:(apply nests_passthrough).
Qed.

Section NestingTables.

Variable netplan_def_type_to_str : NetplanDefType -> string.
Variable netplan_backend_to_name : NetplanBackend -> option string.
Variable netplan_wifi_mode_to_str : NetplanWifiMode -> string.

Lemma nests_write_access_point id ap a :
  nests (write_access_point fails netplan_wifi_mode_to_str id ap) a a.
Proof.
  unfold write_access_point.
  nests_steps ltac:(apply nests_write_backend_settings).
Qed.

Lemma nests_access_points_loop id aps a :
  nests (access_points_loop fails netplan_wifi_mode_to_str id aps) a a.
Proof.
  induction aps as [|ap aps IH]; [apply nests_skip|].
  simpl. eapply nests_andthen; [apply nests_write_access_point|exact IH].
Qed.

Lemma nests_write_access_points def a :
  nests (write_access_points fails netplan_wifi_mode_to_str def) a a.
Proof.
  unfold write_access_points.
  nests_steps ltac:(apply nests_access_points_loop).
Qed.

Lemma nests_netplan_conf_body def :
  nests
    (write_netplan_conf_body fails netplan_def_type_to_str
       netplan_backend_to_name netplan_wifi_mode_to_str def) 0 0.
Proof.
  unfold write_netplan_conf_body, YAML_OUT_START, YAML_OUT_STOP,
    yaml_emitter_initialize, yaml_emitter_delete.
  nests_steps
    ltac:(first [ apply nests_YAML_STRING
                | apply nests_YAML_STRING_PLAIN
                | apply nests_unchecked, nests_write_match
                | apply nests_write_access_points
                | apply nests_write_backend_settings ]).
Qed.

End NestingTables.
End Nesting.

(** For every definition, of any type, and every root directory under
    which the target can be opened: the document the render leaves when
    the writer rejects nothing closes every mapping it opens and no
    other; and whatever the writer rejects, what the render leaves in the
    stream never closes a mapping that was not opened, be the rejected
    write one of the match mapping or of a passthrough pair, after which
    the render goes on. *)
Theorem written_mappings_are_nested (fails : nat -> bool)
    (type_to_str : NetplanDefType -> string)
    (backend_to_name : NetplanBackend -> option string)
    (mode_to_str : NetplanWifiMode -> string)
    (can_open : string -> bool)
    (def : NetplanNetDefinition) (rootdir : option string) :
  can_open (conf_path def rootdir) = true ->
  (exists w0,
     write_netplan_conf never_fails type_to_str backend_to_name mode_to_str
       can_open def rootdir world0 = Some w0
     /\ open_mappings (emitted w0) None [] = Some [])
  /\ (exists w' stack,
        write_netplan_conf fails type_to_str backend_to_name mode_to_str
          can_open def rootdir world0 = Some w'
        /\ open_mappings (emitted w') None [] = Some stack).
Proof.
  intros Hopen. split.
  - eexists. split; [apply write_netplan_conf_accepted, Hopen|].
    apply open_mappings_whole_document.
  - destruct (nests_netplan_conf_body fails type_to_str backend_to_name
                mode_to_str def
                (set_output (STREAM_OPEN (conf_path def rootdir)) world0) 0
                eq_refl) as (d' & _ & Hdepth).
    assert (Hsome : exists stack,
              open_mappings
                (emitted
                   (snd (write_netplan_conf_body fails type_to_str
                           backend_to_name mode_to_str def
                           (set_output (STREAM_OPEN (conf_path def rootdir))
                              world0)))) None [] = Some stack).
    { pose proof (open_mappings_depth
                    (emitted
                       (snd (write_netplan_conf_body fails type_to_str
                               backend_to_name mode_to_str def
                               (set_output
                                  (STREAM_OPEN (conf_path def rootdir))
                                  world0)))) None []) as H.
      destruct (open_mappings _ None []) as [stack|];
        [now exists stack|].
      simpl length in H. rewrite H in Hdepth. discriminate Hdepth. }
    destruct Hsome as [stack Hstack].
    eexists. exists stack.
    split; [apply write_netplan_conf_opened, Hopen|]. cbv zeta.
    destruct (fst _); exact Hstack.
Qed.

Lemma written_mappings_are_nested_witness :
  (exists w0,
     write_netplan_conf never_fails example_def_type_to_str
       example_backend_to_name example_wifi_mode_to_str always_opens
       eth0 (Some "/tmp/root"%string) world0 = Some w0
     /\ open_mappings (emitted w0) None [] = Some [])
  /\ (exists w' stack,
        write_netplan_conf (fails_only_at 15) example_def_type_to_str
          example_backend_to_name example_wifi_mode_to_str always_opens
          eth0 (Some "/tmp/root"%string) world0 = Some w'
        /\ open_mappings (emitted w') None [] = Some stack).
Proof.
  apply (written_mappings_are_nested (fails_only_at 15)
           example_def_type_to_str example_backend_to_name
           example_wifi_mode_to_str always_opens eth0
           (Some "/tmp/root"%string)).
  reflexivity.
Defined.

(** A mapping can stay open: when the writer rejects the key [name] of
    the match of [eth0], the match mapping is never closed and the three
    MAPPING_END that follow close it and the two mappings around it; the
    root mapping is still open at the end of the stream. *)
Example rejected_match_name_leaves_a_mapping_open :
  option_map (fun w => (emitted w, open_mappings (emitted w) None []))
    (write_netplan_conf (fails_only_at 15) example_def_type_to_str
       example_backend_to_name example_wifi_mode_to_str always_opens
       eth0 (Some "/tmp/root"%string) world0)
  = Some
      ([STREAM_START; DOCUMENT_START; MAPPING_START;
        SCALAR PLAIN "network"; MAPPING_START;
        SCALAR PLAIN "version"; SCALAR PLAIN "2";
        SCALAR PLAIN "ethernets"; MAPPING_START;
        SCALAR PLAIN "eth0"; MAPPING_START;
        SCALAR PLAIN "renderer"; SCALAR PLAIN "NetworkManager";
        SCALAR PLAIN "match"; MAPPING_START;
        SCALAR PLAIN "wakeonlan"; SCALAR PLAIN "true";
        SCALAR PLAIN "apn"; SCALAR QUOTED "internet"; MAPPING_END;
        MAPPING_END; MAPPING_END; MAPPING_END; DOCUMENT_END; STREAM_END],
       Some [None]).
Proof. reflexivity. Qed.

(** ** The writes after which the render stops *)

Lemma all_checked_length es : length (all_checked es) = length es.
Proof. apply length_map. Qed.

Lemma none_checked_length es : length (none_checked es) = length es.
Proof. apply length_map. Qed.

Lemma none_checked_nth es k : nth k (none_checked es) false = false.
Proof.
  revert k. induction es as [|e es IH]; intros [|k]; simpl; auto.
Qed.

Lemma all_checked_app es1 es2 :
  all_checked (es1 ++ es2) = all_checked es1 ++ all_checked es2.
Proof. apply map_app. Qed.

Section Stopping.

Variable fails : nat -> bool.

Lemma checks_length m es cs : checks fails m es cs -> length cs = length es.
Proof.
  induction 1; [apply all_checked_length|apply none_checked_length|].
  rewrite !length_app. congruence.
Qed.

(** The code stops at the first rejected write when that write is one
    of those it checks: it ends at [error], having written the events
    before that write and no other, and that write is the last call it
    made.  With no rejected write it ends normally with all its events
    written. *)
Lemma checks_stops m es cs :
  checks fails m es cs ->
  forall w,
    match first_rejected fails (calls w) (length es) with
    | None =>
        fst (m w) = true
        /\ emitted (snd (m w)) = emitted w ++ es
        /\ calls (snd (m w)) = calls w + length es
    | Some k =>
        nth k cs false = true ->
        fst (m w) = false
        /\ emitted (snd (m w)) = emitted w ++ firstn k es
        /\ calls (snd (m w)) = calls w + S k
    end.
Proof.
  induction 1 as [m es ws Hm|m es ws Hm
                 |a b es1 cs1 es2 cs2 Ha IHa Hb IHb]; intros w.
  - pose proof (renders_strict fails true m es ws Hm eq_refl w) as H.
    destruct (first_rejected fails (calls w) (length es)); [|exact H].
    intros _. exact H.
  - destruct (first_rejected fails (calls w) (length es)) as [k|] eqn:E.
    + rewrite none_checked_nth. discriminate.
    + destruct (renders_accepted fails false m es ws Hm w
                  (proj1 (first_rejected_none _ _ _) E))
        as (Hok & He & Hc & _).
      now repeat split.
  - specialize (IHa w). rewrite length_app, first_rejected_add.
    rewrite andthen_run.
    pose proof (checks_length _ _ _ Ha) as Hlen.
    destruct (first_rejected fails (calls w) (length es1)) as [k|] eqn:E.
    + destruct (first_rejected_bound _ _ _ _ E) as (Hk & _).
      rewrite app_nth1 by lia. intros Hchecked.
      destruct (IHa Hchecked) as (Hok & He & Hc). rewrite Hok. simpl.
      rewrite firstn_app, He.
      replace (k - length es1) with 0 by lia.
      simpl. now rewrite app_nil_r.
    + destruct IHa as (Hok & He & Hc). rewrite Hok.
      specialize (IHb (snd (a w))). rewrite Hc in IHb.
      destruct (first_rejected fails (calls w + length es1) (length es2))
        as [k|]; simpl option_map; cbv iota.
      * rewrite app_nth2 by lia.
        replace (length es1 + k - length cs1) with k by lia.
        intros Hchecked.
        destruct (IHb Hchecked) as (Hok' & He' & Hc').
        rewrite Hok', He', Hc', He.
        rewrite firstn_app.
        replace (length es1 + k - length es1) with k by lia.
        rewrite (firstn_all2 (n := length es1 + k) es1) by lia.
        rewrite app_assoc. repeat split. lia.
      * destruct IHb as (Hok' & He' & Hc'). rewrite Hok', He', Hc', He.
        rewrite app_assoc. repeat split. lia.
Qed.

Lemma checks_then a b es1 cs1 es2 cs2 es cs :
  checks fails a es1 cs1 -> checks fails b es2 cs2 ->
  es = es1 ++ es2 -> cs = cs1 ++ cs2 ->
  checks fails (a ;; b) es cs.
Proof. intros Ha Hb -> ->. now apply checks_andthen. Qed.

Lemma checks_emit e :
  checks fails (yaml_emitter_emit fails e) [e] (all_checked [e]).
Proof. apply (checks_strict fails _ _ []), renders_emit. Qed.

Lemma checks_skip : checks fails skip [] [].
Proof. apply (checks_strict fails _ [] []), renders_skip. Qed.

Ltac checks_emit_then :=
  eapply checks_then; [apply checks_emit| |reflexivity..].

Ltac checks_strict_then R :=
  eapply checks_then;
    [eapply checks_strict; apply R| |reflexivity..].

Lemma checks_backend_settings s :
  checks fails (write_backend_settings fails s)
    (networkmanager_events s) (networkmanager_checks s).
Proof.
  unfold write_backend_settings, networkmanager_events,
    networkmanager_checks.
  destruct (is_some (uuid (nm s)) || is_some (name (nm s))
            || nonempty (passthrough (nm s))); simpl when;
    [|apply checks_skip].
  do 2 checks_emit_then.
  checks_strict_then (renders_YAML_STRING_PLAIN fails true "uuid").
  checks_strict_then (renders_YAML_STRING fails true "name").
  eapply checks_then; [|apply checks_emit|reflexivity..].
  destruct (nonempty (passthrough (nm s))); simpl when;
    [|apply checks_skip].
  do 2 checks_emit_then.
  eapply checks_then;
    [eapply checks_loose, renders_passthrough|apply checks_emit
    |reflexivity..].
Qed.

Section StoppingTables.

Variable netplan_def_type_to_str : NetplanDefType -> string.
Variable netplan_backend_to_name : NetplanBackend -> option string.
Variable netplan_wifi_mode_to_str : NetplanWifiMode -> string.

Lemma checks_access_point id ap :
  checks fails (write_access_point fails netplan_wifi_mode_to_str id ap)
    (access_point_events netplan_wifi_mode_to_str ap)
    (access_point_checks netplan_wifi_mode_to_str ap).
Proof.
  unfold write_access_point, access_point_events, access_point_checks.
  do 2 checks_emit_then.
  checks_strict_then (renders_flag fails true "hidden").
  checks_emit_then.
  checks_strict_then
    (renders_mode fails netplan_wifi_mode_to_str true id ap).
  eapply checks_then;
    [apply checks_backend_settings|apply checks_emit|reflexivity..].
Qed.

Lemma checks_access_points_loop id aps :
  checks fails (access_points_loop fails netplan_wifi_mode_to_str id aps)
    (flat_map (access_point_events netplan_wifi_mode_to_str) aps)
    (flat_map (access_point_checks netplan_wifi_mode_to_str) aps).
Proof.
  induction aps as [|ap aps IH]; [apply checks_skip|].
  simpl access_points_loop.
  change (flat_map (access_point_events netplan_wifi_mode_to_str) (ap :: aps))
    with (access_point_events netplan_wifi_mode_to_str ap
          ++ flat_map (access_point_events netplan_wifi_mode_to_str) aps).
  change (flat_map (access_point_checks netplan_wifi_mode_to_str) (ap :: aps))
    with (access_point_checks netplan_wifi_mode_to_str ap
          ++ flat_map (access_point_checks netplan_wifi_mode_to_str) aps).
  apply checks_andthen; [apply checks_access_point|exact IH].
Qed.

Lemma checks_access_points def :
  checks fails (write_access_points fails netplan_wifi_mode_to_str def)
    (access_points_events netplan_wifi_mode_to_str (access_points def))
    (access_points_checks netplan_wifi_mode_to_str (access_points def)).
Proof.
  unfold write_access_points, access_points_events, access_points_checks.
  do 2 checks_emit_then.
  eapply checks_then;
    [apply checks_access_points_loop|apply checks_emit|reflexivity..].
Qed.

Lemma checks_fields_after_match def :
  checks fails (fields_after_match fails netplan_wifi_mode_to_str def)
    (events_after_match netplan_wifi_mode_to_str def)
    (all_checked (flag_events "wakeonlan" (wake_on_lan def))
     ++ all_checked (modem_events (modem_params def))
     ++ (if def_type_eqb (def_type def) NETPLAN_DEF_TYPE_WIFI
         then access_points_checks netplan_wifi_mode_to_str
                (access_points def)
         else [])).
Proof.
  unfold fields_after_match, events_after_match, modem_events.
  rewrite !all_checked_app, <- !app_assoc.
  checks_strict_then (renders_flag fails true "wakeonlan").
  checks_strict_then (renders_flag fails true "auto-config").
  do 6 (eapply checks_then;
          [eapply checks_strict; apply renders_YAML_STRING|
          |reflexivity..]).
  destruct (def_type_eqb (def_type def) NETPLAN_DEF_TYPE_WIFI);
    [apply checks_access_points|apply checks_skip].
Qed.

Lemma checks_settings_and_closing def :
  checks fails (settings_and_closing fails def)
    (networkmanager_events (backend_settings def)
     ++ closing_events ++ stop_events)
    (networkmanager_checks (backend_settings def)
     ++ all_checked closing_events ++ all_checked stop_events).
Proof.
  unfold settings_and_closing, closing_events, stop_events.
  eapply checks_then; [apply checks_backend_settings| |reflexivity..].
  do 3 checks_emit_then.
  unfold YAML_OUT_STOP, yaml_emitter_delete.
  do 2 checks_emit_then.
  eapply checks_then;
    [apply checks_emit
    |apply (checks_strict fails _ [] []), renders_set_emitter
    |reflexivity..].
Qed.

Lemma checks_skeleton def rest es cs :
  checks fails rest es cs ->
  checks fails
    (YAML_OUT_START fails ;;
     YAML_SCALAR_PLAIN fails "network" ;;
     YAML_MAPPING_OPEN fails ;;
     YAML_STRING_PLAIN fails "version" (Some "2"%string) ;;
     YAML_SCALAR_PLAIN fails (netplan_def_type_to_str (def_type def)) ;;
     YAML_MAPPING_OPEN fails ;;
     YAML_SCALAR_PLAIN fails (def_id def) ;;
     YAML_MAPPING_OPEN fails ;;
     YAML_STRING_PLAIN fails "renderer"
       (netplan_backend_to_name (def_backend def)) ;;
     rest)
    (skeleton_events netplan_def_type_to_str netplan_backend_to_name def
     ++ es)
    (all_checked
       (skeleton_events netplan_def_type_to_str netplan_backend_to_name def)
     ++ cs).
Proof.
  intros Hrest. unfold skeleton_events.
  rewrite all_checked_app, <- !app_assoc.
  checks_strict_then (renders_OUT_START fails true).
  do 2 checks_emit_then.
  checks_strict_then
    (renders_YAML_STRING_PLAIN fails true "version" (Some "2"%string)).
  do 4 checks_emit_then.
  eapply checks_then;
    [eapply checks_strict; apply (renders_YAML_STRING_PLAIN fails true "renderer")
    |exact Hrest|reflexivity..].
Qed.

(** The whole body, with the marks of its document. *)
Lemma checks_netplan_conf_body def :
  checks fails
    (write_netplan_conf_body fails netplan_def_type_to_str
       netplan_backend_to_name netplan_wifi_mode_to_str def)
    (document_events netplan_def_type_to_str netplan_backend_to_name
       netplan_wifi_mode_to_str def)
    (document_checks netplan_def_type_to_str netplan_backend_to_name
       netplan_wifi_mode_to_str def).
Proof.
  rewrite write_netplan_conf_body_parts.
  unfold document_events, document_checks. apply checks_skeleton.
  eapply checks_then;
    [ |apply checks_settings_and_closing|reflexivity..].
  destruct (def_type_eqb (def_type def) NETPLAN_DEF_TYPE_OTHER);
    [apply checks_skip|].
  unfold field_events, field_checks.
  fold (events_after_match netplan_wifi_mode_to_str def).
  eapply checks_then;
    [ |apply checks_fields_after_match|reflexivity..].
  destruct (has_match def); [|apply checks_skip].
  apply (checks_loose fails _ _ []), renders_unchecked, renders_match.
Qed.

End StoppingTables.
End Stopping.

(** For a definition all of whose writes are checked, every mark is
    [true]. *)
Lemma networkmanager_checks_all s :
  no_passthrough s = true ->
  networkmanager_checks s = all_checked (networkmanager_events s).
Proof.
  unfold no_passthrough, networkmanager_checks, networkmanager_events.
  intros Hs. apply negb_true_iff in Hs. rewrite Hs.
  destruct (is_some (uuid (nm s)) || is_some (name (nm s)) || false);
    [|reflexivity].
  now rewrite !all_checked_app.
Qed.

Lemma access_points_checks_all mode_to_str aps :
  forallb (fun ap => no_passthrough (ap_backend_settings ap)) aps = true ->
  access_points_checks mode_to_str aps
  = all_checked (access_points_events mode_to_str aps).
Proof.
  intros Haps. unfold access_points_checks, access_points_events.
  rewrite !all_checked_app. f_equal. f_equal.
  induction aps as [|ap aps IH]; [reflexivity|].
  simpl in Haps. apply andb_true_iff in Haps. destruct Haps as [Hap Haps].
  change (flat_map (access_point_events mode_to_str) (ap :: aps))
    with (access_point_events mode_to_str ap
          ++ flat_map (access_point_events mode_to_str) aps).
  change (flat_map (access_point_checks mode_to_str) (ap :: aps))
    with (access_point_checks mode_to_str ap
          ++ flat_map (access_point_checks mode_to_str) aps).
  rewrite all_checked_app, (IH Haps). f_equal.
  unfold access_point_checks, access_point_events.
  now rewrite (networkmanager_checks_all _ Hap), !all_checked_app.
Qed.

Lemma document_checks_all type_to_str backend_to_name mode_to_str def :
  every_write_checked def = true ->
  document_checks type_to_str backend_to_name mode_to_str def
  = all_checked (document_events type_to_str backend_to_name mode_to_str def).
Proof.
  unfold every_write_checked, document_checks, document_events.
  intros H. apply andb_true_iff in H. destruct H as [Hs H].
  rewrite !all_checked_app, (networkmanager_checks_all _ Hs).
  f_equal. f_equal.
  destruct (def_type_eqb (def_type def) NETPLAN_DEF_TYPE_OTHER);
    [reflexivity|].
  simpl in H. apply andb_true_iff in H. destruct H as [Hm Hw].
  apply negb_true_iff in Hm.
  unfold field_checks, field_events. rewrite Hm, !all_checked_app.
  do 3 f_equal.
  destruct (def_type_eqb (def_type def) NETPLAN_DEF_TYPE_WIFI);
    [|reflexivity].
  now apply access_points_checks_all.
Qed.

Lemma all_checked_nth es k :
  k < length es -> nth k (all_checked es) false = true.
Proof.
  revert k. induction es as [|e es IH]; intros [|k]; simpl; try lia; auto.
  intros Hk. apply IH. lia.
Qed.

(** ** What the caller of the render operation gets *)

(** C2 (counterexample): the writer rejects the key [version] of the
    document of [ppp0], a definition with no match and no passthrough
    mapping, all of whose writes are checked.  The render jumps to
    [error], deletes the emitter, closes the stream and returns, with
    five events in the stream and nothing logged; its caller gets what
    the caller of the run in which nothing is rejected gets, which is
    nothing: the failure does not surface as an outcome. *)
Lemma render_write_failure_is_not_reported :
  every_write_checked ppp0 = true
  /\ write_netplan_conf_body (fails_only_at 5) example_def_type_to_str
       example_backend_to_name example_wifi_mode_to_str ppp0
       (set_output (STREAM_OPEN "/tmp/root/etc/netplan/90-NM-abc-123.yaml")
          world0)
     = (false,
        {| emitted :=
             [STREAM_START; DOCUMENT_START; MAPPING_START;
              SCALAR PLAIN "network"; MAPPING_START];
           calls := 6;
           warnings := [];
           emitter := EMITTER_READY;
           output := STREAM_OPEN "/tmp/root/etc/netplan/90-NM-abc-123.yaml";
           fcloses := 0 |})
  /\ write_netplan_conf (fails_only_at 5) example_def_type_to_str
       example_backend_to_name example_wifi_mode_to_str always_opens
       ppp0 (Some "/tmp/root"%string) world0
     = Some
         {| emitted :=
              [STREAM_START; DOCUMENT_START; MAPPING_START;
               SCALAR PLAIN "network"; MAPPING_START];
            calls := 6;
            warnings := [];
            emitter := EMITTER_DELETED;
            output :=
              STREAM_CLOSED "/tmp/root/etc/netplan/90-NM-abc-123.yaml";
            fcloses := 1 |}
  /\ write_netplan_conf_returns (fails_only_at 5) example_def_type_to_str
       example_backend_to_name example_wifi_mode_to_str always_opens
       ppp0 (Some "/tmp/root"%string) world0
     = write_netplan_conf_returns never_fails example_def_type_to_str
         example_backend_to_name example_wifi_mode_to_str always_opens
         ppp0 (Some "/tmp/root"%string) world0
  /\ write_netplan_conf_returns (fails_only_at 5) example_def_type_to_str
       example_backend_to_name example_wifi_mode_to_str always_opens
       ppp0 (Some "/tmp/root"%string) world0
     = Some tt.
Proof. repeat split. Qed.

Lemma write_netplan_conf_returns_opened fails type_to_str backend_to_name
    mode_to_str can_open def rootdir w :
  can_open (conf_path def rootdir) = true ->
  write_netplan_conf_returns fails type_to_str backend_to_name mode_to_str
    can_open def rootdir w = Some tt.
Proof.
  intros Hopen. unfold write_netplan_conf_returns.
  now rewrite write_netplan_conf_opened.
Qed.

(** C2 (amended): for every definition and every root directory under
    which the target can be opened, the render operation returns, and it
    returns nothing: its caller gets the same whether a write was
    rejected or not.  The call ends with the emitter deleted and the
    stream closed by one [fclose].  When the writer rejects no write, the
    whole document is in the stream; when the first write it rejects is
    one whose result the code checks, rendering stops there: the stream
    holds the events of the document before that write and no other, no
    call is made after it, and no stream end is written. *)
Theorem render_returns_nothing_and_stops_at_a_checked_write
    (fails : nat -> bool)
    (type_to_str : NetplanDefType -> string)
    (backend_to_name : NetplanBackend -> option string)
    (mode_to_str : NetplanWifiMode -> string)
    (can_open : string -> bool)
    (def : NetplanNetDefinition) (rootdir : option string) :
  can_open (conf_path def rootdir) = true ->
  write_netplan_conf_returns fails type_to_str backend_to_name mode_to_str
    can_open def rootdir world0 = Some tt
  /\ write_netplan_conf_returns fails type_to_str backend_to_name
       mode_to_str can_open def rootdir world0
     = write_netplan_conf_returns never_fails type_to_str backend_to_name
         mode_to_str can_open def rootdir world0
  /\ exists w',
       write_netplan_conf fails type_to_str backend_to_name mode_to_str
         can_open def rootdir world0 = Some w'
       /\ emitter w' = EMITTER_DELETED
       /\ output w' = STREAM_CLOSED (conf_path def rootdir)
       /\ fcloses w' = 1
       /\ match
            first_rejected fails 0
              (length (document_events type_to_str backend_to_name
                         mode_to_str def))
          with
          | None =>
              emitted w'
              = document_events type_to_str backend_to_name mode_to_str def
              /\ calls w'
                 = length (document_events type_to_str backend_to_name
                             mode_to_str def)
          | Some k =>
              nth k (document_checks type_to_str backend_to_name
                       mode_to_str def) false = true ->
              emitted w'
              = firstn k
                  (document_events type_to_str backend_to_name mode_to_str
                     def)
              /\ calls w' = S k
              /\ ~ In STREAM_END (emitted w')
          end.
Proof.
  intros Hopen.
  split; [now apply write_netplan_conf_returns_opened|].
  split; [now rewrite !write_netplan_conf_returns_opened|].
  eexists. split; [apply write_netplan_conf_opened, Hopen|]. cbv zeta.
  set (w := set_output (STREAM_OPEN (conf_path def rootdir)) world0).
  set (body := write_netplan_conf_body fails type_to_str backend_to_name
                 mode_to_str def).
  destruct (body_keeps_output_stream fails type_to_str backend_to_name
              mode_to_str def w) as [Ho Hf].
  fold body in Ho, Hf.
  pose proof (checks_stops fails _ _ _
                (checks_netplan_conf_body fails type_to_str backend_to_name
                   mode_to_str def) w) as Hstops.
  fold body in Hstops.
  pose proof (finalizes_netplan_conf_body fails type_to_str backend_to_name
                mode_to_str def w) as Hfin.
  fold body in Hfin.
  pose proof (netplan_conf_body_no_stream_end_on_error fails type_to_str
                backend_to_name mode_to_str def w) as Hend.
  fold body in Hend.
  change (calls w) with 0 in Hstops. change (emitted w) with (@nil yaml_event) in *.
  assert (Hem : emitter (if fst (body w) then snd (body w)
                         else set_emitter EMITTER_DELETED (snd (body w)))
                = EMITTER_DELETED).
  { destruct (fst (body w)); [|reflexivity].
    now destruct (Hfin eq_refl) as (_ & _ & E & _). }
  rewrite !(proj2 (proj2 (proj2 (fclose_keeps _)))). 
  split; [exact Hem|].
  split.
  { unfold fclose; simpl output.
    destruct (fst (body w)); simpl; now rewrite Ho. }
  split.
  { unfold fclose; simpl fcloses.
    destruct (fst (body w)); simpl; now rewrite Hf. }
  rewrite (proj1 (fclose_keeps _)), (proj1 (proj2 (fclose_keeps _))).
  destruct (first_rejected fails 0 _) as [k|].
  - intros Hchecked. destruct (Hstops Hchecked) as (Hok & He & Hc).
    rewrite Hok. simpl. rewrite He, Hc. repeat split.
    rewrite <- He. apply Hend; [intros []|exact Hok].
  - destruct Hstops as (Hok & He & Hc). rewrite Hok, He, Hc. now split.
Qed.

Lemma render_returns_nothing_and_stops_at_a_checked_write_witness :
  write_netplan_conf_returns (fails_only_at 20) example_def_type_to_str
    example_backend_to_name example_wifi_mode_to_str always_opens
    eth0 (Some "/tmp/root"%string) world0 = Some tt
  /\ exists w',
       write_netplan_conf (fails_only_at 20) example_def_type_to_str
         example_backend_to_name example_wifi_mode_to_str always_opens
         eth0 (Some "/tmp/root"%string) world0 = Some w'
       /\ emitter w' = EMITTER_DELETED
       /\ output w'
          = STREAM_CLOSED "/tmp/root/etc/netplan/10-netplan-eth0.yaml"
       /\ fcloses w' = 1
       /\ emitted w'
          = [STREAM_START; DOCUMENT_START; MAPPING_START;
             SCALAR PLAIN "network"; MAPPING_START;
             SCALAR PLAIN "version"; SCALAR PLAIN "2";
             SCALAR PLAIN "ethernets"; MAPPING_START;
             SCALAR PLAIN "eth0"; MAPPING_START;
             SCALAR PLAIN "renderer"; SCALAR PLAIN "NetworkManager";
             SCALAR PLAIN "match"; MAPPING_START;
             SCALAR PLAIN "name"; SCALAR QUOTED "enp3s0"; MAPPING_END;
             SCALAR PLAIN "wakeonlan"; SCALAR PLAIN "true"]
       /\ calls w' = 21
       /\ ~ In STREAM_END (emitted w').
Proof.
  destruct (render_returns_nothing_and_stops_at_a_checked_write
              (fails_only_at 20) example_def_type_to_str
              example_backend_to_name example_wifi_mode_to_str always_opens
              eth0 (Some "/tmp/root"%string) eq_refl)
    as (Hret & _ & w' & Hrun & Hem & Hout & Hfc & Hstop).
  split; [exact Hret|].
  exists w'.
  split; [exact Hrun|]. split; [exact Hem|]. split; [exact Hout|].
  split; [exact Hfc|]. exact (Hstop eq_refl).
Defined.
